(* ===== verification/_CoqProject ===== *)
-Q . S2P
Prelude.v
JsValue.v
UriEncode.v
UriDecode.v
Http.v
Resolver.v
Cast.v
SearchRoutes.v
ActorRoutes.v
Services.v
Accounts.v
TwoFactor.v
Library.v
Interleave.v
Server.v
Contract.v
Tests.v
