(* ===== verification/Prelude.v ===== *)
(** * A verification library for the "Chills" back end (tOCHSKa/CICDvite, src/back)

    ** The program

    An Express server ([src/back/server.js]) with two halves.
    - The search half proxies a movie metadata API
      ([moviesminidatabase.p.rapidapi.com]).  Every route under
      [src/back/apiRequest/] builds an [https.request] inline, parses the
      body with [JSON.parse] in the ['end'] listener, and either forwards
      the parsed value or chains further requests: resolve a title or a
      name to an IMDb identifier (first candidate wins), fetch details,
      fetch the cast, and fetch each cast member or each listed title one
      after the other.
    - The account half ([src/back/routes/]) runs parameterized SQL on the
      [users], [favori] and [historique] tables and keeps one piece of
      process-wide state, the [twoFA] map of pending login codes.

    ** How the library models it

    - [Prelude] (this file): the outcome of a JavaScript computation
      ([Val], [Exc] for an exception a [try]/[catch] or an awaited
      rejection can see, [Crashed] for an exception thrown inside an event
      listener, which ends the Node process); the state-and-exception monad
      [St S A = S -> outcome A * S] with [let*], [catch], [mapM] (a
      [for ... of] loop whose failure aborts) and [mapM_skip] (a loop whose
      body has its own [try]/[catch] that skips the element); the trace
      lemmas of both loops; the [no_crash] closure lemmas, collected in the
      hint database [chills]; string and list lemmas.
    - [JsValue]: JSON values as [JSON.parse] returns them and the operators
      the handlers apply: property access (a [TypeError] on [null] and
      [undefined]), truthiness, [ToNumber] for [x.length > 0], template
      strings [`${v}`], [trim].  A string is its UTF-8 bytes; [utf8_chars]
      splits it into code points, and [.length] is [utf16_length], the
      UTF-16 code units JavaScript counts (two for a code point above
      [U+FFFF]).
    - [UriEncode]: [encodeURIComponent] on UTF-8 byte strings, its inverse,
      and URL path segments.
    - [Http]: the upstream as an oracle [api : string -> reply] (transport
      error, non-JSON body, or a JSON value); a handler's state is the
      trace of the paths it requested.  The four client idioms of the
      source ([fetch_unguarded], [fetch_guarded], [passthrough_unguarded],
      [passthrough_guarded]) differ in where [JSON.parse] can throw.
      [requests_at_most k m] bounds the requests a handler sends on every
      upstream, with one rule per combinator of the monad.
    - [Resolver]: the four-times-repeated lines
      [if (x.results && x.results.length > 0) imdbId = x.results[0].imdb_id]
      and [Resolver.Spec], the resolution result the spec describes.
    - [Cast]: [getActorImage.js]: the cast extractor (filter out
      ["Director"]/["Writer"], keep ten) and the sequential enricher.
    - [SearchRoutes]: [movie.js] and the single-call routes
      ([retrievegetMovieIdByTitle.js], [retrievegetSeriesIdByTitle.js],
      [listGetGenre.js], [listgetSeriesOrderByRatings.js]).
    - [ActorRoutes]: [getActorInfo.js], [listFilmByActor.js],
      [listSerieByActor.js].

    - [Services]: the libraries the account routes call, as type classes
      with the laws the proofs use: [PasswordHasher] ([bcrypt]),
      [EmailValidator] ([validator.isEmail]), [TokenSigner] ([jwt.sign]),
      [Collation] (MySQL's [=] in [WHERE], only its symmetry assumed);
      [Services.Demo] gives one instance of each for the witnesses.
      [validator.isLength] counts code points, variation selectors
      excluded ([isLength_count]), as validator's own code does.
    - [Accounts]: [routes/users.js] [/register], [GET]/[PUT /profile/:id],
      [PUT /profile/mdp/:id], [DELETE /profile/supprimerCompte/:id] in
      [St users_db]: the [users] table is a list of rows with the
      [AUTO_INCREMENT] counter, and every SQL statement of the file is one
      definition ([select_by_email], [insert_user], [update_profile],
      [delete_where], ...).  [step] is one request to any of these routes,
      [reachable] the tables reachable from an empty one.  The password
      policy's [/[^\w\s]/] is [is_special_char], with the Unicode spaces
      of [\s].
    - [TwoFactor]: the process-wide [twoFA] object with [/login] and
      [/verify-2fa] in [St store].  The object is modelled as JavaScript
      has it: own properties in a [gmap], the prototype chain, the
      [__proto__] setter and [delete].  A crash restarts the process with
      an empty object ([Server.restart]).
    - [Library]: [routes/favoris.js] and [routes/historique.js], each table
      a list of rows, each addition an insert-if-absent whose invariant is
      proved once ([KeyedTable]) for both.
    - [UriDecode]: [decodeURIComponent], which Express (not code of the
      repository) applies to every route parameter: the [%XY] escapes,
      then the UTF-8 check of the escaped octets (lead octet, continuation
      octets, no overlong form, no surrogate, nothing above [U+10FFFF]);
      it gives back what [encodeURIComponent] encoded ([decode_encode]).
    - [Interleave]: the event loop at the [await]s of [POST /register],
      [PUT /profile/:id], [POST /favoris/:id] and [POST /historique/:id/]:
      each handler cut into resumable segments on its table ([thread];
      [guarded], the check-then-write tail three of them share), a pool of
      requests and any schedule ([sched_step]).
    - [Server]: [server.js] with the parts of Express 4 it relies on.
      [boot] loads the modules in [require] order; [mount_match] and
      [match_route] are the case-insensitive prefix and route matching of
      [app.use] and [router.get/post/...], [decode_param] decodes each
      parameter (a [URIError] is a 400), [router_dispatch] and
      [app_dispatch] Express's [next()] loops over the route tables of every
      router and the mounts in [app.use] order.  [serve] answers one
      request: [bodyParser.json()], [cors()], [/api-doc], the routers and
      Express's final handler, on one [server] state joining the [users],
      [favori] and [historique] tables, the [twoFA] object and the log of
      upstream requests.  An exception outside any [try] ends the process
      ([settle]), which starts again with an empty [twoFA] ([restart]).
      The router of the missing [listgetFilmsOrderByRatings.js] is a
      parameter of the application.
    - [Contract]: the [@swagger] comment blocks above the routes, which
      [swaggerJsDoc] collects into the document served under [/api-doc]
      ([swagger_docs]): one [doc_op] per block, its method, its path
      relative to the router and the status codes it lists.  [answers_in]
      is a postcondition on the handler monad, proved rule by rule over
      [ret], [let*], [catch] and the branches of each handler.
    - [Tests]: the jest suites of [src/back/test].  Each case of
      [user.test.js] is a [test_case] (the request, the mocked
      [connectToDb], the [expect]s), run by [run_test] through the test's
      own application ([users_router] under [/api/users]);
      [api.test.ts] is its list of [require]s.
    Each handler is one definition named after the route's module
    ([castInfoByMovie], [castByMovie], [listFilmByActor], ...), taking the
    oracle and the route parameter (already percent-decoded by Express) and
    returning a response [{status; body}] in the monad.

    ** What is proved

    - Refinement: the resolver implements [Resolver.Spec.resolve] on the
      documented payload; each aggregation handler is characterised as a
      function of the oracle: the answer and the exact, ordered trace of
      upstream requests ([castByMovie_found], [castInfoByMovie_ok],
      [listFilmByActor_skip]).
    - Error paths: not-found answers 404 after one request, transport
      failures answer 500 and stop, an actor lookup failure aborts
      [castInfoByMovie] with no later request, a rejected title lookup is
      skipped by [listFilmByActor]; [listFilmByActor] can never crash.
    - Bounds: whatever the upstream answers, [castInfoByMovie] sends at
      most eleven requests, the cast and at most ten actors
      ([castInfoByMovie_requests_bounded], by the rules of
      [requests_at_most]), and of a readable cast it keeps exactly the
      first [min 10 n] of its [n] performers.
    - The application as a whole: an encoded title reaches [castByMovie]
      exactly as typed ([serve_castByMovie]); an undecodable parameter is a
      400 from Express for every method ([serve_undecodable]); every routed
      request binds exactly the parameters its handler reads
      ([routed_params]); the missing router can only affect its own mount
      ([filmbyrating_isolated]); the server as committed cannot start
      ([boot_missing_module]).  Requests interfere through the process: a
      search that crashes it cancels every pending two-factor login
      ([search_crash_drops_codes]).
    - The published contract: every handler with a Swagger block answers
      only statuses its block lists ([documented_statuses]), but for four
      routes that also answer an undocumented 400
      ([undocumented_statuses]); no documented operation is served at its
      documented path, which lacks the [/api/...] mount
      ([documented_paths_unrouted]).
    - The repository's tests: whatever the mocked libraries, the tables
      and the environment, only the two database-failure cases of
      [user.test.js] pass; the three others send passwords the handlers
      reject with 400 before any query ([user_suite_verdicts], from the
      postconditions [register_created_policy] and
      [login_checked_policy]); [api.test.ts] cannot load
      ([api_suite_missing_module]).
    - Interleaving: each of the four cut handlers behaves as its handler
      when run alone ([register_thread_alone], ...); two check-then-
      write requests whose checks both pass both write ([guarded_race]):
      two sign-ups with the same e-mail break the uniqueness of e-mails
      ([register_race]), two users can take the same user name
      ([update_profile_race]), and a favourite added twice at once is
      stored twice ([addFavori_race]), tables the sequential invariants
      ([reachable_wf], [favoris_reachable_unique]) exclude.
    - Invariants by rule induction over the request steps: every reachable
      [users] table has distinct identifiers below the counter and no two
      e-mails or user names equal under the collation ([reachable_wf]);
      no two favourites or history rows are equal under SQL's [=].
    - The account and login handlers on every branch: a sign-up is
      created with the password's hash or refused with the source's
      message, the lengths measured as [username.length] and
      [validator.isLength] measure them (so ["éé"] is too short a user
      name, and ["Aa1ééééé"] too short a password); a password change
      needs the old password and stores a hash
      that verifies the new one; a login stores the drawn code for ten
      minutes before mailing it; a code opens one session exactly until
      [t + 600000] and is then consumed ([login_then_verify],
      [verify_2fa_one_time]).
    - Findings, each proved: a non-JSON upstream body crashes the process
      in [movie.js], [getActorImage.js] and [listSerieByActor.js] (the spec
      says 500, and "skip" for the listing loops); the series-by-id route
      looks the identifier up among movies; the [:imdbId] of
      [castInfoByMovie] reaches the upstream path unencoded; account
      deletion never deletes (its statement names a column [id_user] the
      table does not have); the profile update skips the e-mail and
      user-name checks of the sign-up; for a user named [__proto__] the
      two-factor code is stored as the object's prototype and can be
      replayed; a wrong code never consumes the entry; a database failure
      in [/verify-2fa] ends the process; a favourite without [id_filmAPI]
      is stored as [NULL] again and again; [server.js] requires a module
      the repository does not contain; two concurrent sign-ups can store
      the same e-mail twice.

    ** Bounds, fuel and approximations

    No definition needs fuel: every loop is over a finite list (the roles,
    the listing, the route tables, the mounts) and is structural; the
    decoder's first pass recurses on the string after an escape, its
    second on the tokens; the scheduler of [Interleave] is a relation,
    not a function (with [run_sched], a function of a schedule, beside
    it).  The cast bound is the source's
    [slice(0, 10)] ([max_cast]).  JSON numbers are modelled as integers
    ([Z]); [ToNumber] reads signed decimal integers (fractions, exponents,
    hexadecimal and [Infinity] read as [NaN]); [trim] strips ASCII white
    space; strings are UTF-8 byte strings, on which [encodeURIComponent]
    agrees with JavaScript's for well-formed text, and whose lengths are
    counted as JavaScript and validator count them (UTF-16 code units,
    code points without variation selectors).  Indexing a string at one
    of the two code units of a code point above [U+FFFF] gives the whole
    code point, where JavaScript gives a lone surrogate; no handler
    indexes a string.  Request headers, the
    hostname, logging and the [console] calls have no observable effect in
    the model.

    [parseInt] is modelled in full (white space, sign, [0x], longest digit
    prefix) with an unbounded result, where JavaScript's [Number] loses
    precision above [2^53]; an identifier that large reaches no row of a
    table in either case.  The environment's answers are inputs of the
    handlers: [connectToDb()] succeeding or not, [Date.now()],
    [crypto.randomInt], and whether
    [sendMail] succeeds.  An exception in the [async] handler of
    [/verify-2fa], which has no [try], is an unhandled rejection and ends
    the process (Express 4 and Node's default policy).

    ** Not modelled
    - The MySQL connection ([db.js], not in the repository): each
      handler takes the result of [connectToDb()] as an input.
    - E-mail delivery and JWT signing beyond their interfaces, the HTML of
      the Swagger page and the request and response schemas of its blocks, CORS response headers, the socket of [app.listen].
    - Interleavings inside the handlers other than the four of
      [Interleave] (password change, deletion, login, the upstream
      routes).
    - Time: an upstream that never answers leaves its request pending
      forever (there is no timeout in the code); the oracle always
      answers, so such a request is not represented.
    - Query strings: routing reads the URL's pathname only.
    - The five cases of [api.test.ts], which call the live upstream API
      (the suite cannot load in any case). *)

From stdpp Require Export base list strings relations.
From Stdlib Require Export Ascii String ZArith Lia.

Declare Scope chills_scope.
Delimit Scope chills_scope with chills.
Open Scope string_scope.
Open Scope list_scope.

(** ** Exceptions and outcomes

    A JavaScript computation either produces a value, throws an exception
    that an enclosing [try]/[catch] (or a promise rejection awaited inside
    one) can observe, or throws inside an event-emitter callback, where no
    handler of the request sees it and Node terminates the process. *)

Inductive exn : Type :=
| TypeError
| Error (msg : string)
| SqlError (code : string) (errno : Z) (sqlState : string) (sqlMessage : string).

Inductive outcome (A : Type) : Type :=
| Val (a : A)
| Exc (e : exn)
| Crashed.
Arguments Val {A} a.
Arguments Exc {A} e.
Arguments Crashed {A}.

Definition obind {A B} (o : outcome A) (f : A -> outcome B) : outcome B :=
  match o with
  | Val a => f a
  | Exc e => Exc e
  | Crashed => Crashed
  end.

Notation "'let?' x ':=' o 'in' k" := (obind o (fun x => k))
  (at level 10, x name, o at level 100, k at level 200) : chills_scope.

(** ** The state and exception monad of the request handlers *)

Definition St (S A : Type) : Type := S -> outcome A * S.

Section Monad.
Context {S : Type}.

Definition ret {A} (a : A) : St S A := fun s => (Val a, s).

Definition bind {A B} (m : St S A) (f : A -> St S B) : St S B :=
  fun s =>
    match m s with
    | (Val a, s') => f a s'
    | (Exc e, s') => (Exc e, s')
    | (Crashed, s') => (Crashed, s')
    end.

Definition throw {A} (e : exn) : St S A := fun s => (Exc e, s).

Definition crash {A} : St S A := fun s => (Crashed, s).

(** [try { m } catch (e) { h(e) }]: catches exceptions, not crashes. *)
Definition catch {A} (m : St S A) (h : exn -> St S A) : St S A :=
  fun s =>
    match m s with
    | (Exc e, s') => h e s'
    | r => r
    end.

Definition lift {A} (o : outcome A) : St S A := fun s => (o, s).

Definition get : St S S := fun s => (Val s, s).
Definition put (s' : S) : St S unit := fun _ => (Val tt, s').
Definition modify (f : S -> S) : St S unit := fun s => (Val tt, f s).

(** A database statement on a state [S] of tables: a read, a write, or a
    write that the server may reject. *)
Definition query {A} (f : S -> A) : St S A := fun s => (Val (f s), s).
Definition exec (f : S -> S) : St S unit := fun s => (Val tt, f s).
Definition exec_o (f : S -> outcome S) : St S unit :=
  fun s => match f s with Val s' => (Val tt, s') | Exc e => (Exc e, s) | Crashed => (Crashed, s) end.

(** A sequential [for ... of] loop whose body may throw. *)
Fixpoint mapM {A B} (f : A -> St S B) (xs : list A) : St S (list B) :=
  match xs with
  | [] => ret []
  | x :: xs' => bind (f x) (fun b => bind (mapM f xs') (fun bs => ret (b :: bs)))
  end.
(** A sequential loop whose body is wrapped in its own [try]/[catch]
  that logs and skips the element ([for (...) { try { xs.push(await
  f(x)) } catch (e) { console.error(...) } }]). *)
Fixpoint mapM_skip {A B} (f : A -> St S B) (xs : list A) : St S (list B) :=
  match xs with
  | [] => ret []
  | x :: xs' =>
      bind (catch (bind (f x) (fun b => ret [b])) (fun _ => ret []))
           (fun bs => bind (mapM_skip f xs') (fun bs' => ret (bs ++ bs')))
  end.
End Monad.

Notation "'let*' x ':=' m 'in' k" := (bind m (fun x => k))
  (at level 10, x name, m at level 100, k at level 200) : chills_scope.

Open Scope chills_scope.

(** ** Monad laws and run lemmas *)

Create HintDb chills.
Create Rewrite HintDb chills_rw.

Section MonadLemmas.
Context {S : Type}.

Lemma bind_ret_l {A B} (a : A) (f : A -> St S B) s :
  bind (ret a) f s = f a s.
Proof. reflexivity. Qed.

Lemma bind_val {A B} (m : St S A) (f : A -> St S B) s a s' :
  m s = (Val a, s') -> bind m f s = f a s'.
Proof. unfold bind. by intros ->. Qed.

Lemma bind_exc {A B} (m : St S A) (f : A -> St S B) s e s' :
  m s = (Exc e, s') -> bind m f s = (Exc e, s').
Proof. unfold bind. by intros ->. Qed.

Lemma bind_crash {A B} (m : St S A) (f : A -> St S B) s s' :
  m s = (Crashed, s') -> bind m f s = (Crashed, s').
Proof. unfold bind. by intros ->. Qed.

Lemma bind_assoc {A B C} (m : St S A) (f : A -> St S B) (g : B -> St S C) s :
  bind (bind m f) g s = bind m (fun a => bind (f a) g) s.
Proof. unfold bind. by destruct (m s) as [[a|e|] s']. Qed.

Lemma catch_val {A} (m : St S A) h s a s' :
  m s = (Val a, s') -> catch m h s = (Val a, s').
Proof. unfold catch. by intros ->. Qed.

Lemma catch_exc {A} (m : St S A) h s e s' :
  m s = (Exc e, s') -> catch m h s = h e s'.
Proof. unfold catch. by intros ->. Qed.

Lemma catch_crash {A} (m : St S A) h s s' :
  m s = (Crashed, s') -> catch m h s = (Crashed, s').
Proof. unfold catch. by intros ->. Qed.

Lemma lift_bind {A B} (o : outcome A) (f : A -> St S B) s :
  bind (lift o) f s =
    match o with Val a => f a s | Exc e => (Exc e, s) | Crashed => (Crashed, s) end.
Proof. by destruct o. Qed.
End MonadLemmas.

#[export] Hint Rewrite @bind_ret_l @bind_assoc @lift_bind : chills_rw.

(** [run_st] unfolds the monad's plumbing and reduces what it can; the
    client calls ([fetch_unguarded] and the like) stay folded, to be
    rewritten with their run lemmas. *)
Ltac run_st :=
  unfold bind, ret, throw, crash, lift, catch, get, put, modify in *; simpl in *.


(** ** Strings *)

(** [all_chars p s]: every byte of [s] satisfies [p]. *)
Fixpoint all_chars (p : ascii -> bool) (s : string) : bool :=
  match s with
  | EmptyString => true
  | String c s' => p c && all_chars p s'
  end.

(** stdpp declares [String.append] [simpl never]; these are its equations. *)
Lemma string_app_nil_l (b : string) : "" +:+ b = b.
Proof. reflexivity. Qed.

Lemma string_app_cons x (a b : string) : String x a +:+ b = String x (a +:+ b).
Proof. reflexivity. Qed.

Lemma string_app_assoc (a b c : string) : (a +:+ b) +:+ c = a +:+ (b +:+ c).
Proof. induction a as [|x a IH]; [done | by rewrite !string_app_cons, IH]. Qed.

Lemma string_app_nil_r (a : string) : a +:+ "" = a.
Proof. induction a as [|x a IH]; [done | by rewrite string_app_cons, IH]. Qed.

Lemma string_length_app (a b : string) :
  String.length (a +:+ b) = (String.length a + String.length b)%nat.
Proof. induction a as [|x a IH]; [done|]. rewrite string_app_cons. simpl. by rewrite IH. Qed.

Lemma all_chars_app p (a b : string) :
  all_chars p (a +:+ b) = all_chars p a && all_chars p b.
Proof.
  induction a as [|x a IH]; [done|].
  by rewrite string_app_cons; simpl; rewrite IH, andb_assoc.
Qed.

#[export] Hint Rewrite string_app_nil_l string_app_cons string_app_assoc
  string_app_nil_r all_chars_app : chills_rw.

(** ** Loops over a trace

    The handlers' state is a trace (a list); a loop body that appends
    [p x] to it for element [x] leaves the concatenation, in order. *)

Section Loops.
Context {T A B : Type}.
Implicit Types (f : A -> St (list T) B) (p : A -> list T).

(** Every iteration succeeds: the loop returns the results in order. *)
Lemma mapM_trace_ok f p xs ys tr :
  Forall2 (fun x y => forall tr, f x tr = (Val y, tr ++ p x)) xs ys ->
  mapM f xs tr = (Val ys, tr ++ List.concat (map p xs)).
Proof.
  intros H. revert tr. induction H as [|x y xs ys Hxy _ IH]; intros tr; simpl.
  - by rewrite app_nil_r.
  - unfold bind. rewrite Hxy, IH. by rewrite app_assoc.
Qed.

(** The first iteration that throws ends the loop: nothing after it runs. *)
Lemma mapM_trace_exc f p pre x post ys e tr :
  Forall2 (fun x y => forall tr, f x tr = (Val y, tr ++ p x)) pre ys ->
  (forall tr, f x tr = (Exc e, tr ++ p x)) ->
  mapM f (pre ++ x :: post) tr = (Exc e, tr ++ List.concat (map p pre) ++ p x).
Proof.
  intros H Hx. revert tr. induction H as [|x' y xs ys Hxy _ IH]; intros tr; simpl.
  - unfold bind. by rewrite Hx.
  - unfold bind. rewrite Hxy, IH. by rewrite !app_assoc.
Qed.

(** The same with a crash. *)
Lemma mapM_trace_crash f p pre x post ys tr :
  Forall2 (fun x y => forall tr, f x tr = (Val y, tr ++ p x)) pre ys ->
  (forall tr, f x tr = (Crashed, tr ++ p x)) ->
  mapM f (pre ++ x :: post) tr = (Crashed, tr ++ List.concat (map p pre) ++ p x).
Proof.
  intros H Hx. revert tr. induction H as [|x' y xs ys Hxy _ IH]; intros tr; simpl.
  - unfold bind. by rewrite Hx.
  - unfold bind. rewrite Hxy, IH. by rewrite !app_assoc.
Qed.

(** Skip-on-error loop: the results are those of the iterations that did
  not throw, in order; every iteration runs. *)
Lemma mapM_skip_trace f p (g : A -> option B) xs tr :
  (forall x tr, In x xs ->
     match g x with
     | Some y => f x tr = (Val y, tr ++ p x)
     | None => exists e, f x tr = (Exc e, tr ++ p x)
     end) ->
  mapM_skip f xs tr = (Val (omap g xs), tr ++ List.concat (map p xs)).
Proof.
  revert tr. induction xs as [|x xs IH]; intros tr H; simpl.
  - by rewrite app_nil_r.
  - pose proof (H x tr (or_introl eq_refl)) as Hx.
    unfold bind, catch. destruct (g x) as [y|] eqn:Hg; rewrite ?Hg in Hx.
    + rewrite Hx. simpl. rewrite IH by (intros; apply H; by right).
      by rewrite app_assoc.
    + destruct Hx as [e ->]. simpl. rewrite IH by (intros; apply H; by right).
      by rewrite app_assoc.
Qed.
End Loops.

(** ** Lists *)

Lemma sublist_bool_filter {A} (f : A -> bool) (l : list A) : sublist (List.filter f l) l.
Proof.
  induction l as [|x l IH]; simpl; [constructor|].
  destruct (f x); [by apply sublist_skip | by apply sublist_cons].
Qed.

(** Pairwise and pointwise properties survive dropping elements. *)
Lemma ForallOrdPairs_filter {A} (R : A -> A -> Prop) (f : A -> bool) l :
  ForallOrdPairs R l -> ForallOrdPairs R (List.filter f l).
Proof.
  intros H. induction H as [|x l Hx Hl IH]; simpl; [constructor|].
  destruct (f x); [|done]. constructor; [|done].
  apply Forall_forall. intros y Hy%list_elem_of_In. apply filter_In in Hy as [Hy _].
  rewrite Forall_forall in Hx. by apply Hx, list_elem_of_In.
Qed.

Lemma Forall_filter_bool {A} (P : A -> Prop) (f : A -> bool) l :
  Forall P l -> Forall P (List.filter f l).
Proof.
  rewrite !Forall_forall. intros H x Hx%list_elem_of_In. apply filter_In in Hx as [Hx _].
  by apply H, list_elem_of_In.
Qed.

Lemma NoDup_map_filter {A B} (g : A -> B) (f : A -> bool) l :
  NoDup (map g l) -> NoDup (map g (List.filter f l)).
Proof.
  intros H. eapply sublist_NoDup; [exact H|].
  induction l as [|x l IH]; simpl; [constructor|]. simpl in H. apply NoDup_cons in H as [_ H].
  destruct (f x); simpl; [apply sublist_skip|apply sublist_cons]; auto.
Qed.

(** Every element of the left part comes before every element of the
    right part. *)
Lemma ForallOrdPairs_app_inv {A} (R : A -> A -> Prop) l1 l2 x y :
  ForallOrdPairs R (l1 ++ l2) -> In x l1 -> In y l2 -> R x y.
Proof.
  induction l1 as [|z l1 IH]; simpl; [done|]. intros H [<-|Hx] Hy; inversion H as [|? ? Hz Hrest]; subst.
  - rewrite Forall_forall in Hz. apply Hz, list_elem_of_In, in_or_app. by right.
  - by apply IH.
Qed.

(** ** Reachability *)

(** A property every step preserves holds along every run. *)
Lemma rtc_invariant {A} (R : relation A) (P : A -> Prop) x y :
  (forall a b, R a b -> P a -> P b) -> P x -> rtc R x y -> P y.
Proof. intros HR Hx H. induction H; eauto. Qed.

(** ** Computations that never crash

    [no_crash m]: whatever the state, [m] ends in a value or an exception
    that a [catch] can see.  The closure lemmas are hints of [chills], so
    [auto with chills] proves it of a handler built from such pieces. *)

Definition no_crash {S A} (m : St S A) : Prop := forall s, fst (m s) <> Crashed.

Definition no_crash_o {A} (o : outcome A) : Prop := o <> Crashed.

Section NoCrash.
Context {S : Type}.

Lemma no_crash_ret {A} (a : A) : no_crash (S:=S) (ret a).
Proof. by intros s. Qed.

Lemma no_crash_throw {A} e : no_crash (S:=S) (A:=A) (throw e).
Proof. by intros s. Qed.

Lemma no_crash_lift {A} (o : outcome A) : no_crash_o o -> no_crash (S:=S) (lift o).
Proof. by intros H s. Qed.

Lemma no_crash_bind {A B} (m : St S A) (f : A -> St S B) :
  no_crash m -> (forall a, no_crash (f a)) -> no_crash (bind m f).
Proof.
  intros Hm Hf s. unfold bind. specialize (Hm s).
  destruct (m s) as [[a|e|] s']; simpl in *; [apply Hf|done|done].
Qed.

Lemma no_crash_catch {A} (m : St S A) h :
  no_crash m -> (forall e, no_crash (h e)) -> no_crash (catch m h).
Proof.
  intros Hm Hh s. unfold catch. specialize (Hm s).
  destruct (m s) as [[a|e|] s']; simpl in *; [done|apply Hh|done].
Qed.

Lemma no_crash_mapM_skip {A B} (f : A -> St S B) xs :
  (forall x, no_crash (f x)) -> no_crash (mapM_skip f xs).
Proof.
  intros Hf. induction xs as [|x xs IH]; simpl; [apply no_crash_ret|].
  apply no_crash_bind; [|intros; apply no_crash_bind; [done|intros; apply no_crash_ret]].
  apply no_crash_catch; [|intros; apply no_crash_ret].
  apply no_crash_bind; [done|intros; apply no_crash_ret].
Qed.

Lemma no_crash_if {A} (b : bool) (m1 m2 : St S A) :
  no_crash m1 -> no_crash m2 -> no_crash (if b then m1 else m2).
Proof. by destruct b. Qed.

Lemma no_crash_o_obind {A B} (o : outcome A) (f : A -> outcome B) :
  no_crash_o o -> (forall a, no_crash_o (f a)) -> no_crash_o (obind o f).
Proof. unfold no_crash_o. destruct o; simpl; intros H1 H2; [apply H2|discriminate|done]. Qed.

Lemma no_crash_o_val {A} (a : A) : no_crash_o (Val a).
Proof. done. Qed.
End NoCrash.

#[export] Hint Resolve no_crash_ret no_crash_throw no_crash_lift no_crash_bind
  no_crash_catch no_crash_mapM_skip no_crash_if no_crash_o_obind no_crash_o_val : chills.

(** A branch where a computation of [chills] crashed is impossible. *)
Ltac no_crash_contra :=
  match goal with
  | H : ?o = Crashed |- _ => exfalso; assert (no_crash_o o) by auto with chills; contradiction
  end.

(** Split a run on every [match] and [if], dropping impossible crashes and
    closing the branches that left the state alone (the left disjunct of
    an effect lemma). *)
Ltac case_run :=
  repeat (case_match; simplify_eq/=; try no_crash_contra; try (left; reflexivity)); try reflexivity.

(** A skip-on-error loop stops at the first crash: the iterations before
    it ran, none after it. *)
Lemma mapM_skip_trace_crash {T A B} (f : A -> St (list T) B) (p : A -> list T) pre x post tr :
  (forall y tr, In y pre ->
     (exists b, f y tr = (Val b, tr ++ p y)) \/ (exists e, f y tr = (Exc e, tr ++ p y))) ->
  (forall tr, f x tr = (Crashed, tr ++ p x)) ->
  mapM_skip f (pre ++ x :: post) tr = (Crashed, tr ++ List.concat (map p pre) ++ p x).
Proof.
  intros Hpre Hx. revert tr. induction pre as [|y pre IH]; intros tr; simpl.
  - unfold bind, catch. by rewrite Hx.
  - unfold bind, catch.
    destruct (Hpre y tr (or_introl eq_refl)) as [[b Hy]|[e Hy]]; rewrite Hy; simpl;
      (rewrite IH; [by rewrite !app_assoc | intros; apply Hpre; by right]).
Qed.

Lemma concat_map_singleton {A B} (f : A -> B) (l : list A) :
  List.concat (map (fun x => [f x]) l) = map f l.
Proof. induction l as [|x l IH]; simpl; [done | by rewrite IH]. Qed.

Lemma filter_nil_iff {A} (f : A -> bool) (l : list A) :
  List.filter f l = [] <-> forall x, In x l -> f x = false.
Proof.
  induction l as [|x l IH]; simpl; [naive_solver|].
  destruct (f x) eqn:E; split; intros H.
  - discriminate.
  - by rewrite H in E by auto.
  - intros y [<-|Hy]; [done|]. by apply IH.
  - apply IH. auto.
Qed.

(** Ordered pairs: [ForallOrdPairs R (l ++ [x])]. *)
Lemma ForallOrdPairs_snoc {A} (R : A -> A -> Prop) (l : list A) (x : A) :
  ForallOrdPairs R l -> Forall (fun y => R y x) l -> ForallOrdPairs R (l ++ [x]).
Proof.
  induction 1 as [|a l Ha _ IH]; intros Hx; simpl.
  - repeat constructor.
  - inversion Hx as [|? ? Hax Hl]; subst. constructor; [|by apply IH].
    apply Forall_app. split; [done|by constructor].
Qed.
