(* ===== verification/JsValue.v ===== *)
(** JavaScript values as the route handlers see them: the results of
    [JSON.parse] on upstream bodies and of [req.params]/[req.body], with
    the operators the handlers apply to them: property access [v.k] and
    [v[i]] (throwing [TypeError] on [null] and [undefined]), truthiness,
    [ToNumber] for the comparisons [v > 0] and [v < 3], template-literal
    stringification [`${v}`] and [String.prototype.trim].

    A string is its UTF-8 bytes.  [utf8_chars] splits it into code points
    and [utf16_length] is JavaScript's [.length] on it: the number of
    UTF-16 code units, two for a code point above [U+FFFF]. *)

From S2P Require Import Prelude.
From Stdlib Require Import DecimalString.

Inductive jsval : Type :=
| JUndef
| JNull
| JBool (b : bool)
| JNum (n : Z)
| JStr (s : string)
| JArr (xs : list jsval)
| JObj (fields : list (string * jsval)).

(** The JSON object [{ message: m }] that every error branch sends. *)
Definition msg (m : string) : jsval := JObj [("message", JStr m)].

(** ** Characters and numerals *)

Definition is_digit (c : Ascii.ascii) : bool :=
  let n := Ascii.nat_of_ascii c in ((48 <=? n) && (n <=? 57))%nat.

Definition digit_val (c : Ascii.ascii) : nat := (Ascii.nat_of_ascii c - 48)%nat.

(** The decimal value of a non-empty string of digits. *)
Fixpoint digits_value (acc : nat) (s : string) : option nat :=
  match s with
  | EmptyString => Some acc
  | String c s' => if is_digit c then digits_value (10 * acc + digit_val c)%nat s' else None
  end.

Definition parse_digits (s : string) : option nat :=
  match s with
  | EmptyString => None
  | _ => digits_value 0%nat s
  end.

(** A canonical array index: ["0"] or digits without a leading zero. *)
Definition array_index (k : string) : option nat :=
  match k with
  | String "0"%char EmptyString => Some 0%nat
  | String "0"%char _ => None
  | _ => parse_digits k
  end.

(** ASCII white space as [trim] and [ToNumber] strip it. *)
Definition is_js_space (c : Ascii.ascii) : bool :=
  let n := Ascii.nat_of_ascii c in ((n =? 32) || ((9 <=? n) && (n <=? 13)))%nat.

Fixpoint trim_start (s : string) : string :=
  match s with
  | String c s' => if is_js_space c then trim_start s' else s
  | EmptyString => EmptyString
  end.

Definition trim_end (s : string) : string :=
  String.rev (trim_start (String.rev s)).

(** [String.prototype.trim]. *)
Definition trim (s : string) : string := trim_end (trim_start s).

(** ** UTF-16 code units and code points *)

(** A string of the model is the UTF-8 encoding of JavaScript's string;
    [utf8_chars] cuts it into its code points, each a byte that is not a
    continuation byte followed by the continuation bytes after it. *)
Definition is_cont_byte (c : Ascii.ascii) : bool :=
  let n := Ascii.nat_of_ascii c in ((128 <=? n) && (n <=? 191))%nat.

Fixpoint utf8_split (s : string) : string * list string :=
  match s with
  | EmptyString => (EmptyString, [])
  | String c s' =>
      let '(pending, cs) := utf8_split s' in
      if is_cont_byte c then (String c pending, cs) else (EmptyString, String c pending :: cs)
  end.

Definition utf8_chars (s : string) : list string :=
  let '(pending, cs) := utf8_split s in
  match pending with EmptyString => cs | _ => pending :: cs end.

(** A code point above [U+FFFF] (a four-byte sequence) is two UTF-16
    code units, a surrogate pair. *)
Definition utf16_units_of (ch : string) : nat :=
  match ch with
  | String c _ => if (240 <=? Ascii.nat_of_ascii c)%nat then 2 else 1
  | EmptyString => 0
  end.

(** [s.length]: the number of UTF-16 code units. *)
Definition utf16_length (s : string) : nat := list_sum (map utf16_units_of (utf8_chars s)).

Arguments utf16_length : simpl never.

Lemma utf16_length_nonempty s : (1 <= utf16_length s)%nat -> (1 <= String.length s)%nat.
Proof. destruct s; simpl; [done|lia]. Qed.

(** The string of the given bytes. *)
Definition bytes (l : list nat) : string := string_of_list_ascii (map Ascii.ascii_of_nat l).

(** ** Property access *)

(** [JSON.parse] keeps the last binding of a duplicated key. *)
Definition lookup_field (k : string) (fs : list (string * jsval)) : option jsval :=
  fold_left (fun acc '(k', v) => if String.eqb k k' then Some v else acc) fs None.

(** [s[i]]: the [i]-th UTF-16 code unit.  Both halves of a surrogate
    pair, which UTF-8 cannot encode alone, are given as the code point. *)
Definition str_at (s : string) (i : nat) : jsval :=
  match nth_error (flat_map (fun ch => repeat ch (utf16_units_of ch)) (utf8_chars s)) i with
  | Some u => JStr u
  | None => JUndef
  end.

(** [v[k]] and [v.k]: a [TypeError] on [undefined] and [null]. *)
Definition get_prop (v : jsval) (k : string) : outcome jsval :=
  match v with
  | JUndef | JNull => Exc TypeError
  | JBool _ | JNum _ => Val JUndef
  | JStr s =>
      if String.eqb k "length" then Val (JNum (Z.of_nat (utf16_length s)))
      else match array_index k with
           | Some i => Val (str_at s i)
           | None => Val JUndef
           end
  | JArr xs =>
      if String.eqb k "length" then Val (JNum (Z.of_nat (List.length xs)))
      else match array_index k with
           | Some i => Val (default JUndef (nth_error xs i))
           | None => Val JUndef
           end
  | JObj fs => Val (default JUndef (lookup_field k fs))
  end.

(** ** Conversions *)

Definition truthy (v : jsval) : bool :=
  match v with
  | JUndef | JNull => false
  | JBool b => b
  | JNum n => negb (Z.eqb n 0)
  | JStr s => negb (String.eqb s "")
  | JArr _ | JObj _ => true
  end.

Definition z_to_string (n : Z) : string := NilEmpty.string_of_int (Z.to_int n).

(** [`${v}`], i.e. [String(v)]; arrays join their elements with [","],
    printing [null] and [undefined] elements as the empty string. *)
Fixpoint js_to_string (v : jsval) : string :=
  match v with
  | JUndef => "undefined"
  | JNull => "null"
  | JBool true => "true"
  | JBool false => "false"
  | JNum n => z_to_string n
  | JStr s => s
  | JArr xs =>
      let fix join (xs : list jsval) : string :=
        match xs with
        | [] => ""
        | x :: xs' =>
            let e := match x with JUndef | JNull => "" | _ => js_to_string x end in
            match xs' with [] => e | _ => e +:+ "," +:+ join xs' end
        end in
      join xs
  | JObj _ => "[object Object]"
  end.

(** [StringToNumber] on decimal integer literals with an optional sign;
    [None] is [NaN]. *)
Definition str_to_number (s : string) : option Z :=
  match trim s with
  | EmptyString => Some 0%Z
  | String "-"%char d => option_map (fun n => (- Z.of_nat n)%Z) (parse_digits d)
  | String "+"%char d => option_map Z.of_nat (parse_digits d)
  | t => option_map Z.of_nat (parse_digits t)
  end.

(** [ToNumber]; [None] is [NaN]. *)
Definition to_number (v : jsval) : option Z :=
  match v with
  | JUndef => None
  | JNull => Some 0%Z
  | JBool b => Some (if b then 1 else 0)%Z
  | JNum n => Some n
  | JStr s => str_to_number s
  | JArr _ => str_to_number (js_to_string v)
  | JObj _ => None
  end.

(** The relational operators against a number literal: false on [NaN]. *)
Definition js_gt (v : jsval) (n : Z) : bool :=
  match to_number v with Some z => (n <? z)%Z | None => false end.

Definition js_lt (v : jsval) (n : Z) : bool :=
  match to_number v with Some z => (z <? n)%Z | None => false end.

(** [v !== "s"] for a string literal ["s"]. *)
Definition strict_neq_str (v : jsval) (s : string) : bool :=
  match v with
  | JStr s' => negb (String.eqb s' s)
  | _ => true
  end.

(** [Array.isArray(v)]. *)
Definition is_array (v : jsval) : bool :=
  match v with JArr _ => true | _ => false end.

(** Property access throws at most a [TypeError]; it never crashes. *)
Lemma get_prop_no_crash v k : no_crash_o (get_prop v k).
Proof. unfold no_crash_o, get_prop. destruct v; repeat case_match; done. Qed.

#[export] Hint Resolve get_prop_no_crash : chills.

(** ** [parseInt] *)

Definition hex_digit_value (c : ascii) : option nat :=
  let n := nat_of_ascii c in
  if ((48 <=? n) && (n <=? 57))%nat then Some (n - 48)%nat
  else if ((65 <=? n) && (n <=? 70))%nat then Some (n - 55)%nat
  else if ((97 <=? n) && (n <=? 102))%nat then Some (n - 87)%nat
  else None.

(** The longest prefix of digits in base [radix]; [None] when empty. *)
Fixpoint digit_prefix (radix : Z) (acc : option Z) (s : string) : option Z :=
  match s with
  | EmptyString => acc
  | String c s' =>
      match hex_digit_value c with
      | Some d => if (Z.of_nat d <? radix)%Z
                  then digit_prefix radix (Some (radix * default 0 acc + Z.of_nat d)%Z) s'
                  else acc
      | None => acc
      end
  end.

Definition parse_unsigned (s : string) : option Z :=
  match s with
  | String "0"%char (String x s') =>
      if (Ascii.eqb x "x"%char || Ascii.eqb x "X"%char) then digit_prefix 16 None s'
      else digit_prefix 10 None s
  | _ => digit_prefix 10 None s
  end.

(** [parseInt(String(v))] without a radix: leading white space, an
    optional sign, a [0x] prefix for hexadecimal, then the longest run of
    digits; [None] is [NaN]. *)
Definition parse_int (s : string) : option Z :=
  match trim_start s with
  | String "-"%char r => option_map Z.opp (parse_unsigned r)
  | String "+"%char r => parse_unsigned r
  | r => parse_unsigned r
  end.
