(* ===== verification/UriEncode.v ===== *)
(** [encodeURIComponent], which the title and name routes apply to the
    user's text before splicing it into an upstream path
    ([/movie/imdb_id/byTitle/${encodedFilm}/] and the like).

    Strings are UTF-8 byte strings; [encodeURIComponent] keeps the
    unreserved characters [A-Z a-z 0-9 - _ . ! ~ * ' ( )] and writes every
    other byte of the UTF-8 encoding as [%XY] with upper-case hex digits,
    which is what it does on a well-formed JavaScript string.  The decoder
    [percent_decode] is the inverse used by the round-trip theorem. *)

From S2P Require Import Prelude.

Definition is_unreserved (c : ascii) : bool :=
  let n := nat_of_ascii c in
  (((65 <=? n) && (n <=? 90)) || ((97 <=? n) && (n <=? 122))
   || ((48 <=? n) && (n <=? 57))
   || (n =? 45) || (n =? 95) || (n =? 46) || (n =? 33) || (n =? 126)
   || (n =? 42) || (n =? 39) || (n =? 40) || (n =? 41))%nat.

(** Upper-case hexadecimal digits. *)
Definition hex_digit (d : nat) : ascii :=
  if (d <? 10)%nat then ascii_of_nat (48 + d) else ascii_of_nat (55 + d).

Definition hex_value (c : ascii) : option nat :=
  let n := nat_of_ascii c in
  if ((48 <=? n) && (n <=? 57))%nat then Some (n - 48)%nat
  else if ((65 <=? n) && (n <=? 70))%nat then Some (n - 55)%nat
  else None.

Definition percent_byte (c : ascii) : string :=
  let n := nat_of_ascii c in
  String "%" (String (hex_digit (n / 16)) (String (hex_digit (n mod 16)) EmptyString)).

Fixpoint encodeURIComponent (s : string) : string :=
  match s with
  | EmptyString => EmptyString
  | String c s' =>
      if is_unreserved c then String c (encodeURIComponent s')
      else percent_byte c +:+ encodeURIComponent s'
  end.

(** The inverse: [%XY] with upper-case hex digits becomes one byte; an
    unreserved character stands for itself; anything else is rejected. *)
Fixpoint percent_decode (s : string) : option string :=
  match s with
  | EmptyString => Some EmptyString
  | String c s' =>
      if Ascii.eqb c "%" then
        match s' with
        | String h (String l s'') =>
            match hex_value h, hex_value l, percent_decode s'' with
            | Some a, Some b, Some r => Some (String (ascii_of_nat (16 * a + b)) r)
            | _, _, _ => None
            end
        | _ => None
        end
      else if is_unreserved c then option_map (String c) (percent_decode s')
      else None
  end.

(** The characters [encodeURIComponent] can emit. *)
Definition uri_safe (c : ascii) : bool :=
  is_unreserved c || (nat_of_ascii c =? 37)%nat.

(** [s] has no ['/']. *)
Definition no_slash (s : string) : bool := all_chars (fun c => negb (Ascii.eqb c "/")) s.

(** The segments of a URL path, split at every ['/']. *)
Fixpoint segments_acc (cur : string) (s : string) : list string :=
  match s with
  | EmptyString => [cur]
  | String c s' =>
      if Ascii.eqb c "/" then cur :: segments_acc EmptyString s'
      else segments_acc (cur +:+ String c EmptyString) s'
  end.

Definition path_segments (s : string) : list string := segments_acc EmptyString s.

(** ** Lemmas *)

Lemma hex_digit_value d : (d < 16)%nat -> hex_value (hex_digit d) = Some d.
Proof. intros Hd. do 16 (destruct d as [|d]; [reflexivity|]). lia. Qed.

Lemma hex_digit_unreserved d : (d < 16)%nat -> is_unreserved (hex_digit d) = true.
Proof. intros Hd. do 16 (destruct d as [|d]; [reflexivity|]). lia. Qed.

Lemma percent_byte_decode c r :
  percent_decode (percent_byte c +:+ r) = option_map (String c) (percent_decode r).
Proof.
  unfold percent_byte.
  pose proof (Nat.mod_upper_bound (nat_of_ascii c) 16 ltac:(lia)) as Hlo.
  assert (nat_of_ascii c / 16 < 16)%nat as Hhi.
  { apply Nat.Div0.div_lt_upper_bound. pose proof (nat_ascii_bounded c). lia. }
  change (String "%" (String (hex_digit (nat_of_ascii c / 16))
           (String (hex_digit (nat_of_ascii c mod 16)) EmptyString)) +:+ r)
    with (String "%" (String (hex_digit (nat_of_ascii c / 16))
           (String (hex_digit (nat_of_ascii c mod 16)) r))).
  cbn [percent_decode]. change (Ascii.eqb "%" "%") with true. cbv iota beta.
  rewrite !hex_digit_value by done.
  destruct (percent_decode r); [|done].
  rewrite <- Nat.div_mod_eq, ascii_nat_embedding. done.
Qed.

Lemma unreserved_not_percent c : is_unreserved c = true -> Ascii.eqb c "%" = false.
Proof.
  intros H. destruct (Ascii.eqb_spec c "%"); [subst; discriminate | done].
Qed.

Lemma unreserved_not_slash c : is_unreserved c = true -> Ascii.eqb c "/" = false.
Proof.
  intros H. destruct (Ascii.eqb_spec c "/"); [subst; discriminate | done].
Qed.

Lemma percent_byte_safe c : all_chars uri_safe (percent_byte c) = true.
Proof.
  unfold percent_byte. cbn [all_chars].
  assert (nat_of_ascii c / 16 < 16)%nat.
  { apply Nat.Div0.div_lt_upper_bound. pose proof (nat_ascii_bounded c). lia. }
  unfold uri_safe.
  rewrite !hex_digit_unreserved by (try apply Nat.mod_upper_bound; lia). done.
Qed.

Lemma uri_safe_not_slash c : uri_safe c = true -> Ascii.eqb c "/" = false.
Proof.
  intros H. destruct (Ascii.eqb_spec c "/"); [subst; discriminate | done].
Qed.

Lemma uri_safe_no_slash x : all_chars uri_safe x = true -> no_slash x = true.
Proof.
  unfold no_slash. induction x as [|c x IH]; [done|]. cbn [all_chars].
  intros [Hc Hx]%andb_prop. by rewrite uri_safe_not_slash, IH.
Qed.

Lemma segments_acc_no_slash cur x :
  no_slash x = true -> segments_acc cur x = [cur +:+ x].
Proof.
  revert cur. induction x as [|c x IH]; intros cur Hx; simpl in *.
  - by rewrite string_app_nil_r.
  - apply andb_prop in Hx as [Hc%negb_true_iff Hx].
    rewrite Hc, IH by done. by rewrite string_app_assoc.
Qed.

Lemma segments_acc_app cur x y :
  no_slash x = true ->
  segments_acc cur (x +:+ String "/" y) = (cur +:+ x) :: segments_acc "" y.
Proof.
  revert cur. induction x as [|c x IH]; intros cur Hx;
    rewrite ?string_app_cons; simpl in *.
  - by rewrite string_app_nil_r.
  - apply andb_prop in Hx as [Hc%negb_true_iff Hx].
    rewrite Hc, IH by done. by rewrite string_app_assoc.
Qed.

(** ** Theorems *)

(** decoding what [encodeURIComponent] produced gives back the input,
    so the upstream receives exactly the title or name the user typed. *)
Theorem percent_decode_encode s : percent_decode (encodeURIComponent s) = Some s.
Proof.
  induction s as [|c s IH]; [done|]. simpl.
  destruct (is_unreserved c) eqn:Hu.
  - cbn [percent_decode]. by rewrite unreserved_not_percent, Hu, IH.
  - by rewrite percent_byte_decode, IH.
Qed.

(** Every byte [encodeURIComponent] emits is unreserved or ['%']. *)
Lemma encode_uri_safe s : all_chars uri_safe (encodeURIComponent s) = true.
Proof.
  induction s as [|c s IH]; [done|]. simpl.
  destruct (is_unreserved c) eqn:Hu.
  - simpl. unfold uri_safe at 1. by rewrite Hu, IH.
  - by rewrite all_chars_app, percent_byte_safe, IH.
Qed.

(** The encoded text never contains a ['/']: it ends the segment it is
    spliced into only where the path itself puts a ['/'] after it. *)
Lemma segments_encoded cur s q :
  segments_acc cur (encodeURIComponent s +:+ String "/" q) =
    (cur +:+ encodeURIComponent s) :: segments_acc "" q.
Proof. apply segments_acc_app, uri_safe_no_slash, encode_uri_safe. Qed.
