(* ===== verification/UriDecode.v ===== *)
(** [decodeURIComponent], which Express applies to every route parameter
    before a handler reads [req.params] (its [decode_param]; a [URIError]
    becomes a 400 answer).

    The decoder follows the [Decode] operation of ECMA-262 with an empty
    reserved set, on the byte strings of the development: a first pass
    ([tokenize]) reads each [%XY] (hex digits in either case) as one octet
    and keeps every other character; a malformed escape is an error.  A
    second pass ([utf8_decode]) checks that each escaped octet of [0x80]
    or above starts a well-formed UTF-8 sequence made of escaped octets: a
    lead octet with two to four leading ones, the right number of
    continuation octets, and a code point that is neither overlong, nor a
    surrogate, nor above [U+10FFFF].  The result is the UTF-8 bytes of
    the decoded text.  Request paths are taken to be ASCII, as clients
    send them; a raw octet is kept as it is.

    [decode_encode] is the round trip with [encodeURIComponent] on
    well-formed UTF-8 text. *)

From S2P Require Import Prelude JsValue UriEncode.

(** A character of the input: kept as it is, or an escaped octet. *)
Inductive utok : Type :=
| Raw (c : ascii)
| Esc (b : nat).

Fixpoint tokenize (s : string) : option (list utok) :=
  match s with
  | EmptyString => Some []
  | String c s' =>
      if Ascii.eqb c "%" then
        match s' with
        | String h (String l r) =>
            match JsValue.hex_digit_value h, JsValue.hex_digit_value l with
            | Some a, Some b => option_map (cons (Esc (16 * a + b)%nat)) (tokenize r)
            | _, _ => None
            end
        | _ => None
        end
      else option_map (cons (Raw c)) (tokenize s')
  end.

(** The length of the UTF-8 sequence a lead octet [>= 0x80] starts: the
    number of its leading ones, which must be 2, 3 or 4. *)
Definition lead_len (b : nat) : option nat :=
  if (b <? 192)%nat then None
  else if (b <? 224)%nat then Some 2%nat
  else if (b <? 240)%nat then Some 3%nat
  else if (b <? 248)%nat then Some 4%nat
  else None.

(** The bits of the code point a lead octet carries. *)
Definition lead_payload (k b : nat) : Z := Z.of_nat (b mod 2 ^ (7 - k))%nat.

Definition is_cont (b : nat) : bool := ((128 <=? b) && (b <? 192))%nat.

(** A code point of a [k]-octet sequence: not overlong, not a surrogate,
    at most [U+10FFFF]. *)
Definition valid_code_point (k : nat) (cp : Z) : bool :=
  match k with
  | 2%nat => (128 <=? cp)%Z
  | 3%nat => (2048 <=? cp)%Z && negb ((55296 <=? cp) && (cp <=? 57343))%Z
  | 4%nat => (65536 <=? cp)%Z && (cp <=? 1114111)%Z
  | _ => false
  end.

(** The second pass: [pending] continuation octets are still expected for
    a [k]-octet sequence whose code point so far is [cp] and whose octets
    so far are [buf]. *)
Fixpoint utf8_decode (pending k : nat) (cp : Z) (buf : string) (ts : list utok) : option string :=
  match ts with
  | [] => match pending with O => Some EmptyString | S _ => None end
  | Raw c :: ts' =>
      match pending with
      | O => option_map (String c) (utf8_decode O O 0 EmptyString ts')
      | S _ => None
      end
  | Esc b :: ts' =>
      match pending with
      | O =>
          if (b <? 128)%nat then option_map (String (ascii_of_nat b)) (utf8_decode O O 0 EmptyString ts')
          else match lead_len b with
               | Some k' => utf8_decode (k' - 1) k' (lead_payload k' b) (String (ascii_of_nat b) EmptyString) ts'
               | None => None
               end
      | S p =>
          if is_cont b then
            let cp' := (cp * 64 + Z.of_nat (b mod 64)%nat)%Z in
            let buf' := buf +:+ String (ascii_of_nat b) EmptyString in
            match p with
            | O => if valid_code_point k cp' then option_map (String.append buf') (utf8_decode O O 0 EmptyString ts')
                   else None
            | S _ => utf8_decode p k cp' buf' ts'
            end
          else None
      end
  end.

(** [decodeURIComponent(s)]; [None] is a [URIError]. *)
Definition decodeURIComponent (s : string) : option string :=
  match tokenize s with
  | Some ts => utf8_decode O O 0 EmptyString ts
  | None => None
  end.

(** Every octet of [s] as an escape. *)
Fixpoint escaped (s : string) : list utok :=
  match s with
  | EmptyString => []
  | String c s' => Esc (nat_of_ascii c) :: escaped s'
  end.

(** [s] is well-formed UTF-8. *)
Definition utf8_valid (s : string) : bool :=
  match utf8_decode O O 0 EmptyString (escaped s) with Some _ => true | None => false end.

(** The tokens [tokenize] reads from [encodeURIComponent s]. *)
Fixpoint enc_tokens (s : string) : list utok :=
  match s with
  | EmptyString => []
  | String c s' =>
      (if is_unreserved c then Raw c else Esc (nat_of_ascii c)) :: enc_tokens s'
  end.

(** ** Lemmas *)

Lemma hex_digit_decodes d : (d < 16)%nat -> JsValue.hex_digit_value (hex_digit d) = Some d.
Proof. intros Hd. do 16 (destruct d as [|d]; [reflexivity|]). lia. Qed.

Lemma tokenize_percent_byte c r :
  tokenize (percent_byte c +:+ r) = option_map (cons (Esc (nat_of_ascii c))) (tokenize r).
Proof.
  unfold percent_byte.
  pose proof (Nat.mod_upper_bound (nat_of_ascii c) 16 ltac:(lia)) as Hlo.
  assert (nat_of_ascii c / 16 < 16)%nat as Hhi.
  { apply Nat.Div0.div_lt_upper_bound. pose proof (nat_ascii_bounded c). lia. }
  rewrite !string_app_cons, string_app_nil_l. cbn [tokenize].
  change (Ascii.eqb "%" "%") with true. cbv iota beta.
  rewrite !hex_digit_decodes by done. by rewrite <- Nat.div_mod_eq.
Qed.

Lemma tokenize_encode s : tokenize (encodeURIComponent s) = Some (enc_tokens s).
Proof.
  induction s as [|c s IH]; [done|]. simpl.
  destruct (is_unreserved c) eqn:Hu.
  - cbn [tokenize]. by rewrite unreserved_not_percent, IH.
  - by rewrite tokenize_percent_byte, IH.
Qed.

Lemma unreserved_ascii c : is_unreserved c = true -> (nat_of_ascii c < 128)%nat.
Proof.
  unfold is_unreserved. intros H. repeat (apply orb_prop in H as [H|H]);
    rewrite ?andb_true_iff, ?Nat.leb_le, ?Nat.eqb_eq in H; lia.
Qed.

(** An unreserved character left as it is decodes like its escape. *)
Lemma utf8_decode_enc_escaped s p k cp buf :
  utf8_decode p k cp buf (enc_tokens s) = utf8_decode p k cp buf (escaped s).
Proof.
  revert p k cp buf. induction s as [|c s IH]; intros p k cp buf; [done|]. simpl.
  destruct (is_unreserved c) eqn:Hu.
  2:{ destruct p as [|[|p]]; simpl; [|destruct (is_cont _)..]; repeat case_match; by rewrite ?IH. }
  pose proof (unreserved_ascii c Hu) as Ha.
  destruct p as [|p]; simpl.
  - rewrite (proj2 (Nat.ltb_lt _ _) Ha), ascii_nat_embedding. by rewrite IH.
  - unfold is_cont. by replace (128 <=? nat_of_ascii c)%nat with false by (symmetry; apply Nat.leb_gt; lia).
Qed.

Lemma lead_len_some b k : lead_len b = Some k -> exists q, (k - 1 = S q)%nat.
Proof.
  unfold lead_len. intros H. repeat case_match; simplify_eq; eauto.
Qed.

(** What the second pass outputs on escaped octets is those octets,
    after the ones of the sequence in progress. *)
Lemma utf8_decode_escaped_output s p k cp buf r :
  utf8_decode p k cp buf (escaped s) = Some r ->
  r = match p with O => s | S _ => buf +:+ s end.
Proof.
  revert p k cp buf r. induction s as [|c s IH]; intros p k cp buf r Hd.
  - by destruct p; simplify_eq/=.
  - simpl in Hd. destruct p as [|p].
    + case_match.
      * destruct (utf8_decode _ _ _ _ (escaped s)) eqn:E; simplify_eq/=.
        rewrite ascii_nat_embedding. f_equal. exact (IH _ _ _ _ _ E).
      * destruct (lead_len _) as [k'|] eqn:Hl; [|done].
        destruct (lead_len_some _ _ Hl) as [q Hq]. rewrite Hq in Hd.
        apply IH in Hd. subst r. by rewrite ascii_nat_embedding.
    + destruct (is_cont _); [|done]. rewrite ascii_nat_embedding in Hd. destruct p as [|p].
      * destruct (valid_code_point _ _); [|done].
        destruct (utf8_decode _ _ _ _ (escaped s)) eqn:E; simplify_eq/=.
        apply IH in E. subst. by rewrite string_app_assoc.
      * apply IH in Hd. subst r. by rewrite string_app_assoc.
Qed.

(** ** Round trip *)

(** The round trip through the two ends of a route parameter: what the
    client encodes with [encodeURIComponent] is decoded by Express to the
    same text when it is well-formed UTF-8, and to a [URIError] (a 400
    answer) otherwise. *)
Lemma decode_encode s :
  decodeURIComponent (encodeURIComponent s) = if utf8_valid s then Some s else None.
Proof.
  unfold decodeURIComponent, utf8_valid. rewrite tokenize_encode, utf8_decode_enc_escaped.
  destruct (utf8_decode _ _ _ _ (escaped s)) eqn:E; [|done].
  by rewrite (utf8_decode_escaped_output _ _ _ _ _ _ E).
Qed.
