(* ===== verification/Http.v ===== *)
(** The upstream HTTP client as the route files write it, inline in every
    handler: an [https.request] to [moviesminidatabase.p.rapidapi.com]
    whose ['end'] listener runs [JSON.parse] on the body.

    The upstream API is an oracle [api : string -> reply] from the request
    path to what the client observes: a transport error (the ['error']
    event), a body that is not JSON, or a parsed JSON value.  The state of
    a handler is the trace of the paths it requested, oldest first.

    The source uses the client in four ways, each a definition here:
    - [fetch_unguarded]: a promise whose ['end'] listener calls
      [JSON.parse] outside any [try]; a non-JSON body throws inside the
      listener and takes the process down ([movie.js], [getActorImage.js],
      [listSerieByActor.js]);
    - [fetch_guarded]: the same promise with [JSON.parse] inside a [try]
      that rejects ([getActorInfo.js], [listFilmByActor.js]);
    - [passthrough_unguarded]/[passthrough_guarded]: the callback style
      that answers the client from inside the listener, with or without a
      [try] around [JSON.parse] ([retrievegetMovieIdByTitle.js],
      [retrievegetSeriesIdByTitle.js], [listGetGenre.js],
      [listgetSeriesOrderByRatings.js], [listFilmByActor.js] [/id/:id]).

    [requests_at_most k m] says that [m], on every upstream and from every
    trace, appends at most [k] requests to the trace; its rules follow the
    combinators of the monad ([let*] adds, a loop multiplies). *)

From S2P Require Import Prelude JsValue.

Inductive reply : Type :=
| NetError
| Malformed
| Body (j : jsval).

(** [res.status(status).json(body)] (or [.send(body)]). *)
Record response : Type := mk_response { status : Z; body : jsval }.

Definition trace : Type := list string.

Definition ext_api_error : string := "Erreur lors de la communication avec l'API externe".

Section Client.
Variable api : string -> reply.

Definition request (path : string) : St trace reply :=
  fun tr => (Val (api path), tr ++ [path]).

Definition fetch_unguarded (net_err : string) (path : string) : St trace jsval :=
  let* r := request path in
  match r with
  | NetError => throw (Error net_err)
  | Malformed => crash
  | Body j => ret j
  end.

Definition fetch_guarded (net_err parse_err : string) (path : string) : St trace jsval :=
  let* r := request path in
  match r with
  | NetError => throw (Error net_err)
  | Malformed => throw (Error parse_err)
  | Body j => ret j
  end.

Definition passthrough_unguarded (path : string) : St trace response :=
  let* r := request path in
  match r with
  | NetError => ret (mk_response 500 (msg ext_api_error))
  | Malformed => crash
  | Body j => ret (mk_response 200 j)
  end.

Definition passthrough_guarded (parse_err : string) (path : string) : St trace response :=
  let* r := request path in
  match r with
  | NetError => ret (mk_response 500 (msg ext_api_error))
  | Malformed => ret (mk_response 500 (msg parse_err))
  | Body j => ret (mk_response 200 j)
  end.

(** Run lemmas: what each client call returns and records. *)

Lemma fetch_unguarded_run net_err path tr :
  fetch_unguarded net_err path tr =
    (match api path with
     | NetError => Exc (Error net_err)
     | Malformed => Crashed
     | Body j => Val j
     end, tr ++ [path]).
Proof. unfold fetch_unguarded, bind, request. by destruct (api path). Qed.

Lemma fetch_guarded_run net_err parse_err path tr :
  fetch_guarded net_err parse_err path tr =
    (match api path with
     | NetError => Exc (Error net_err)
     | Malformed => Exc (Error parse_err)
     | Body j => Val j
     end, tr ++ [path]).
Proof. unfold fetch_guarded, bind, request. by destruct (api path). Qed.

Lemma passthrough_guarded_never_crashes parse_err path tr :
  exists r, passthrough_guarded parse_err path tr = (Val r, tr ++ [path]).
Proof. unfold passthrough_guarded, bind, request. destruct (api path); eauto. Qed.
End Client.

Lemma passthrough_unguarded_run api path tr :
  passthrough_unguarded api path tr =
    (match api path with
     | NetError => Val (mk_response 500 (msg ext_api_error))
     | Malformed => Crashed
     | Body j => Val (mk_response 200 j)
     end, tr ++ [path]).
Proof. unfold passthrough_unguarded, bind, request. by destruct (api path). Qed.

Lemma fetch_guarded_no_crash api net_err parse_err path :
  no_crash (fetch_guarded api net_err parse_err path).
Proof. intros tr. rewrite fetch_guarded_run. by destruct (api path). Qed.

Lemma passthrough_guarded_no_crash api parse_err path :
  no_crash (passthrough_guarded api parse_err path).
Proof. intros tr. destruct (passthrough_guarded_never_crashes api parse_err path tr) as [r ->]. done. Qed.

#[export] Hint Resolve fetch_guarded_no_crash passthrough_guarded_no_crash : chills.

(** ** How many upstream requests a computation makes *)

(** [m] appends at most [k] requests to the trace, whatever it returns. *)
Definition requests_at_most {A} (k : nat) (m : St trace A) : Prop :=
  forall tr, exists o l, m tr = (o, tr ++ l) /\ (List.length l <= k)%nat.

Lemma requests_ret {A} (a : A) : requests_at_most 0 (ret a).
Proof. intros tr. exists (Val a), []. split; [by rewrite app_nil_r|simpl; lia]. Qed.

Lemma requests_lift {A} (o : outcome A) : requests_at_most 0 (lift o).
Proof. intros tr. exists o, []. split; [by rewrite app_nil_r|simpl; lia]. Qed.

Lemma requests_weaken {A} k k' (m : St trace A) : (k <= k')%nat -> requests_at_most k m -> requests_at_most k' m.
Proof. intros Hk Hm tr. destruct (Hm tr) as (o & l & E & Hl). exists o, l. split; [done|lia]. Qed.

Lemma requests_bind {A B} k k' (m : St trace A) (f : A -> St trace B) :
  requests_at_most k m -> (forall a, requests_at_most k' (f a)) -> requests_at_most (k + k') (bind m f).
Proof.
  intros Hm Hf tr. destruct (Hm tr) as (o & l & E & Hl). unfold bind. rewrite E.
  destruct o as [a|e|]; [|exists (Exc e), l; split; [done|lia]|exists Crashed, l; split; [done|lia]].
  destruct (Hf a (tr ++ l)) as (o' & l' & E' & Hl'). exists o', (l ++ l').
  rewrite E', app_assoc, length_app. split; [done|lia].
Qed.

(** A lifted value is known by its equation in the rest. *)
Lemma requests_bind_lift {A B} k (o : outcome A) (f : A -> St trace B) :
  (forall a, o = Val a -> requests_at_most k (f a)) -> requests_at_most k (bind (lift o) f).
Proof.
  intros Hf tr. unfold bind, lift. destruct o as [a|e|];
    [by apply Hf|exists (Exc e), []|exists Crashed, []]; (split; [by rewrite app_nil_r|simpl; lia]).
Qed.

Lemma requests_catch {A} k k' (m : St trace A) h :
  requests_at_most k m -> (forall e, requests_at_most k' (h e)) -> requests_at_most (k + k') (catch m h).
Proof.
  intros Hm Hh tr. destruct (Hm tr) as (o & l & E & Hl). unfold catch. rewrite E.
  destruct o as [a|e|]; [exists (Val a), l; split; [done|lia]| |exists Crashed, l; split; [done|lia]].
  destruct (Hh e (tr ++ l)) as (o' & l' & E' & Hl'). exists o', (l ++ l').
  rewrite E', app_assoc, length_app. split; [done|lia].
Qed.

(** A [for ... of] loop of [n] iterations of at most [k] requests each. *)
Lemma requests_mapM {A B} k (f : A -> St trace B) xs :
  (forall x, requests_at_most k (f x)) -> requests_at_most (k * List.length xs) (mapM f xs).
Proof.
  intros Hf. induction xs as [|x xs IH]; simpl; [rewrite Nat.mul_0_r; apply requests_ret|].
  replace (k * S (List.length xs))%nat with (k + (k * List.length xs + 0))%nat by lia.
  apply requests_bind; [apply Hf|]. intros b. apply requests_bind; [exact IH|]. intros. apply requests_ret.
Qed.

Lemma requests_fetch_unguarded api net_err path : requests_at_most 1 (fetch_unguarded api net_err path).
Proof. intros tr. rewrite fetch_unguarded_run. eexists _, [path]. simpl. split; [reflexivity|lia]. Qed.
