(* ===== verification/Resolver.v ===== *)
(** The resolver: the step that turns the upstream's candidate list for a
    title or a name into an IMDb identifier.  Four handlers contain the
    same lines ([movie.js] 52-55, [getActorInfo.js] 97-100,
    [listFilmByActor.js] 97-100, [listSerieByActor.js] 38-41):

      let imdbId;
      if (x.results && x.results.length > 0) imdbId = x.results[0].imdb_id;

    followed by a truthiness test of [imdbId].  [Spec] states what
    resolution promises on the payloads the upstream documents (an object
    whose [results] is an array of candidate objects): the identifier of
    the first candidate, no ranking.  [first_result_id_refines] shows the
    code implements it; the other lemmas give its behaviour on every
    other payload, errors included. *)

From S2P Require Import Prelude JsValue.

Definition first_result_id (x : jsval) : outcome jsval :=
  let? r := get_prop x "results" in
  if truthy r then
    let? len := get_prop r "length" in
    if js_gt len 0 then
      let? c := get_prop r "0" in
      get_prop c "imdb_id"
    else Val JUndef
  else Val JUndef.

(** [if (imdbId)]: the handler goes on only with a truthy identifier. *)
Definition resolved (o : outcome jsval) : option jsval :=
  match o with
  | Val v => if truthy v then Some v else None
  | _ => None
  end.

Module Spec.
(** A candidate as the upstream documents it: an object whose
  [imdb_id], when present, is a string. *)
Definition candidate_ok (c : list (string * jsval)) : Prop :=
  forall v, lookup_field "imdb_id" c = Some v -> exists s, v = JStr s.

(** The resolution result: the first candidate's non-empty identifier. *)
Definition resolve (cands : list (list (string * jsval))) : option string :=
  match cands with
  | c :: _ =>
      match lookup_field "imdb_id" c with
      | Some (JStr s) => if String.eqb s "" then None else Some s
      | _ => None
      end
  | [] => None
  end.

(** The payload [{ results: [c1, c2, ...] }] the upstream sends. *)
Definition payload (cands : list (list (string * jsval))) : jsval :=
  JObj [("results", JArr (map JObj cands))].
End Spec.

(** ** Behaviour on every payload *)

Lemma first_result_id_null : first_result_id JNull = Exc TypeError.
Proof. reflexivity. Qed.

Lemma first_result_id_no_results fs :
  lookup_field "results" fs = None -> first_result_id (JObj fs) = Val JUndef.
Proof. intros H. unfold first_result_id. simpl. by rewrite H. Qed.

Lemma first_result_id_empty fs :
  lookup_field "results" fs = Some (JArr []) -> first_result_id (JObj fs) = Val JUndef.
Proof. intros H. unfold first_result_id. simpl. by rewrite H. Qed.

Lemma first_result_id_array fs c cs :
  lookup_field "results" fs = Some (JArr (c :: cs)) ->
  first_result_id (JObj fs) = get_prop c "imdb_id".
Proof.
  intros H. unfold first_result_id. simpl. rewrite H. simpl.
  unfold js_gt. simpl. by destruct (Z.of_nat (List.length cs)).
Qed.

(** ** Refinement *)

(** On a documented payload the resolver never throws, and its value
    passes the truthiness test exactly when [Spec.resolve] succeeds. *)
Lemma first_result_id_payload cands :
  Forall Spec.candidate_ok cands ->
  exists v, first_result_id (Spec.payload cands) = Val v /\
            resolved (Val v) = option_map JStr (Spec.resolve cands).
Proof.
  intros Hok. destruct cands as [|c cs]; [by exists JUndef|]. unfold Spec.payload.
  rewrite (first_result_id_array _ (JObj c) (map JObj cs)) by reflexivity.
  inversion Hok as [|? ? Hc _]; subst. simpl.
  destruct (lookup_field "imdb_id" c) as [v|] eqn:E; simpl; [|by exists JUndef].
  destruct (Hc v E) as [s ->]. exists (JStr s). split; [done|]. simpl.
  by destruct (String.eqb s "").
Qed.

(** C1: on a payload of the documented shape, the resolver never throws
    (an empty candidate list gives [undefined], not a [TypeError]), and
    the value it gives passes the handler's truthiness test exactly when
    [Spec.resolve] finds an identifier, which is then that value: the
    first candidate wins, with no ranking among the others. *)
Theorem first_result_id_refines cands :
  Forall Spec.candidate_ok cands ->
  exists v, first_result_id (Spec.payload cands) = Val v /\
            resolved (Val v) = option_map JStr (Spec.resolve cands).
Proof. apply first_result_id_payload. Qed.

Definition demo_candidates : list (list (string * jsval)) :=
  [[("imdb_id", JStr "tt0117571"); ("title", JStr "Scream")];
   [("imdb_id", JStr "tt0120082"); ("title", JStr "Scream 2")]].

Lemma first_result_id_refines_witness :
  Forall Spec.candidate_ok demo_candidates /\
  exists v, first_result_id (Spec.payload demo_candidates) = Val v /\
            resolved (Val v) = Some (JStr "tt0117571").
Proof.
  assert (Hok : Forall Spec.candidate_ok demo_candidates)
    by (repeat constructor; vm_compute; intros v [= <-]; eauto).
  split; [exact Hok|]. apply (first_result_id_refines demo_candidates Hok).
Defined.

Lemma first_result_id_no_crash x : no_crash_o (first_result_id x).
Proof. unfold first_result_id. repeat (apply no_crash_o_obind || intros || case_match); auto with chills. Qed.

#[export] Hint Resolve first_result_id_no_crash : chills.
