(* ===== verification/Cast.v ===== *)
(** The cast extractor and the fan-out enricher of [getActorImage.js]
    ([GET /api/search/castInfoByMovie/:imdbId]): fetch the cast of a movie,
    keep the roles that are neither ["Director"] nor ["Writer"], cut to the
    first ten, then fetch each actor's record one after the other and keep
    its [name] and [image_url].

    [actor_roles] is the extractor ([.filter(...).slice(0, 10)]),
    [fetchActorDetails] and [actor_entry] the per-actor step of the
    [for ... of] loop, [castInfoByMovie] the handler.  [entry_ref] is the
    per-actor step read as a function of the upstream oracle; the theorems
    relate the sequential loop to it, and bound the requests the handler
    sends on any upstream by the [slice(0, 10)] ([requests_at_most] of
    [Http]). *)

From S2P Require Import Prelude JsValue UriEncode Http.

(** ** The extractor *)

(** [role => role.role !== 'Director' && role.role !== 'Writer'] *)
Definition is_performer (role : jsval) : outcome bool :=
  let? r := get_prop role "role" in
  Val (strict_neq_str r "Director" && strict_neq_str r "Writer").

(** [Array.prototype.filter] with a callback that may throw. *)
Fixpoint filter_roles (rs : list jsval) : outcome (list jsval) :=
  match rs with
  | [] => Val []
  | r :: rs' =>
      let? keep := is_performer r in
      let? rest := filter_roles rs' in
      Val (if keep then r :: rest else rest)
  end.

Definition max_cast : nat := 10.

(** [responseCast.results.roles.filter(...).slice(0, 10)] *)
Definition actor_roles (rs : list jsval) : outcome (list jsval) :=
  let? kept := filter_roles rs in Val (firstn max_cast kept).

(** [responseCast && responseCast.results && Array.isArray(responseCast.results.roles)] *)
Definition cast_roles (rc : jsval) : outcome (option (list jsval)) :=
  if truthy rc then
    let? res := get_prop rc "results" in
    if truthy res then
      let? roles := get_prop res "roles" in
      match roles with
      | JArr xs => Val (Some xs)
      | _ => Val None
      end
    else Val None
  else Val None.

(** ** The enricher *)

Definition cast_path (imdbId : string) : string := "/movie/id/" +:+ imdbId +:+ "/cast/".

Definition actor_path (actorId : jsval) : string :=
  "/actor/id/" +:+ js_to_string actorId +:+ "/".

Definition internal_error : response := mk_response 500 (msg "Erreur interne du serveur").

Section Enricher.
Variable api : string -> reply.

(** [fetchActorDetails]: the listener evaluates
  [JSON.parse(...).results]; both can throw there. *)
Definition fetchActorDetails (actorId : jsval) : St trace jsval :=
  let* j := fetch_unguarded api ext_api_error (actor_path actorId) in
  match get_prop j "results" with
  | Val r => ret r
  | _ => crash
  end.

(** One iteration of the loop over [actorRoles]. *)
Definition actor_entry (role : jsval) : St trace jsval :=
  let* actor := lift (get_prop role "actor") in
  let* actorId := lift (get_prop actor "imdb_id") in
  let* actorDetails := fetchActorDetails actorId in
  let* name := lift (get_prop actorDetails "name") in
  let* image := lift (get_prop actorDetails "image_url") in
  ret (JObj [("name", name); ("image", image)]).

(** [router.get('/:imdbId', ...)] *)
Definition castInfoByMovie (imdbId : string) : St trace response :=
  catch
    (let* responseCast := fetch_unguarded api ext_api_error (cast_path imdbId) in
     let* roles := lift (cast_roles responseCast) in
     let* castDetails :=
       match roles with
       | Some rs =>
           let* actorRoles := lift (actor_roles rs) in
           mapM actor_entry actorRoles
       | None => ret []
       end in
     ret (mk_response 200 (JObj [("imdb_id", JStr imdbId); ("cast", JArr castDetails)])))
    (fun _ => ret internal_error).

(** ** The enricher as a function of the oracle *)

Definition actor_id_of (role : jsval) : outcome jsval :=
  let? actor := get_prop role "actor" in get_prop actor "imdb_id".

Definition details_of (r : reply) : outcome jsval :=
  match r with
  | NetError => Exc (Error ext_api_error)
  | Malformed => Crashed
  | Body j => match get_prop j "results" with Val d => Val d | _ => Crashed end
  end.

Definition entry_ref (role : jsval) : outcome jsval :=
  let? actorId := actor_id_of role in
  let? d := details_of (api (actor_path actorId)) in
  let? name := get_prop d "name" in
  let? image := get_prop d "image_url" in
  Val (JObj [("name", name); ("image", image)]).

(** The requests one iteration makes: one, once the id is read. *)
Definition entry_path (role : jsval) : list string :=
  match actor_id_of role with Val id => [actor_path id] | _ => [] end.

Lemma actor_entry_run role tr :
  actor_entry role tr = (entry_ref role, tr ++ entry_path role).
Proof.
  unfold actor_entry, entry_ref, entry_path, actor_id_of, fetchActorDetails.
  run_st.
  destruct (get_prop role "actor") as [a|e|]; simpl; [|by rewrite app_nil_r..].
  destruct (get_prop a "imdb_id") as [id|e|]; simpl; [|by rewrite app_nil_r..].
  rewrite fetch_unguarded_run. unfold details_of.
  destruct (api (actor_path id)) as [| |j]; [done|done|].
  destruct (get_prop j "results") as [d|e|]; simpl; [|done..].
  destruct (get_prop d "name"); simpl; [|done..].
  by destruct (get_prop d "image_url").
Qed.
End Enricher.

(** ** The extractor *)

(** The filter callback's verdict on a role it does not throw on. *)
Definition performer (role : jsval) : bool :=
  match is_performer role with Val b => b | _ => false end.

(** A role the callback can read: anything but [null] and [undefined]. *)
Definition readable (role : jsval) : Prop := role <> JNull /\ role <> JUndef.

Lemma is_performer_readable role :
  readable role -> is_performer role = Val (performer role).
Proof. intros [H1 H2]. unfold performer, is_performer. by destruct role. Qed.

Lemma filter_roles_val rs out :
  filter_roles rs = Val out -> out = List.filter performer rs.
Proof.
  revert out. induction rs as [|r rs IH]; intros out H; simpl in *; [by injection H as <-|].
  unfold performer at 1. destruct (is_performer r) as [b| |]; simpl in H; try done.
  destruct (filter_roles rs) as [rest| |]; simpl in H; try done.
  injection H as <-. rewrite (IH rest eq_refl). by destruct b.
Qed.

Lemma filter_roles_total rs :
  Forall readable rs -> filter_roles rs = Val (List.filter performer rs).
Proof.
  induction 1 as [|r rs Hr _ IH]; [done|]. simpl.
  rewrite is_performer_readable, IH by done. simpl. by destruct (performer r).
Qed.

Lemma filter_roles_null pre post :
  Forall readable pre -> filter_roles (pre ++ JNull :: post) = Exc TypeError.
Proof. induction 1 as [|r rs Hr _ IH]; [done|]. simpl. by rewrite is_performer_readable, IH. Qed.

Lemma actor_roles_total rs :
  Forall readable rs -> actor_roles rs = Val (firstn max_cast (List.filter performer rs)).
Proof. intros H. unfold actor_roles. by rewrite filter_roles_total. Qed.

(** ** The handler *)

Section Handler.
Variable api : string -> reply.
Variable imdbId : string.

Lemma actor_entries_ok rs es :
  Forall2 (fun r e => entry_ref api r = Val e) rs es ->
  Forall2 (fun r e => forall tr, actor_entry api r tr = (Val e, tr ++ entry_path r)) rs es.
Proof.
  intros H. eapply Forall2_impl; [exact H|]. intros r e He tr.
  by rewrite actor_entry_run, He.
Qed.

(** The handler up to the loop, once the cast payload has been read. *)
Lemma castInfoByMovie_roles rc roles rs tr :
  api (cast_path imdbId) = Body rc ->
  cast_roles rc = Val (Some roles) ->
  actor_roles roles = Val rs ->
  castInfoByMovie api imdbId tr =
    catch (let* castDetails := mapM (actor_entry api) rs in
           ret (mk_response 200 (JObj [("imdb_id", JStr imdbId); ("cast", JArr castDetails)])))
          (fun _ => ret internal_error) (tr ++ [cast_path imdbId]).
Proof.
  intros Hapi Hroles Hrs. unfold castInfoByMovie, catch at 1, bind at 1.
  rewrite fetch_unguarded_run, Hapi. run_st. by rewrite Hroles, Hrs.
Qed.

(** C7: when every actor lookup succeeds, the handler answers 200 with
  the enriched entries in the order of the extracted roles, after
  requesting the cast and then each actor once, in that order. *)
Theorem castInfoByMovie_ok rc roles rs es tr :
  api (cast_path imdbId) = Body rc ->
  cast_roles rc = Val (Some roles) ->
  actor_roles roles = Val rs ->
  Forall2 (fun r e => entry_ref api r = Val e) rs es ->
  castInfoByMovie api imdbId tr =
    (Val (mk_response 200 (JObj [("imdb_id", JStr imdbId); ("cast", JArr es)])),
     tr ++ cast_path imdbId :: List.concat (map (entry_path) rs)).
Proof.
  intros Hapi Hroles Hrs Hes. rewrite (castInfoByMovie_roles rc roles rs) by done.
  unfold catch, bind at 1.
  rewrite (mapM_trace_ok _ (entry_path) rs es) by by apply actor_entries_ok.
  by rewrite <- app_assoc.
Qed.

(** C21: the first actor lookup that throws fails the whole request with
  a 500, and no actor after it is requested (the abort policy of this
  endpoint). *)
Theorem castInfoByMovie_abort rc roles pre r post es e tr :
  api (cast_path imdbId) = Body rc ->
  cast_roles rc = Val (Some roles) ->
  actor_roles roles = Val (pre ++ r :: post) ->
  Forall2 (fun r e => entry_ref api r = Val e) pre es ->
  entry_ref api r = Exc e ->
  castInfoByMovie api imdbId tr =
    (Val internal_error,
     tr ++ cast_path imdbId :: List.concat (map (entry_path) (pre ++ [r]))).
Proof.
  intros Hapi Hroles Hrs Hes Hr. rewrite (castInfoByMovie_roles rc roles _) by done.
  unfold catch, bind at 1.
  rewrite (mapM_trace_exc _ (entry_path) pre r post es e)
    by (by apply actor_entries_ok || (intros; by rewrite actor_entry_run, Hr)).
  rewrite map_app, concat_app. simpl. by rewrite app_nil_r, <- !app_assoc.
Qed.

(** a cast payload without a [results.roles] array is answered 200
  with an empty cast, and no actor is looked up. *)
Lemma castInfoByMovie_no_roles rc tr :
  api (cast_path imdbId) = Body rc ->
  cast_roles rc = Val None ->
  castInfoByMovie api imdbId tr =
    (Val (mk_response 200 (JObj [("imdb_id", JStr imdbId); ("cast", JArr [])])),
     tr ++ [cast_path imdbId]).
Proof.
  intros Hapi Hroles. unfold castInfoByMovie, catch, bind at 1.
  rewrite fetch_unguarded_run, Hapi. run_st. by rewrite Hroles.
Qed.

(** a transport failure on the cast request answers 500 with the
  generic message and nothing else is requested. *)
Theorem castInfoByMovie_net_error tr :
  api (cast_path imdbId) = NetError ->
  castInfoByMovie api imdbId tr = (Val internal_error, tr ++ [cast_path imdbId]).
Proof.
  intros Hapi. unfold castInfoByMovie, catch, bind at 1.
  by rewrite fetch_unguarded_run, Hapi.
Qed.

(** a cast body that is not JSON is not answered at all: the parse
  error is thrown in the response listener and ends the process. *)
Theorem castInfoByMovie_malformed tr :
  api (cast_path imdbId) = Malformed ->
  fst (castInfoByMovie api imdbId tr) = Crashed.
Proof.
  intros Hapi. unfold castInfoByMovie, catch, bind at 1.
  by rewrite fetch_unguarded_run, Hapi.
Qed.
(** One iteration of the loop requests one actor, or none when the
    role has no readable identifier. *)
Lemma actor_entry_requests role : requests_at_most 1 (actor_entry api role).
Proof.
  intros tr. rewrite actor_entry_run. eexists _, (entry_path role). split; [done|].
  unfold entry_path. case_match; simpl; lia.
Qed.

Lemma actor_roles_length rs out : actor_roles rs = Val out -> (List.length out <= max_cast)%nat.
Proof.
  unfold actor_roles. destruct (filter_roles rs); simpl; intros; simplify_eq. apply firstn_le_length.
Qed.

(** C6: [slice(0, 10)] bounds the fan-out: whatever the upstream answers,
    the handler makes at most eleven requests (the cast, then at most ten
    actors); and of a cast whose roles are all readable the extractor
    keeps exactly the first [min 10 n] of its [n] performers, none a
    director or a writer. *)
Theorem castInfoByMovie_requests_bounded :
  requests_at_most 11 (castInfoByMovie api imdbId) /\
  (forall rs, Forall readable rs ->
     exists out, actor_roles rs = Val out /\
       List.length out = Nat.min 10 (List.length (List.filter performer rs)) /\
       Forall (fun r => performer r = true) out).
Proof.
  split.
  - unfold castInfoByMovie. apply (requests_weaken (1 + (0 + (10 + 0)) + 0)); [lia|].
    apply requests_catch; [|intros; apply requests_ret].
    apply requests_bind; [apply requests_fetch_unguarded|intros rc].
    apply requests_bind_lift. intros [rs|] _; apply (requests_bind 10 0); try (intros; apply requests_ret).
    + apply requests_bind_lift. intros ar Har. apply (requests_weaken (1 * List.length ar)).
      * pose proof (actor_roles_length _ _ Har). unfold max_cast in *. lia.
      * apply requests_mapM, actor_entry_requests.
    + apply (requests_weaken 0); [lia|apply requests_ret].
  - intros rs Hrs. eexists. split; [by apply actor_roles_total|]. split.
    + rewrite length_firstn. unfold max_cast. lia.
    + apply Forall_take, Forall_forall. intros r Hr%list_elem_of_In. by apply filter_In in Hr as [_ ->].
Qed.
End Handler.

(** ** Witnesses on a concrete upstream *)

Definition demo_role (label id : string) : jsval :=
  JObj [("role", JStr label); ("actor", JObj [("imdb_id", JStr id)])].

Definition demo_roles : list jsval :=
  [demo_role "Director" "nm1"; demo_role "Actor" "nm2";
   demo_role "Writer" "nm3"; demo_role "Actress" "nm4"].

Definition demo_kept : list jsval := [demo_role "Actor" "nm2"; demo_role "Actress" "nm4"].

Definition demo_cast : jsval := JObj [("results", JObj [("roles", JArr demo_roles)])].

Definition demo_person (name : string) : jsval :=
  JObj [("results", JObj [("name", JStr name); ("image_url", JStr (name +:+ ".jpg"))])].

Definition demo_entry (name : string) : jsval :=
  JObj [("name", JStr name); ("image", JStr (name +:+ ".jpg"))].

(** The cast of ["tt1"] resolves both actors; ["tt2"] has the same cast
    but the first actor's lookup fails. *)
Definition demo_api (p : string) : reply :=
  if String.eqb p (cast_path "tt1") then Body demo_cast
  else if String.eqb p (cast_path "tt2") then Body demo_cast
  else if String.eqb p (cast_path "tt3") then Malformed
  else if String.eqb p (cast_path "tt4") then Body (JObj [("results", JObj [])])
  else if String.eqb p "/actor/id/nm2/" then Body (demo_person "Ann")
  else if String.eqb p "/actor/id/nm4/" then Body (demo_person "Bea")
  else NetError.

Definition demo_api_down (p : string) : reply :=
  if String.eqb p "/actor/id/nm2/" then NetError else demo_api p.

Lemma castInfoByMovie_ok_witness :
  castInfoByMovie demo_api "tt1" [] =
    (Val (mk_response 200 (JObj [("imdb_id", JStr "tt1");
                                 ("cast", JArr [demo_entry "Ann"; demo_entry "Bea"])])),
     [cast_path "tt1"; "/actor/id/nm2/"; "/actor/id/nm4/"]).
Proof.
  apply (castInfoByMovie_ok demo_api "tt1" demo_cast demo_roles demo_kept); try reflexivity.
  repeat constructor.
Defined.

Lemma castInfoByMovie_abort_witness :
  castInfoByMovie demo_api_down "tt2" [] =
    (Val internal_error, [cast_path "tt2"; "/actor/id/nm2/"]).
Proof.
  apply (castInfoByMovie_abort demo_api_down "tt2" demo_cast demo_roles []
           (demo_role "Actor" "nm2") [demo_role "Actress" "nm4"] [] (Error ext_api_error));
    try reflexivity.
  constructor.
Defined.

Lemma castInfoByMovie_net_error_witness :
  castInfoByMovie demo_api "tt9" [] = (Val internal_error, [cast_path "tt9"]).
Proof. apply castInfoByMovie_net_error. reflexivity. Defined.

Lemma castInfoByMovie_malformed_witness : fst (castInfoByMovie demo_api "tt3" []) = Crashed.
Proof. apply castInfoByMovie_malformed. reflexivity. Defined.

(** the identifier of [castInfoByMovie] goes into the upstream path
    without [encodeURIComponent]; Express has already decoded it, so an
    identifier sent as [x%2F..%2F..%2F..%2Fgenres] adds segments of its
    own to the upstream request. *)
Example cast_path_unencoded :
  path_segments (cast_path "x/../../../genres") =
    [""; "movie"; "id"; "x"; ".."; ".."; ".."; "genres"; "cast"; ""].
Proof. reflexivity. Qed.

Lemma castInfoByMovie_no_roles_witness :
  castInfoByMovie demo_api "tt4" [] =
    (Val (mk_response 200 (JObj [("imdb_id", JStr "tt4"); ("cast", JArr [])])), [cast_path "tt4"]).
Proof. apply (castInfoByMovie_no_roles demo_api "tt4" (JObj [("results", JObj [])])); reflexivity. Defined.
