(* ===== verification/SearchRoutes.v ===== *)
(** The title routes: [movie.js] ([GET /api/search/castByMovie/:film]),
    which resolves a title and then fetches the movie's details and its
    cast, and the single-call routes that forward one upstream answer:
    [retrievegetMovieIdByTitle.js] ([/api/search/film/:film],
    [/api/search/film/idFilm/:id]), [retrievegetSeriesIdByTitle.js]
    ([/api/search/serie/:serie], [/api/search/serie/idSerie/:id]),
    [listGetGenre.js] ([/api/search/genre], [/api/search/genre/:genre]) and
    [listgetSeriesOrderByRatings.js] ([/api/search/seriebyrating]). *)

From S2P Require Import Prelude JsValue UriEncode Http Resolver Cast.

Definition title_path (film : string) : string :=
  "/movie/imdb_id/byTitle/" +:+ encodeURIComponent film +:+ "/".

Definition movie_path (imdbId : jsval) : string :=
  "/movie/id/" +:+ js_to_string imdbId +:+ "/".

Definition parse_error : string := "Erreur lors de l'analyse de la réponse de l'API.".

Section Routes.
Variable api : string -> reply.

(** [movie.js]: [router.get('/:film', ...)]. *)
Definition castByMovie (film : string) : St trace response :=
  catch
    (let* responseFilm := fetch_unguarded api ext_api_error (title_path film) in
     let* imdbId := lift (first_result_id responseFilm) in
     if truthy imdbId then
       let* responseId := fetch_unguarded api ext_api_error (movie_path imdbId) in
       let* responseCast :=
         fetch_unguarded api ext_api_error (cast_path (js_to_string imdbId)) in
       ret (mk_response 200 (JObj [("imdb_id", imdbId); ("filmDetails", responseId);
                                   ("cast", responseCast)]))
     else ret (mk_response 404 (msg "Film non trouvé")))
    (fun _ => ret internal_error).

(** [retrievegetMovieIdByTitle.js]: [router.get('/:film', ...)]. *)
Definition searchFilm (film : string) : St trace response :=
  passthrough_unguarded api (title_path film).

(** [retrievegetMovieIdByTitle.js]: [router.get('/idFilm/:id', ...)]. *)
Definition searchFilmById (id : string) : St trace response :=
  passthrough_unguarded api ("/movie/id/" +:+ trim id +:+ "/").

(** [retrievegetSeriesIdByTitle.js]: [router.get('/:serie', ...)]. *)
Definition searchSerie (serie : string) : St trace response :=
  passthrough_unguarded api ("/series/idbyTitle/" +:+ encodeURIComponent serie +:+ "/").

(** [retrievegetSeriesIdByTitle.js]: [router.get('/idSerie/:id', ...)]. *)
Definition searchSerieById (id : string) : St trace response :=
  passthrough_unguarded api ("/movie/id/" +:+ trim id +:+ "/").

(** [listGetGenre.js]: [router.get('/', ...)]. *)
Definition listGenres : St trace response :=
  passthrough_guarded api parse_error "/genres/".

(** [listGetGenre.js]: [router.get('/:genre', ...)]. *)
Definition listByGenre (genre : string) : St trace response :=
  passthrough_guarded api parse_error ("/movie/byGen/" +:+ encodeURIComponent genre +:+ "/").

(** [listgetSeriesOrderByRatings.js]: [router.get('/', ...)]. *)
Definition seriesByRating : St trace response :=
  passthrough_guarded api parse_error "/series/order/byRating/".
End Routes.

(** ** [castByMovie] *)

Section CastByMovie.
Variable api : string -> reply.
Variable film : string.

(** The handler once the title lookup has answered [responseFilm]. *)
Lemma castByMovie_resolved x v tr :
  api (title_path film) = Body x ->
  first_result_id x = Val v ->
  castByMovie api film tr =
    catch (if truthy v then
             let* responseId := fetch_unguarded api ext_api_error (movie_path v) in
             let* responseCast := fetch_unguarded api ext_api_error (cast_path (js_to_string v)) in
             ret (mk_response 200 (JObj [("imdb_id", v); ("filmDetails", responseId);
                                         ("cast", responseCast)]))
           else ret (mk_response 404 (msg "Film non trouvé")))
          (fun _ => ret internal_error) (tr ++ [title_path film]).
Proof.
  intros Hapi Hv. unfold castByMovie, catch at 1 2, bind at 1.
  rewrite fetch_unguarded_run, Hapi. run_st. by rewrite Hv.
Qed.

(** C10: a title that resolves to no candidate is answered 404
  ["Film non trouvé"], never 500, and no detail or cast request is
  issued. *)
Theorem castByMovie_not_found cands tr :
  Forall Resolver.Spec.candidate_ok cands ->
  Resolver.Spec.resolve cands = None ->
  api (title_path film) = Body (Resolver.Spec.payload cands) ->
  castByMovie api film tr =
    (Val (mk_response 404 (msg "Film non trouvé")), tr ++ [title_path film]).
Proof.
  intros Hok Hnone Hapi.
  destruct (first_result_id_payload cands Hok) as (v & Hv & Hres).
  rewrite (castByMovie_resolved _ v) by done.
  rewrite Hnone in Hres. simpl in Hres. by destruct (truthy v).
Qed.

(** C8: a title whose first candidate has identifier [id] is answered
  200 with [{imdb_id, filmDetails, cast}] built from the detail and
  cast payloads, after exactly three requests in this order: the
  title, the details of [id], the cast of [id]. *)
Theorem castByMovie_found cands id details cast tr :
  Forall Resolver.Spec.candidate_ok cands ->
  Resolver.Spec.resolve cands = Some id ->
  api (title_path film) = Body (Resolver.Spec.payload cands) ->
  api (movie_path (JStr id)) = Body details ->
  api (cast_path id) = Body cast ->
  castByMovie api film tr =
    (Val (mk_response 200 (JObj [("imdb_id", JStr id); ("filmDetails", details);
                                 ("cast", cast)])),
     tr ++ [title_path film; movie_path (JStr id); cast_path id]).
Proof.
  intros Hok Hid Hapi Hd Hc.
  destruct (first_result_id_payload cands Hok) as (v & Hv & Hres).
  rewrite (castByMovie_resolved _ v) by done.
  rewrite Hid in Hres. simpl in Hres.
  destruct (truthy v) eqn:Ht; [injection Hres as ->|done].
  unfold catch, bind. rewrite fetch_unguarded_run, Hd. simpl.
  rewrite fetch_unguarded_run, Hc. simpl. by rewrite <- !app_assoc.
Qed.

(** a transport failure on the title lookup is answered 500 with the
  generic message, and nothing else is requested. *)
Theorem castByMovie_net_error tr :
  api (title_path film) = NetError ->
  castByMovie api film tr = (Val internal_error, tr ++ [title_path film]).
Proof.
  intros Hapi. unfold castByMovie, catch, bind at 1.
  by rewrite fetch_unguarded_run, Hapi.
Qed.

(** C32: a title lookup whose body is not JSON gets no answer: the parse
  error is thrown in the response listener and ends the process. *)
Theorem castByMovie_malformed tr :
  api (title_path film) = Malformed -> fst (castByMovie api film tr) = Crashed.
Proof.
  intros Hapi. unfold castByMovie, catch, bind at 1.
  by rewrite fetch_unguarded_run, Hapi.
Qed.
End CastByMovie.

(** ** Upstream paths *)

(** the title is spliced into the upstream path as exactly one
    segment, whatever it contains ([/], [?], [#], spaces, non-ASCII). *)
Theorem title_path_segments film :
  path_segments (title_path film) =
    [""; "movie"; "imdb_id"; "byTitle"; encodeURIComponent film; ""].
Proof.
  unfold title_path, path_segments. rewrite !string_app_cons. simpl.
  rewrite !string_app_nil_l, segments_encoded. reflexivity.
Qed.

(** C33: the series-by-identifier route makes the same upstream request as
    the movie-by-identifier route and answers with its result: it looks
    the identifier up among movies, not series. *)
Theorem searchSerieById_is_movie_lookup api id tr :
  searchSerieById api id tr = searchFilmById api id tr.
Proof. reflexivity. Qed.

(** ** Witnesses: the spec's "scream" scenario on a concrete upstream *)

Definition scream_details : jsval := JObj [("results", JObj [("title", JStr "Scream")])].

Definition scream_cast : jsval := JObj [("results", JObj [("roles", JArr [])])].

Definition search_api (p : string) : reply :=
  if String.eqb p (title_path "scream") then Body (Resolver.Spec.payload demo_candidates)
  else if String.eqb p (title_path "zzqx") then Body (Resolver.Spec.payload [])
  else if String.eqb p (title_path "broken") then Malformed
  else if String.eqb p (movie_path (JStr "tt0117571")) then Body scream_details
  else if String.eqb p (cast_path "tt0117571") then Body scream_cast
  else NetError.

Lemma castByMovie_not_found_witness :
  castByMovie search_api "zzqx" [] =
    (Val (mk_response 404 (msg "Film non trouvé")), [title_path "zzqx"]).
Proof. apply (castByMovie_not_found search_api "zzqx" []); [constructor|reflexivity..]. Defined.

Lemma castByMovie_found_witness :
  castByMovie search_api "scream" [] =
    (Val (mk_response 200 (JObj [("imdb_id", JStr "tt0117571");
                                 ("filmDetails", scream_details); ("cast", scream_cast)])),
     [title_path "scream"; movie_path (JStr "tt0117571"); cast_path "tt0117571"]).
Proof.
  apply (castByMovie_found search_api "scream" demo_candidates); try reflexivity.
  repeat constructor; vm_compute; intros v [= <-]; eauto.
Defined.

Lemma castByMovie_net_error_witness :
  castByMovie search_api "offline" [] = (Val internal_error, [title_path "offline"]).
Proof. apply castByMovie_net_error. reflexivity. Defined.

Lemma castByMovie_malformed_witness : fst (castByMovie search_api "broken" []) = Crashed.
Proof. apply castByMovie_malformed. reflexivity. Defined.
