(* ===== verification/ActorRoutes.v ===== *)
(** The actor routes: [getActorInfo.js] ([GET /api/search/actorDetail/:name]),
    [listFilmByActor.js] ([GET /api/search/filmbyactorname/:name] and
    [/api/search/filmbyactorname/id/:id]) and [listSerieByActor.js]
    ([GET /api/search/seriebyactorname/:name]).  Each resolves a name to an
    identifier with the resolver; the filmography routes then list the
    actor's titles and fetch each title's record one after the other,
    skipping the titles whose lookup is rejected. *)

From S2P Require Import Prelude JsValue UriEncode Http Resolver Cast SearchRoutes.

Definition actor_name_path (name : string) : string :=
  "/actor/imdb_id_byName/" +:+ encodeURIComponent name +:+ "/".

Definition films_by_actor_path (imdbId : jsval) : string :=
  "/movie/byActor/" +:+ js_to_string imdbId +:+ "/".

Definition series_by_actor_path (imdbId : jsval) : string :=
  "/series/byActor/" +:+ js_to_string imdbId +:+ "/".

Definition series_path (imdbId : jsval) : string :=
  "/series/id/" +:+ js_to_string imdbId +:+ "/".

(** [x && Array.isArray(x.results)]: the listing, when it is an array. *)
Definition results_array (x : jsval) : outcome (option (list jsval)) :=
  if truthy x then
    let? r := get_prop x "results" in
    match r with JArr xs => Val (Some xs) | _ => Val None end
  else Val None.

(** [x.results.forEach(d => ids.push(d[0].imdb_id))] *)
Fixpoint first_ids (xs : list jsval) : outcome (list jsval) :=
  match xs with
  | [] => Val []
  | x :: xs' =>
      let? d := get_prop x "0" in
      let? id := get_prop d "imdb_id" in
      let? rest := first_ids xs' in
      Val (id :: rest)
  end.

Definition actor_not_found : response := mk_response 404 (msg "Acteur non trouvé.").

Section Routes.
Variable api : string -> reply.

(** [getActorInfo.js]: [router.get('/:name', ...)]. *)
Definition actorDetail (name : string) : St trace response :=
  catch
    (let* actorId :=
       fetch_guarded api "Erreur lors de la communication avec l'API externe pour l'acteur"
         "Erreur lors de l'analyse JSON de la réponse de l'API acteur." (actor_name_path name) in
     let* imdbId := lift (first_result_id actorId) in
     if negb (truthy imdbId) then ret actor_not_found else
     let* detail :=
       fetch_guarded api
         "Erreur lors de la communication avec l'API externe pour les détails de l'acteur"
         "Erreur lors de l'analyse JSON de la réponse de l'API acteur." (actor_path imdbId) in
     ret (mk_response 200 detail))
    (fun _ => ret (mk_response 500 (msg "Erreur lors du traitement de la requête."))).

Definition getMovieById (imdbId : jsval) : St trace jsval :=
  fetch_guarded api "Erreur lors de la communication avec l'API externe pour les détails de film."
    "Erreur lors de l'analyse JSON de la réponse de l'API des détails de film."
    (movie_path imdbId).

(** The [for] loop over [idFilm]: each film is looked up in a [try] of
    its own, and a rejected lookup is skipped. *)
Definition fetch_films (idFilm : list jsval) : St trace (list jsval) := mapM_skip getMovieById idFilm.

(** [listFilmByActor.js]: [router.get('/:name', ...)]. *)
Definition listFilmByActor (name : string) : St trace response :=
  catch
    (let* actorId :=
       fetch_guarded api "Erreur lors de la communication avec l'API externe pour l'acteur"
         "Erreur lors de l'analyse JSON de la réponse de l'API acteur." (actor_name_path name) in
     let* imdbId := lift (first_result_id actorId) in
     if negb (truthy imdbId) then ret actor_not_found else
     let* filmByActor :=
       fetch_guarded api "Erreur lors de la communication avec l'API externe pour les films"
         "Erreur lors de l'analyse JSON de la réponse de l'API des films."
         (films_by_actor_path imdbId) in
     let* listing := lift (results_array filmByActor) in
     match listing with
     | None => ret (mk_response 404 (msg "Aucun film trouvé pour cet acteur."))
     | Some xs =>
         let* idFilm := lift (first_ids xs) in
         let* films := fetch_films idFilm in
         ret (mk_response 200 (JObj [("resultat", JObj [("film", JArr films); ("idActor", imdbId)])]))
     end)
    (fun _ => ret (mk_response 500 (msg "Erreur lors de la récupération des données"))).

(** [listFilmByActor.js]: [router.get('/id/:id', ...)]. *)
Definition actorById (id : string) : St trace response :=
  passthrough_guarded api "Erreur lors du traitement de la réponse."
    ("/actor/id/" +:+ encodeURIComponent id +:+ "/").

Definition getSerieById (imdbId : jsval) : St trace jsval :=
  fetch_unguarded api ext_api_error (series_path imdbId).

(** [listSerieByActor.js]: [router.get('/:name', ...)]. *)
Definition listSerieByActor (name : string) : St trace response :=
  catch
    (let* actorId := fetch_unguarded api ext_api_error (actor_name_path name) in
     let* imdbId := lift (first_result_id actorId) in
     if negb (truthy imdbId) then ret (mk_response 404 (msg "Acteur non trouvé")) else
     let* serieByActor := fetch_unguarded api ext_api_error (series_by_actor_path imdbId) in
     let* listing := lift (results_array serieByActor) in
     match listing with
     | None => ret (mk_response 404 (msg "Aucune série trouvée pour cet acteur."))
     | Some xs =>
         let* idSerie := lift (first_ids xs) in
         let* series := mapM_skip getSerieById idSerie in
         ret (mk_response 200 (JObj [("resultat", JArr series)]))
     end)
    (fun _ => ret (mk_response 500 (msg "Erreur lors de la récupération des données"))).
End Routes.

(** ** Shared steps *)

Lemma results_array_no_crash x : no_crash_o (results_array x).
Proof. unfold results_array. repeat (apply no_crash_o_obind || intros || case_match); auto with chills. Qed.

Lemma first_ids_no_crash xs : no_crash_o (first_ids xs).
Proof.
  induction xs as [|x xs IH]; simpl; [done|].
  repeat (apply no_crash_o_obind || intros); auto with chills.
Qed.

#[export] Hint Resolve results_array_no_crash first_ids_no_crash : chills.

(** [no_crash] of a handler: split binds, catches and branches. *)
Ltac solve_no_crash :=
  repeat (intros; match goal with
                  | |- no_crash (match ?x with _ => _ end) => destruct x
                  | |- no_crash (bind _ _) => apply no_crash_bind
                  | |- no_crash (catch _ _) => apply no_crash_catch
                  | |- no_crash (if _ then _ else _) => apply no_crash_if
                  | |- _ => solve [eauto with chills]
                  end).

(** A record the filmography loop keeps: the parsed body of a lookup
    that the guarded client did not reject. *)
Definition film_of (api : string -> reply) (imdbId : jsval) : option jsval :=
  match api (movie_path imdbId) with Body j => Some j | _ => None end.

(** ** Theorems *)

Section Theorems.
Variable api : string -> reply.
Variable name : string.

(** [listFilmByActor] parses every upstream body inside a [try]:
  whatever the upstream answers, the request is answered and the
  process survives. *)
Theorem listFilmByActor_no_crash tr : fst (listFilmByActor api name tr) <> Crashed.
Proof. revert tr. change (no_crash (listFilmByActor api name)). unfold listFilmByActor, fetch_films. solve_no_crash. Qed.

(** C18: the filmography loop skips the titles whose lookup fails and keeps
  the others in listing order; every listed title is requested, in
  order, after the name and the listing. *)
Theorem listFilmByActor_skip cands id listing xs ids tr :
  Forall Resolver.Spec.candidate_ok cands ->
  Resolver.Spec.resolve cands = Some id ->
  api (actor_name_path name) = Body (Resolver.Spec.payload cands) ->
  api (films_by_actor_path (JStr id)) = Body listing ->
  results_array listing = Val (Some xs) ->
  first_ids xs = Val ids ->
  listFilmByActor api name tr =
    (Val (mk_response 200 (JObj [("resultat", JObj [("film", JArr (omap (film_of api) ids));
                                                    ("idActor", JStr id)])])),
     tr ++ [actor_name_path name; films_by_actor_path (JStr id)] ++ map movie_path ids).
Proof.
  intros Hok Hid Hname Hlist Hxs Hids.
  destruct (first_result_id_payload cands Hok) as (v & Hv & Hres).
  rewrite Hid in Hres. simpl in Hres.
  destruct (truthy v) eqn:Ht; [injection Hres as ->|done].
  unfold listFilmByActor, fetch_films, catch, bind. rewrite fetch_guarded_run, Hname.
  assert (Hne : String.eqb id "" = false) by (simpl in Ht; by apply negb_true_iff in Ht).
  run_st. rewrite Hv. simpl. rewrite Hne. simpl.
  rewrite fetch_guarded_run, Hlist. simpl. rewrite Hxs, Hids. simpl.
  rewrite (mapM_skip_trace _ (fun i => [movie_path i]) (film_of api)).
  - simpl. rewrite <- !app_assoc. f_equal. f_equal. by rewrite concat_map_singleton.
  - intros i tr' _. unfold getMovieById, film_of. rewrite fetch_guarded_run.
    destruct (api (movie_path i)); eauto.
Qed.

(** [listSerieByActor] parses the series records outside any [try]:
  a single record whose body is not JSON takes the process down,
  instead of being skipped like a rejected lookup. *)
Theorem listSerieByActor_malformed_record cands id listing xs pre i post tr :
  Forall Resolver.Spec.candidate_ok cands ->
  Resolver.Spec.resolve cands = Some id ->
  api (actor_name_path name) = Body (Resolver.Spec.payload cands) ->
  api (series_by_actor_path (JStr id)) = Body listing ->
  results_array listing = Val (Some xs) ->
  first_ids xs = Val (pre ++ i :: post) ->
  Forall (fun j => api (series_path j) <> Malformed) pre ->
  api (series_path i) = Malformed ->
  fst (listSerieByActor api name tr) = Crashed.
Proof.
  intros Hok Hid Hname Hlist Hxs Hids Hpre Hi.
  destruct (first_result_id_payload cands Hok) as (v & Hv & Hres).
  rewrite Hid in Hres. simpl in Hres.
  destruct (truthy v) eqn:Ht; [injection Hres as ->|done].
  unfold listSerieByActor, catch, bind. rewrite fetch_unguarded_run, Hname.
  assert (Hne : String.eqb id "" = false) by (simpl in Ht; by apply negb_true_iff in Ht).
  run_st. rewrite Hv. simpl. rewrite Hne. simpl.
  rewrite fetch_unguarded_run, Hlist. simpl. rewrite Hxs, Hids. simpl.
  rewrite (mapM_skip_trace_crash _ (fun j => [series_path j])); [done| |].
  - intros j tr' Hj. assert (api (series_path j) <> Malformed) as Hm.
    { rewrite Forall_forall in Hpre. apply Hpre. by apply list_elem_of_In. }
    unfold getSerieById. rewrite fetch_unguarded_run.
    destruct (api (series_path j)); [eauto|done|eauto].
  - intros tr'. unfold getSerieById. by rewrite fetch_unguarded_run, Hi.
Qed.

(** a name that resolves to no candidate is answered 404
  ["Acteur non trouvé."], after the name lookup alone. *)
Theorem actorDetail_not_found cands tr :
  Forall Resolver.Spec.candidate_ok cands ->
  Resolver.Spec.resolve cands = None ->
  api (actor_name_path name) = Body (Resolver.Spec.payload cands) ->
  actorDetail api name tr = (Val actor_not_found, tr ++ [actor_name_path name]).
Proof.
  intros Hok Hnone Hname.
  destruct (first_result_id_payload cands Hok) as (v & Hv & Hres).
  rewrite Hnone in Hres. simpl in Hres.
  unfold actorDetail, catch, bind. rewrite fetch_guarded_run, Hname.
  run_st. rewrite Hv. simpl.
  by destruct (truthy v).
Qed.
End Theorems.

(** ** Witnesses on a concrete upstream *)

Definition listing_of (ids : list string) : jsval :=
  JObj [("results", JArr (map (fun i => JArr [JObj [("imdb_id", JStr i)]]) ids))].

Definition actor_api (p : string) : reply :=
  if String.eqb p (actor_name_path "neve") then
    Body (Resolver.Spec.payload [[("imdb_id", JStr "nm1")]])
  else if String.eqb p (actor_name_path "nobody") then Body (Resolver.Spec.payload [])
  else if String.eqb p (films_by_actor_path (JStr "nm1")) then Body (listing_of ["tt1"; "tt2"; "tt3"])
  else if String.eqb p (series_by_actor_path (JStr "nm1")) then Body (listing_of ["ts1"; "ts2"; "ts3"])
  else if String.eqb p (movie_path (JStr "tt1")) then Body (JStr "film one")
  else if String.eqb p (movie_path (JStr "tt3")) then Malformed
  else if String.eqb p (series_path (JStr "ts1")) then Body (JStr "serie one")
  else if String.eqb p (series_path (JStr "ts2")) then Malformed
  else NetError.

Lemma listFilmByActor_no_crash_witness : fst (listFilmByActor actor_api "neve" []) <> Crashed.
Proof. apply listFilmByActor_no_crash. Defined.

Lemma listFilmByActor_skip_witness :
  listFilmByActor actor_api "neve" [] =
    (Val (mk_response 200 (JObj [("resultat", JObj [("film", JArr [JStr "film one"]);
                                                    ("idActor", JStr "nm1")])])),
     [actor_name_path "neve"; films_by_actor_path (JStr "nm1");
      movie_path (JStr "tt1"); movie_path (JStr "tt2"); movie_path (JStr "tt3")]).
Proof.
  apply (listFilmByActor_skip actor_api "neve" [[("imdb_id", JStr "nm1")]] "nm1"
           (listing_of ["tt1"; "tt2"; "tt3"])
           (map (fun i => JArr [JObj [("imdb_id", JStr i)]]) ["tt1"; "tt2"; "tt3"])
           [JStr "tt1"; JStr "tt2"; JStr "tt3"] []);
    try reflexivity.
  repeat constructor. intros v [= <-]. eauto.
Defined.

Lemma listSerieByActor_malformed_record_witness :
  fst (listSerieByActor actor_api "neve" []) = Crashed.
Proof.
  apply (listSerieByActor_malformed_record actor_api "neve" [[("imdb_id", JStr "nm1")]] "nm1"
           (listing_of ["ts1"; "ts2"; "ts3"])
           (map (fun i => JArr [JObj [("imdb_id", JStr i)]]) ["ts1"; "ts2"; "ts3"])
           [JStr "ts1"] (JStr "ts2") [JStr "ts3"] []); try reflexivity.
  - repeat constructor. intros v [= <-]. eauto.
  - repeat constructor. vm_compute. discriminate.
Defined.

Lemma actorDetail_not_found_witness :
  actorDetail actor_api "nobody" [] = (Val actor_not_found, [actor_name_path "nobody"]).
Proof. apply (actorDetail_not_found actor_api "nobody" []); [constructor|reflexivity..]. Defined.
