(* ===== verification/Services.v ===== *)
(** The libraries the account routes of [routes/users.js] call, as
    interfaces: what each promises to the handlers, stated as the laws the
    handler proofs use.  The handlers are proved against the classes;
    [Demo] gives one instance of each so that witnesses can run.

    - [PasswordHasher]: [bcrypt.hash(p, 10)] and [bcrypt.compare(p, h)];
      the salt is not modelled (the code never compares two hashes), and
      no injectivity is assumed ([bcrypt] reads only the first 72 bytes of
      a password).
    - [EmailValidator]: [validator.isEmail] on strings; it rejects [""].
    - [TokenSigner]: [jwt.sign({ id, username }, secret, options)].
    - [Collation]: the equality MySQL uses in [WHERE col = ?] between a
      stored value and a parameter (case- and trailing-space-insensitive
      under the default collation); it is assumed symmetric, reflexive on
      strings and numbers, and false whenever one side is [NULL]. *)

From S2P Require Import Prelude JsValue.

Class PasswordHasher : Type := {
  hash : string -> string;
  compare : string -> string -> bool;
  compare_hash : forall p, compare p (hash p) = true
}.

(** [isEmail] rejects the empty string (it needs a local part, an ['@']
    and a domain). *)
Class EmailValidator : Type := {
  isEmail : string -> bool;
  isEmail_empty : isEmail "" = false
}.

Lemma isEmail_length `{EmailValidator} e : isEmail e = true -> (1 <= String.length e)%nat.
Proof. destruct e; simpl; [by rewrite isEmail_empty|lia]. Qed.

Class TokenSigner : Type := { sign : Z -> jsval -> string }.

Class Collation : Type := {
  sql_eq : jsval -> jsval -> bool;
  sql_eq_sym : forall a b, sql_eq a b = sql_eq b a;
  sql_eq_str_refl : forall s, sql_eq (JStr s) (JStr s) = true;
  sql_eq_num_refl : forall z, sql_eq (JNum z) (JNum z) = true;
  sql_eq_null : forall v, sql_eq JNull v = false
}.

(** The variation selectors [U+FE0E] and [U+FE0F]. *)
Definition is_variation_selector (ch : string) : bool :=
  String.eqb ch (bytes [239; 184; 142]) || String.eqb ch (bytes [239; 184; 143]).

(** The length [validator.isLength] compares: [str.length] less the
    surrogate pairs and the variation selectors, that is the code points
    other than [U+FE0E] and [U+FE0F]. *)
Definition isLength_count (s : string) : nat :=
  List.length (List.filter (fun ch => negb (is_variation_selector ch)) (utf8_chars s)).

Arguments isLength_count : simpl never.

Lemma isLength_count_nonempty s : (1 <= isLength_count s)%nat -> (1 <= String.length s)%nat.
Proof. destruct s; simpl; [done|lia]. Qed.

(** [validator.isLength(v, { min })]: validator's [assertString] throws a
    [TypeError] on anything but a string. *)
Definition isLength_min (v : jsval) (min : nat) : outcome bool :=
  match v with
  | JStr s => Val (min <=? isLength_count s)%nat
  | _ => Exc TypeError
  end.

Lemma isLength_min_no_crash v k : no_crash_o (isLength_min v k).
Proof. by destruct v. Qed.

Lemma isLength_min_long s k : (k <= isLength_count s)%nat -> isLength_min (JStr s) k = Val true.
Proof. intros. simpl. by rewrite (proj2 (Nat.leb_le _ _)). Qed.

Lemma isLength_min_short s k : (isLength_count s < k)%nat -> isLength_min (JStr s) k = Val false.
Proof. intros. simpl. by rewrite (proj2 (Nat.leb_gt _ _)). Qed.

(** [validator.isEmail(v)], with the same [assertString]. *)
Definition is_email_js `{EmailValidator} (v : jsval) : outcome bool :=
  match v with
  | JStr s => Val (isEmail s)
  | _ => Exc TypeError
  end.

Lemma is_email_js_no_crash `{EmailValidator} v : no_crash_o (is_email_js v).
Proof. by destruct v. Qed.

#[export] Hint Resolve isLength_min_no_crash is_email_js_no_crash : chills.

Module Demo.
Definition demo_hash (p : string) : string := "$2b$10$" +:+ p.

#[export] Instance hasher : PasswordHasher.
Proof.
  refine {| hash := demo_hash; compare := fun p h => String.eqb h (demo_hash p) |}.
  intros p. apply String.eqb_refl.
Defined.

(** An address has an ['@'] that is neither first nor last. *)
Definition demo_is_email (s : string) : bool :=
  match String.index 0 "@" s with
  | Some i => (0 <? i)%nat && (S i <? String.length s)%nat
  | None => false
  end.

#[export] Instance validator : EmailValidator := {| isEmail := demo_is_email; isEmail_empty := eq_refl |}.

#[export] Instance signer : TokenSigner := {| sign := fun id _ => "token-" +:+ z_to_string id |}.

Definition demo_sql_eq (a b : jsval) : bool :=
  match a, b with
  | JStr x, JStr y => String.eqb x y
  | JNum x, JNum y => Z.eqb x y
  | _, _ => false
  end.

#[export] Instance collation : Collation.
Proof.
  refine {| sql_eq := demo_sql_eq |}.
  - intros [] []; simpl; auto using String.eqb_sym, Z.eqb_sym.
  - intros s. apply String.eqb_refl.
  - intros z. apply Z.eqb_refl.
  - done.
Defined.
End Demo.
