(* ===== verification/Accounts.v ===== *)
(** The account routes of [routes/users.js] over a model of the [users]
    table: [POST /register], [GET /profile/:id], [PUT /profile/:id],
    [PUT /profile/mdp/:id], [DELETE /profile/supprimerCompte/:id].

    The table is a list of rows in insertion order with the next
    [AUTO_INCREMENT] value; each SQL statement of the file is a definition
    ([select_by_email], [insert_user], [update_profile], ...).  A handler
    takes the environment's answers ([db_up]: whether [connectToDb()]
    returned a connection; [now]: the clock of [NOW()]) and the request,
    and runs in [St users_db].  [wf] is the table invariant (identifiers
    below the counter and distinct, e-mail addresses and user names
    distinct under the collation); the theorems show which handlers keep
    it and where validation differs between [register] and the update.

    The checks measure as JavaScript does: [username.length < 3] counts
    UTF-16 code units ([utf16_length]), [validator.isLength] counts code
    points without variation selectors ([isLength_count]), and the
    policy's [/[^\w\s]/] treats every Unicode space of [\s] as a space
    ([is_special_char]). *)

From S2P Require Import Prelude JsValue Http Services.

Record user_row : Type := mk_user {
  uid : Z;
  username : jsval;
  prenom : jsval;
  nom : jsval;
  age : jsval;
  email : jsval;
  mdp : string;
  edited_at : option Z
}.

Record users_db : Type := mk_db { rows : list user_row; next_uid : Z }.

(** The columns of [users] named by the statements of [routes/users.js]. *)
Definition users_columns : list string :=
  ["id"; "username"; "prenom"; "nom"; "age"; "email"; "mdp"; "edited_at"].

(** How mysql2 reports a column the table does not have. *)
Definition unknown_column (col : string) : exn :=
  SqlError "ER_BAD_FIELD_ERROR" 1054 "42S22" ("Unknown column '" +:+ col +:+ "' in 'where clause'").

(** [res.send(err)]: [JSON.stringify] keeps an error's own enumerable
    properties; a [TypeError] has none, a mysql2 error its SQL fields. *)
Definition error_json (e : exn) : jsval :=
  match e with
  | SqlError code errno st m =>
      JObj [("code", JStr code); ("errno", JNum errno); ("sqlState", JStr st); ("sqlMessage", JStr m)]
  | _ => JObj []
  end.

(** [err.message]: a mysql2 error's message is its [sqlMessage]; the text
    of a [TypeError] depends on the failing access and is not modelled. *)
Definition err_message (e : exn) : jsval :=
  match e with
  | SqlError _ _ _ m => JStr m
  | Error m => JStr m
  | TypeError => JStr "TypeError"
  end.

(** ** The password policy: [/[A-Z]/], [/[a-z]/], [/\d/], [/[^\w\s]/] *)

Fixpoint any_char (p : ascii -> bool) (s : string) : bool :=
  match s with
  | EmptyString => false
  | String c s' => p c || any_char p s'
  end.

Definition in_range (lo hi : nat) (c : ascii) : bool :=
  let n := nat_of_ascii c in ((lo <=? n) && (n <=? hi))%nat.

Definition is_word_char (c : ascii) : bool :=
  in_range 65 90 c || in_range 97 122 c || in_range 48 57 c || (nat_of_ascii c =? 95)%nat.

(** The white space of [\s] beyond ASCII, in UTF-8: [U+00A0], [U+1680],
    [U+2000]-[U+200A], [U+2028], [U+2029], [U+202F], [U+205F], [U+3000]
    and [U+FEFF]. *)
Definition unicode_spaces : list string :=
  [bytes [194; 160]; bytes [225; 154; 128]] ++
  map (fun k => bytes [226; 128; k]) (seq 128 11) ++
  [bytes [226; 128; 168]; bytes [226; 128; 169]; bytes [226; 128; 175]; bytes [226; 129; 159];
   bytes [227; 128; 128]; bytes [239; 187; 191]].

(** [[^\w\s]] on one code point: [\w] is ASCII, [\s] is Unicode. *)
Definition is_special_char (ch : string) : bool :=
  match ch with
  | String c EmptyString => negb (is_word_char c || is_js_space c)
  | _ => negb (existsb (String.eqb ch) unicode_spaces)
  end.

Definition password_policy (s : string) : bool :=
  any_char (in_range 65 90) s && any_char (in_range 97 122) s && any_char (in_range 48 57) s &&
  existsb is_special_char (utf8_chars s).

Definition policy_msg : string :=
  "Le mot de passe doit contenir au moins une majuscule, une minuscule, un chiffre et un caractère spécial.".

Definition length_msg : string := "Le mot de passe doit contenir au moins 12 caractères.".

(** [parseInt(req.params.id)] followed by [isNaN(userId) || userId <= 0]. *)
Definition valid_user_id (param : string) : option Z :=
  match parse_int param with
  | Some n => if (0 <? n)%Z then Some n else None
  | None => None
  end.

Definition invalid_id : response := mk_response 400 (msg "L'ID utilisateur fourni est invalide.").

(** [rows.length > 0] *)
Definition nonempty {A} (l : list A) : bool := match l with [] => false | _ => true end.

(** ** SQL statements *)

Section Sql.
Context `{Collation}.

(** [SELECT * FROM users WHERE email = ?] *)
Definition select_by_email (v : jsval) (db : users_db) : list user_row :=
  List.filter (fun r => sql_eq (email r) v) (rows db).

(** [SELECT * FROM users WHERE username = ?] *)
Definition select_by_username (v : jsval) (db : users_db) : list user_row :=
  List.filter (fun r => sql_eq (username r) v) (rows db).

(** [SELECT ... FROM users WHERE id = ?] *)
Definition select_by_id (n : Z) (db : users_db) : list user_row :=
  List.filter (fun r => Z.eqb (uid r) n) (rows db).

(** [SELECT * FROM users WHERE email = ? AND id != ?] *)
Definition select_email_other (v : jsval) (n : Z) (db : users_db) : list user_row :=
  List.filter (fun r => sql_eq (email r) v && negb (Z.eqb (uid r) n)) (rows db).

(** [SELECT * FROM users WHERE username = ? AND id != ?] *)
Definition select_username_other (v : jsval) (n : Z) (db : users_db) : list user_row :=
  List.filter (fun r => sql_eq (username r) v && negb (Z.eqb (uid r) n)) (rows db).
End Sql.

(** [INSERT INTO users (username, prenom, nom, age, email, mdp) VALUES (...)] *)
Definition insert_user (u p n a e : jsval) (h : string) (db : users_db) : users_db :=
  mk_db (rows db ++ [mk_user (next_uid db) u p n a e h None]) (next_uid db + 1).

(** [UPDATE users SET username = ?, email = ? WHERE id = ?] *)
Definition update_profile (n : Z) (u e : jsval) (db : users_db) : users_db :=
  mk_db (map (fun r => if Z.eqb (uid r) n
                       then mk_user (uid r) u (prenom r) (nom r) (age r) e (mdp r) (edited_at r)
                       else r) (rows db))
        (next_uid db).

(** [UPDATE users SET mdp = ?, edited_at = NOW() WHERE id = ?] *)
Definition update_password (n : Z) (h : string) (now : Z) (db : users_db) : users_db :=
  mk_db (map (fun r => if Z.eqb (uid r) n
                       then mk_user (uid r) (username r) (prenom r) (nom r) (age r) (email r) h (Some now)
                       else r) (rows db))
        (next_uid db).

(** [DELETE FROM users WHERE <col> = ?]: by identifier when [col] is
    [id]; a column outside the table is an error of the server. *)
Definition delete_where (col : string) (n : Z) (db : users_db) : outcome users_db :=
  if String.eqb col "id" then Val (mk_db (List.filter (fun r => negb (Z.eqb (uid r) n)) (rows db)) (next_uid db))
  else if existsb (String.eqb col) users_columns then Val db
  else Exc (unknown_column col).

(** ** Handlers *)

Definition db_error : response := mk_response 500 (msg "Erreur de connexion à la base de données").

Definition required_fields : list string := ["username"; "nom"; "prenom"; "age"; "email"; "mdp"].

(** [for (const champ of champsRequis) if (!req.body[champ]) return ...] *)
Fixpoint first_missing (b : jsval) (fs : list string) : outcome (option string) :=
  match fs with
  | [] => Val None
  | f :: fs' => let? v := get_prop b f in if truthy v then first_missing b fs' else Val (Some f)
  end.

Lemma first_missing_no_crash b fs : no_crash_o (first_missing b fs).
Proof. induction fs; simpl; auto with chills. apply no_crash_o_obind; [auto with chills|]. intros; by case_match. Qed.

#[export] Hint Resolve first_missing_no_crash : chills.

Section Handlers.
Context `{PasswordHasher} `{EmailValidator} `{Collation}.

(** [router.post('/register', ...)] *)
Definition register (db_up : bool) (b : jsval) : St users_db response :=
  catch
    (if negb db_up then ret db_error else
     let* u := lift (get_prop b "username") in
     let* n := lift (get_prop b "nom") in
     let* p := lift (get_prop b "prenom") in
     let* a := lift (get_prop b "age") in
     let* e := lift (get_prop b "email") in
     let* m := lift (get_prop b "mdp") in
     let* missing := lift (first_missing b required_fields) in
     match missing with
     | Some f => ret (mk_response 400 (msg ("Le champ " +:+ f +:+ " est manquant")))
     | None =>
       let* ulen := lift (get_prop u "length") in
       if js_lt ulen 3 then
         ret (mk_response 400 (msg "La longueur du username doit être égale ou supérieure à 3"))
       else
       let* email_ok := lift (is_email_js e) in
       if negb email_ok then ret (mk_response 400 (msg "Le format de l'email est invalide")) else
       let* same_email := query (select_by_email e) in
       if nonempty same_email then
         ret (mk_response 400 (msg "Cet email est déjà utilisé."))
       else
       let* same_name := query (select_by_username u) in
       if nonempty same_name then
         ret (mk_response 400 (msg "Ce username est déjà utilisé."))
       else
       let* long_enough := lift (isLength_min m 12) in
       if negb long_enough then ret (mk_response 400 (msg length_msg)) else
       if negb (password_policy (js_to_string m)) then ret (mk_response 400 (msg policy_msg)) else
       let* _ := exec (insert_user u p n a e (hash (js_to_string m))) in
       ret (mk_response 201 (msg "Utilisateur créé"))
     end)
    (fun err => ret (mk_response 500 (error_json err))).

(** [router.get('/profile/:id', ...)]: the row without [id] and [mdp]. *)
Definition profile (db_up : bool) (param : string) : St users_db response :=
  catch
    (if negb db_up then ret (mk_response 500 (msg "Erreur à la base de données")) else
     match valid_user_id param with
     | None => ret invalid_id
     | Some n =>
         let* found := query (select_by_id n) in
         match found with
         | [] => ret (mk_response 404 (msg "Utilisateur non trouvé !"))
         | r :: _ =>
             ret (mk_response 200 (JObj [("username", username r); ("prenom", prenom r);
                                         ("nom", nom r); ("age", age r); ("email", email r)]))
         end
     end)
    (fun err => ret (mk_response 500 (error_json err))).

(** [router.put('/profile/:id', ...)] *)
Definition update_profile_route (db_up : bool) (param : string) (b : jsval) : St users_db response :=
  catch
    (if negb db_up then ret db_error else
     match valid_user_id param with
     | None => ret invalid_id
     | Some n =>
         let* u := lift (get_prop b "username") in
         let* e := lift (get_prop b "email") in
         if negb (truthy u && truthy e) then
           ret (mk_response 400 (msg "Le nom d'utilisateur ou l'email est manquant."))
         else
         let* same_email := query (select_email_other e n) in
         if nonempty same_email then
           ret (mk_response 400 (msg "Cet email est déjà utilisé."))
         else
         let* same_name := query (select_username_other u n) in
         if nonempty same_name then
           ret (mk_response 400 (msg "Ce nom d'utilisateur est déjà utilisé."))
         else
         let* _ := exec (update_profile n u e) in
         ret (mk_response 200 (msg "Profil mis à jour avec succès !"))
     end)
    (fun err => ret (mk_response 500 (JObj [("message", JStr "Erreur lors de la mise à jour du profil.");
                                            ("error", err_message err)]))).

(** [bcrypt.compare(p, h)] throws unless both are strings. *)
Definition compare_js (p : jsval) (h : string) : outcome bool :=
  match p with JStr s => Val (compare s h) | _ => Exc (Error "data and hash must be strings") end.

(** [router.put('/profile/mdp/:id', ...)] *)
Definition change_password (db_up : bool) (now : Z) (param : string) (b : jsval) : St users_db response :=
  catch
    (if negb db_up then ret (mk_response 500 (msg "Erreur à la base de données")) else
     match valid_user_id param with
     | None => ret invalid_id
     | Some n =>
         let* old := lift (get_prop b "oldmdp") in
         let* new := lift (get_prop b "newmdp") in
         if negb (truthy old && truthy new) then
           ret (mk_response 400 (msg "L'ancien ou le nouveau mot de passe est manquant."))
         else
         let* found := query (select_by_id n) in
         match found with
         | [] => ret (mk_response 404 (msg "Utilisateur non trouvé !"))
         | r :: _ =>
             let* ok := lift (compare_js old (mdp r)) in
             if negb ok then ret (mk_response 400 (msg "Ancien mot de passe incorrect !")) else
             let* long_enough := lift (isLength_min new 12) in
             if negb long_enough then ret (mk_response 400 (msg length_msg)) else
             if negb (password_policy (js_to_string new)) then ret (mk_response 400 (msg policy_msg)) else
             let* _ := exec (update_password n (hash (js_to_string new)) now) in
             ret (mk_response 200 (msg "Mot de passe mis à jour avec succès"))
         end
     end)
    (fun err => ret (mk_response 500 (JObj [("message", JStr "Erreur serveur"); ("error", error_json err)]))).

(** [router.delete('/profile/supprimerCompte/:id', ...)] *)
Definition delete_account (db_up : bool) (param : string) : St users_db response :=
  catch
    (if negb db_up then ret (mk_response 500 (msg "Erreur à la base de données")) else
     match valid_user_id param with
     | None => ret invalid_id
     | Some n =>
         let* _ := exec_o (delete_where "id_user" n) in
         ret (mk_response 200 (msg "Compte supprimé avec succès"))
     end)
    (fun err => ret (mk_response 500 (JObj [("message", JStr "Erreur serveur"); ("error", error_json err)]))).

(** [router.get('/test', ...)]: a connection probe. *)
Definition get_test (db_up : bool) : St users_db response :=
  catch
    (if negb db_up then ret (mk_response 500 (msg "Erreur à la base de données")) else
     ret (mk_response 200 (msg "a")))
    (fun err => ret (mk_response 500 (JObj [("message", JStr "Erreur"); ("error", error_json err)]))).
End Handlers.

Lemma compare_js_no_crash `{PasswordHasher} p h : no_crash_o (compare_js p h).
Proof. by destruct p. Qed.

#[export] Hint Resolve compare_js_no_crash : chills.

(** ** The table invariant *)

Section Invariant.
Context `{PasswordHasher} `{EmailValidator} `{Collation}.

(** Two rows never agree on [f] under the collation. *)
Definition distinct_on (f : user_row -> jsval) (rs : list user_row) : Prop :=
  ForallOrdPairs (fun r1 r2 => sql_eq (f r1) (f r2) = false) rs.

Record wf (db : users_db) : Prop := {
wf_ids : NoDup (map uid (rows db));
wf_next : Forall (fun r => (uid r < next_uid db)%Z) (rows db);
wf_email : distinct_on email (rows db);
wf_username : distinct_on username (rows db)
}.

Lemma insert_user_wf u p n a e h db :
  wf db -> select_by_email e db = [] -> select_by_username u db = [] ->
  wf (insert_user u p n a e h db).
Proof.
  intros [Hids Hnext Hem Hun] He Hu.
  unfold select_by_email, select_by_username in *. rewrite filter_nil_iff in He, Hu.
  unfold insert_user. split; simpl.
  - rewrite map_app. simpl. apply NoDup_app. split_and!; [done| |apply NoDup_singleton].
    intros x Hx ->%list_elem_of_singleton.
    apply list_elem_of_In, in_map_iff in Hx as (r & Hr & Hin).
    rewrite Forall_forall in Hnext. specialize (Hnext r (proj2 (list_elem_of_In _ _) Hin)). lia.
  - apply Forall_app. split; [|constructor; simpl; [lia|done]].
    eapply Forall_impl; [exact Hnext|]. simpl. intros. lia.
  - apply ForallOrdPairs_snoc; [done|]. apply Forall_forall. intros r Hr%list_elem_of_In. by apply He.
  - apply ForallOrdPairs_snoc; [done|]. apply Forall_forall. intros r Hr%list_elem_of_In. by apply Hu.
Qed.

(** Updating in place the one row whose identifier is [n]: pairs of
  untouched rows keep their relation; the new row must differ from the
  others, in both directions (hence the symmetry of the collation). *)
Lemma distinct_on_update (f : user_row -> jsval) (g : user_row -> user_row) n rs :
  NoDup (map uid rs) -> distinct_on f rs ->
  (forall r, uid (g r) = uid r) ->
  (forall r r0, In r rs -> In r0 rs -> uid r <> n -> uid r0 = n -> sql_eq (f r) (f (g r0)) = false) ->
  distinct_on f (map (fun r => if Z.eqb (uid r) n then g r else r) rs).
Proof.
  intros Hnd Hd Hg Hnew. induction Hd as [|r rs Hr Hrs IH]; simpl; [constructor|].
  simpl in Hnd. apply NoDup_cons in Hnd as [Hnotin Hnd].
  constructor.
  - apply Forall_forall. intros r' Hr'%list_elem_of_In.
    apply in_map_iff in Hr' as (r1 & <- & Hin).
    rewrite Forall_forall in Hr. specialize (Hr r1 (proj2 (list_elem_of_In _ _) Hin)).
    destruct (Z.eqb_spec (uid r) n) as [Hn|Hn], (Z.eqb_spec (uid r1) n) as [Hn1|Hn1].
    + exfalso. apply Hnotin. apply list_elem_of_In, in_map_iff. exists r1. split; [congruence|done].
    + rewrite sql_eq_sym. apply Hnew; simpl; auto.
    + apply Hnew; simpl; auto.
    + done.
  - apply IH; [done|]. intros r1 r0 Hr1 Hr0. apply Hnew; simpl; auto.
Qed.

Lemma update_profile_wf n u e db :
  wf db -> select_email_other e n db = [] -> select_username_other u n db = [] ->
  wf (update_profile n u e db).
Proof.
  intros [Hids Hnext Hem Hun] He Hu.
  unfold select_email_other, select_username_other in *. rewrite filter_nil_iff in He, Hu.
  unfold update_profile. split; simpl.
  - rewrite map_map. erewrite map_ext; [done|]. intros r. simpl. by case_match.
  - apply Forall_forall. intros r' Hr'%list_elem_of_In. apply in_map_iff in Hr' as (r & <- & Hin).
    rewrite Forall_forall in Hnext. specialize (Hnext r (proj2 (list_elem_of_In _ _) Hin)).
    by case_match.
  - apply distinct_on_update; [done|done|done|]. intros r r0 Hin _ Hn _. simpl.
    specialize (He r Hin). apply andb_false_iff in He as [He|He]; [done|].
    apply negb_false_iff, Z.eqb_eq in He. congruence.
  - apply distinct_on_update; [done|done|done|]. intros r r0 Hin _ Hn _. simpl.
    specialize (Hu r Hin). apply andb_false_iff in Hu as [Hu|Hu]; [done|].
    apply negb_false_iff, Z.eqb_eq in Hu. congruence.
Qed.

(** A map that leaves [f] alone keeps rows distinct on [f]. *)
Lemma distinct_on_map_same (f : user_row -> jsval) g rs :
  (forall r, f (g r) = f r) -> distinct_on f rs -> distinct_on f (map g rs).
Proof.
  intros Hg Hd. induction Hd as [|r rs Hr Hrs IH]; simpl; constructor; [|done].
  apply Forall_map. eapply Forall_impl; [exact Hr|]. intros r'. by rewrite !Hg.
Qed.

(** A map that keeps identifiers, e-mails and user names keeps [wf]. *)
Lemma wf_map_same (g : user_row -> user_row) db :
  (forall r, uid (g r) = uid r /\ email (g r) = email r /\ username (g r) = username r) ->
  wf db -> wf (mk_db (map g (rows db)) (next_uid db)).
Proof.
  intros Hg [Hids Hnext Hem Hun]. split; simpl.
  - rewrite map_map. erewrite map_ext; [done|]. intros r. apply Hg.
  - apply Forall_map. eapply Forall_impl; [exact Hnext|]. intros r. by rewrite (proj1 (Hg r)).
  - apply distinct_on_map_same; [intros r; apply Hg|done].
  - apply distinct_on_map_same; [intros r; apply Hg|done].
Qed.

Lemma update_password_wf n h now db : wf db -> wf (update_password n h now db).
Proof. apply wf_map_same. intros r. simpl. by case_match. Qed.

(** Deleting rows keeps [wf]: every property is on pairs or on single rows. *)
Lemma delete_where_wf col n db db' : wf db -> delete_where col n db = Val db' -> wf db'.
Proof.
  unfold delete_where. intros [Hids Hnext Hem Hun] Hd.
  repeat case_match; simplify_eq; [|split; done].
  split; simpl; [by apply NoDup_map_filter|by apply Forall_filter_bool|by apply ForallOrdPairs_filter..].
Qed.

(** ** What each handler does to the table *)

Lemma nonempty_false {A} (l : list A) : nonempty l = false -> l = [].
Proof. by destruct l. Qed.

Ltac run_handler := run_st; unfold query, exec, exec_o in *; simpl in *; case_run.

(** [register] inserts one row, with an e-mail and a user name no row has,
  or leaves the table alone. *)
Lemma register_effect db_up b db :
  snd (register db_up b db) = db \/
  exists u p n a e h, snd (register db_up b db) = insert_user u p n a e h db /\
                      select_by_email e db = [] /\ select_by_username u db = [].
Proof.
  unfold register. run_handler.
  right. do 6 eexists. split_and!; [reflexivity|by apply nonempty_false..].
Qed.

(** [update_profile_route] changes the row of one identifier to an e-mail
  and a user name no other row has, or leaves the table alone. *)
Lemma update_profile_route_effect db_up param b db :
  snd (update_profile_route db_up param b db) = db \/
  exists n u e, snd (update_profile_route db_up param b db) = update_profile n u e db /\
                select_email_other e n db = [] /\ select_username_other u n db = [].
Proof.
  unfold update_profile_route. run_handler.
  right. do 3 eexists. split_and!; [reflexivity|by apply nonempty_false..].
Qed.

Lemma change_password_effect db_up now param b db :
  snd (change_password db_up now param b db) = db \/
  exists n h, snd (change_password db_up now param b db) = update_password n h now db.
Proof. unfold change_password. run_handler. right. by do 2 eexists. Qed.

Lemma delete_account_effect db_up param db :
  snd (delete_account db_up param db) = db.
Proof. unfold delete_account. run_handler. Qed.
Lemma profile_effect db_up param db : snd (profile db_up param db) = db.
Proof. unfold profile. run_handler. Qed.

(** One request to one of the account routes, with whatever body, route
  parameter, connection state and clock. *)
Inductive step : users_db -> users_db -> Prop :=
| step_register db_up b db : step db (snd (register db_up b db))
| step_profile db_up param db : step db (snd (profile db_up param db))
| step_update db_up param b db : step db (snd (update_profile_route db_up param b db))
| step_password db_up now param b db : step db (snd (change_password db_up now param b db))
| step_delete db_up param db : step db (snd (delete_account db_up param db)).

(** A fresh table: no rows, [AUTO_INCREMENT] at 1. *)
Definition empty_db : users_db := mk_db [] 1.

Definition reachable (db : users_db) : Prop := rtc step empty_db db.

Lemma empty_db_wf : wf empty_db.
Proof. split; simpl; constructor. Qed.

Lemma step_wf db db' : step db db' -> wf db -> wf db'.
Proof.
  destruct 1 as [db_up b db|db_up param db|db_up param b db|db_up now param b db|db_up param db]; intros Hwf.
  - destruct (register_effect db_up b db) as [->|(u & p & n & a & e & h & -> & He & Hu)];
      [done|by apply insert_user_wf].
  - by rewrite profile_effect.
  - destruct (update_profile_route_effect db_up param b db) as [->|(n & u & e & -> & He & Hu)];
      [done|by apply update_profile_wf].
  - destruct (change_password_effect db_up now param b db) as [->|(n & h & ->)];
      [done|by apply update_password_wf].
  - by rewrite delete_account_effect.
Qed.

(** C2: in every table the account routes can reach from an empty one,
  whatever the requests, identifiers are distinct and below the
  [AUTO_INCREMENT] counter, and no two rows have e-mail addresses or
  user names equal under the collation. *)
Theorem reachable_wf db : reachable db -> wf db.
Proof.
  apply rtc_invariant; [exact step_wf|exact empty_db_wf].
Qed.
(** ** Registration *)

(** The JSON body [{username, nom, prenom, age, email, mdp}] of a sign-up. *)
Definition register_body (u n p a e m : jsval) : jsval :=
  JObj [("username", u); ("nom", n); ("prenom", p); ("age", a); ("email", e); ("mdp", m)].

Lemma eqb_empty_long s : (1 <= String.length s)%nat -> String.eqb s "" = false.
Proof. destruct s; simpl; [lia|done]. Qed.

(** C12: a valid sign-up with a fresh e-mail and user name is answered 201 and
  appends one row holding the hash of the password. *)
Theorem register_created u n p a e m db :
  (3 <= utf16_length u)%nat -> isEmail e = true -> (12 <= isLength_count m)%nat ->
  password_policy m = true -> truthy n = true -> truthy p = true -> truthy a = true ->
  select_by_email (JStr e) db = [] -> select_by_username (JStr u) db = [] ->
  register true (register_body (JStr u) n p a (JStr e) (JStr m)) db =
    (Val (mk_response 201 (msg "Utilisateur créé")), insert_user (JStr u) p n a (JStr e) (hash m) db).
Proof.
  intros Hu He Hm Hpol Hn Hp Ha Hse Hsu.
  unfold register, register_body. run_st. unfold query, exec.
  pose proof (isEmail_length e He). pose proof (utf16_length_nonempty u ltac:(lia)).
  pose proof (isLength_count_nonempty m ltac:(lia)).
  rewrite !eqb_empty_long by lia. rewrite Hn, Hp, Ha. simpl.
  unfold js_lt. simpl. rewrite (proj2 (Z.ltb_ge _ _)) by lia.
  rewrite He. simpl. rewrite Hse. simpl. rewrite Hsu. simpl.
  destruct (Nat.le_exists_sub 12 (isLength_count m) Hm) as [k [-> _]].
  rewrite Nat.add_comm. simpl.
  by rewrite Hpol.
Qed.
(** a sign-up whose e-mail equals, under the collation, that of a
  stored row is answered 400 ["Cet email est déjà utilisé."] and the
  table is unchanged; the password is not looked at. *)
Theorem register_duplicate_email u n p a e m db :
  (3 <= utf16_length u)%nat -> isEmail e = true ->
  truthy n = true -> truthy p = true -> truthy a = true -> truthy m = true ->
  select_by_email (JStr e) db <> [] ->
  register true (register_body (JStr u) n p a (JStr e) m) db =
    (Val (mk_response 400 (msg "Cet email est déjà utilisé.")), db).
Proof.
  intros Hu He Hn Hp Ha Hm Hse.
  unfold register, register_body. run_st. unfold query.
  pose proof (isEmail_length e He). pose proof (utf16_length_nonempty u ltac:(lia)).
  rewrite !eqb_empty_long by lia. rewrite Hn, Hp, Ha, Hm. simpl.
  unfold js_lt. simpl. rewrite (proj2 (Z.ltb_ge _ _)) by lia.
  rewrite He. simpl. by destruct (select_by_email (JStr e) db).
Qed.

(** ** Profile, update, password, deletion *)

(** C34: the user-name check counts UTF-16 code units: a sign-up with
  every field present whose user name has fewer than three, such as
  ["éé"] (four bytes), is answered 400 with the source's message before
  any query, and the table is unchanged. *)
Theorem register_short_username u n p a e m db :
  u <> "" -> (utf16_length u < 3)%nat ->
  truthy n = true -> truthy p = true -> truthy a = true -> truthy e = true -> truthy m = true ->
  register true (register_body (JStr u) n p a e m) db =
    (Val (mk_response 400 (msg "La longueur du username doit être égale ou supérieure à 3")), db).
Proof.
  intros Hu Hl Hn Hp Ha He Hm. unfold register, register_body. run_st.
  destruct u as [|c u']; [done|]. rewrite Hn, Hp, Ha, He, Hm. simpl.
  unfold js_lt. simpl. by rewrite (proj2 (Z.ltb_lt _ _)) by lia.
Qed.

(** C35: the password length is [validator.isLength]'s count of code
  points: a valid sign-up with a fresh e-mail and user name whose
  password has fewer than twelve, such as ["Aa1ééééé"] (eight code
  points, thirteen bytes), is answered 400 with the length message and
  the table is unchanged. *)
Theorem register_short_password u n p a e m db :
  (3 <= utf16_length u)%nat -> isEmail e = true -> m <> "" -> (isLength_count m < 12)%nat ->
  truthy n = true -> truthy p = true -> truthy a = true ->
  select_by_email (JStr e) db = [] -> select_by_username (JStr u) db = [] ->
  register true (register_body (JStr u) n p a (JStr e) (JStr m)) db =
    (Val (mk_response 400 (msg length_msg)), db).
Proof.
  intros Hu He Hm Hl Hn Hp Ha Hse Hsu.
  unfold register, register_body. run_st. unfold query.
  pose proof (isEmail_length e He). pose proof (utf16_length_nonempty u ltac:(lia)).
  rewrite !eqb_empty_long by lia. destruct m as [|c m']; [done|]. rewrite Hn, Hp, Ha. simpl.
  unfold js_lt. simpl. rewrite (proj2 (Z.ltb_ge _ _)) by lia.
  rewrite He. simpl. rewrite Hse. simpl. rewrite Hsu. simpl.
  remember (isLength_count (String c m')) as k eqn:Ek. clear Ek. do 12 (destruct k as [|k]; [reflexivity|]). lia.
Qed.

(** C13: [DELETE /profile/supprimerCompte/:id] never deletes: for every
  well-formed identifier the statement names the column [id_user], which
  [users] does not have; the request is answered 500 with the SQL error
  and the table is unchanged. *)
Theorem delete_account_unknown_column param n db :
  valid_user_id param = Some n ->
  delete_account true param db =
    (Val (mk_response 500 (JObj [("message", JStr "Erreur serveur");
                                 ("error", error_json (unknown_column "id_user"))])), db).
Proof. intros Hid. unfold delete_account. run_st. by rewrite Hid. Qed.

(** The body [{username, email}] of a profile update. *)
Definition profile_body (u e : jsval) : jsval := JObj [("username", u); ("email", e)].

(** a profile update with a well-formed identifier, both fields
  present and neither taken by another row is answered 200 and writes
  both fields to that row, whatever they are: the update neither checks
  the e-mail's format nor the user name's length. *)
Theorem update_profile_route_ok param n u e db :
  valid_user_id param = Some n -> truthy u = true -> truthy e = true ->
  select_email_other e n db = [] -> select_username_other u n db = [] ->
  update_profile_route true param (profile_body u e) db =
    (Val (mk_response 200 (msg "Profil mis à jour avec succès !")), update_profile n u e db).
Proof.
  intros Hid Hu He Hse Hsu. unfold update_profile_route, profile_body. run_st.
  rewrite Hid, Hu, He. simpl. unfold query, exec. rewrite Hse. simpl. by rewrite Hsu.
Qed.

(** the profile of a stored identifier is the row's public fields;
  the password hash is never sent. *)
Theorem profile_found param n r rs db :
  valid_user_id param = Some n -> select_by_id n db = r :: rs ->
  profile true param db =
    (Val (mk_response 200 (JObj [("username", username r); ("prenom", prenom r); ("nom", nom r);
                                 ("age", age r); ("email", email r)])), db).
Proof. intros Hid Hs. unfold profile. run_st. rewrite Hid. unfold query. by rewrite Hs. Qed.

(** The body [{oldmdp, newmdp}] of a password change. *)
Definition password_body (o w : jsval) : jsval := JObj [("oldmdp", o); ("newmdp", w)].

(** a password change whose old password does not match the stored
  hash is answered 400 and leaves the table unchanged. *)
Theorem change_password_wrong_old now param n r rs o w db :
  valid_user_id param = Some n -> select_by_id n db = r :: rs ->
  (1 <= String.length o)%nat -> truthy w = true -> compare o (mdp r) = false ->
  change_password true now param (password_body (JStr o) w) db =
    (Val (mk_response 400 (msg "Ancien mot de passe incorrect !")), db).
Proof.
  intros Hid Hs Ho Hw Hc. unfold change_password, password_body. run_st.
  rewrite Hid, eqb_empty_long, Hw by lia. simpl. unfold query. rewrite Hs. simpl.
  by rewrite Hc.
Qed.

(** C30: a password change with the right old password and a new one that
  passes the policy is answered 200 and stores the hash of the new
  password with the time of the change; the stored hash verifies the
  new password. *)
Theorem change_password_ok now param n r rs o w db :
  valid_user_id param = Some n -> select_by_id n db = r :: rs ->
  (1 <= String.length o)%nat -> (12 <= isLength_count w)%nat -> password_policy w = true ->
  compare o (mdp r) = true ->
  change_password true now param (password_body (JStr o) (JStr w)) db =
    (Val (mk_response 200 (msg "Mot de passe mis à jour avec succès")),
     update_password n (hash w) now db) /\
  Forall (fun r' => compare w (mdp r') = true) (select_by_id n (update_password n (hash w) now db)).
Proof.
  intros Hid Hs Ho Hw Hpol Hc. pose proof (isLength_count_nonempty w ltac:(lia)). split.
  - unfold change_password, password_body. run_st.
    rewrite Hid, !eqb_empty_long by lia. simpl. unfold query, exec. rewrite Hs. simpl.
    rewrite Hc. simpl. destruct (Nat.le_exists_sub 12 (isLength_count w) Hw) as [k [-> _]].
    rewrite Nat.add_comm. simpl. by rewrite Hpol.
  - apply Forall_forall. intros r' Hr%list_elem_of_In. apply filter_In in Hr as [Hr Hn].
    apply in_map_iff in Hr as (r0 & <- & _).
    destruct (Z.eqb_spec (uid r0) n); simpl in *; [apply compare_hash|].
    apply Z.eqb_eq in Hn. contradiction.
Qed.
(** C16: the profile update does not enforce what registration enforces:
    from any reachable table, an update of an existing row (free e-mail
    and user name) reaches a table where that row holds an e-mail
    [isEmail] rejects and a one-letter user name, both of which [register]
    refuses. *)
Theorem update_profile_skips_validation db param n e r0 :
  reachable db -> In r0 (rows db) -> uid r0 = n -> valid_user_id param = Some n ->
  isEmail e = false -> (1 <= String.length e)%nat ->
  select_email_other (JStr e) n db = [] -> select_username_other (JStr "x") n db = [] ->
  exists db', reachable db' /\
    exists r, In r (rows db') /\ uid r = n /\ email r = JStr e /\ username r = JStr "x".
Proof.
  intros Hr Hin Hn Hid He Hl Hse Hsu. exists (update_profile n (JStr "x") (JStr e) db). split.
  - eapply rtc_r; [exact Hr|].
    replace (update_profile n (JStr "x") (JStr e) db)
      with (snd (update_profile_route true param (profile_body (JStr "x") (JStr e)) db));
      [constructor|].
    rewrite (update_profile_route_ok param n); [done|done|done|simpl|done|done].
    by rewrite eqb_empty_long.
  - eexists. split; [apply in_map_iff; exists r0; split; [reflexivity|exact Hin]|].
    simpl. rewrite Hn, Z.eqb_refl. done.
Qed.
End Invariant.

(** ** Witnesses, with the instances of [Services.Demo] *)

Import Demo.

Definition alice_body : jsval :=
  register_body (JStr "alice") (JStr "Dupont") (JStr "Jean") (JNum 23) (JStr "alice@example.com")
                (JStr "Motdepasse12!").

(** The table after Alice signed up. *)
Definition alice_db : users_db :=
  insert_user (JStr "alice") (JStr "Jean") (JStr "Dupont") (JNum 23) (JStr "alice@example.com")
              (hash "Motdepasse12!") empty_db.

Lemma reachable_wf_witness : wf alice_db.
Proof.
  apply reachable_wf. apply rtc_once.
  replace alice_db with (snd (register true alice_body empty_db)) by reflexivity. constructor.
Defined.

Lemma register_created_witness :
  register true alice_body empty_db = (Val (mk_response 201 (msg "Utilisateur créé")), alice_db).
Proof. apply register_created; vm_compute; first [lia | reflexivity]. Defined.

Lemma register_duplicate_email_witness :
  register true (register_body (JStr "bob") (JStr "Martin") (JStr "Paul") (JNum 30)
                               (JStr "alice@example.com") (JStr "x")) alice_db =
    (Val (mk_response 400 (msg "Cet email est déjà utilisé.")), alice_db).
Proof. apply register_duplicate_email; vm_compute; first [lia | reflexivity | discriminate]. Defined.

Lemma register_short_username_witness :
  register true (register_body (JStr "éé") (JStr "Martin") (JStr "Paul") (JNum 30)
                               (JStr "bob@example.com") (JStr "Motdepasse12!")) alice_db =
    (Val (mk_response 400 (msg "La longueur du username doit être égale ou supérieure à 3")), alice_db).
Proof. apply register_short_username; vm_compute; first [lia | reflexivity | discriminate]. Defined.

Lemma register_short_password_witness :
  register true (register_body (JStr "bob") (JStr "Martin") (JStr "Paul") (JNum 30)
                               (JStr "bob@example.com") (JStr "Aa1ééééé")) alice_db =
    (Val (mk_response 400 (msg length_msg)), alice_db).
Proof. apply register_short_password; vm_compute; first [lia | reflexivity | discriminate]. Defined.

Lemma delete_account_unknown_column_witness :
  delete_account true "1" alice_db =
    (Val (mk_response 500 (JObj [("message", JStr "Erreur serveur");
                                 ("error", error_json (unknown_column "id_user"))])), alice_db).
Proof. apply (delete_account_unknown_column "1" 1). reflexivity. Defined.

Lemma update_profile_route_ok_witness :
  update_profile_route true "1" (profile_body (JStr "x") (JStr "pas-un-email")) alice_db =
    (Val (mk_response 200 (msg "Profil mis à jour avec succès !")),
     update_profile 1 (JStr "x") (JStr "pas-un-email") alice_db).
Proof. apply (update_profile_route_ok "1" 1); reflexivity. Defined.

Lemma profile_found_witness :
  profile true "1" alice_db =
    (Val (mk_response 200 (JObj [("username", JStr "alice"); ("prenom", JStr "Jean");
                                 ("nom", JStr "Dupont"); ("age", JNum 23);
                                 ("email", JStr "alice@example.com")])), alice_db).
Proof. apply (profile_found "1" 1 (hd (mk_user 0 JNull JNull JNull JNull JNull "" None) (rows alice_db)) []); reflexivity. Defined.

Definition alice_row : user_row := hd (mk_user 0 JNull JNull JNull JNull JNull "" None) (rows alice_db).

Lemma change_password_wrong_old_witness :
  change_password true 1700000000 "1" (password_body (JStr "Mauvais12345!") (JStr "Nouveau12345!"))
                  alice_db =
    (Val (mk_response 400 (msg "Ancien mot de passe incorrect !")), alice_db).
Proof. apply (change_password_wrong_old _ _ 1 alice_row []); vm_compute; first [lia | reflexivity]. Defined.

Lemma change_password_ok_witness :
  change_password true 1700000000 "1" (password_body (JStr "Motdepasse12!") (JStr "Nouveau12345!"))
                  alice_db =
    (Val (mk_response 200 (msg "Mot de passe mis à jour avec succès")),
     update_password 1 (hash "Nouveau12345!") 1700000000 alice_db) /\
  Forall (fun r' => compare "Nouveau12345!" (mdp r') = true)
         (select_by_id 1 (update_password 1 (hash "Nouveau12345!") 1700000000 alice_db)).
Proof. apply (change_password_ok _ _ 1 alice_row []); vm_compute; first [lia | reflexivity]. Defined.

Lemma update_profile_skips_validation_witness :
  exists db', reachable db' /\
    exists r, In r (rows db') /\ uid r = 1%Z /\ email r = JStr "pas-un-email" /\ username r = JStr "x".
Proof.
  apply (update_profile_skips_validation alice_db "1" 1 "pas-un-email" alice_row);
    [|vm_compute; first [left; reflexivity | reflexivity | lia]..].
  apply rtc_once. replace alice_db with (snd (register true alice_body empty_db)) by reflexivity.
  constructor.
Defined.
