(* ===== verification/TwoFactor.v ===== *)
(** The two-factor login of [routes/users.js]: the process-wide object
    [const twoFA = {}], [POST /login] which checks the password, draws a
    code with [crypto.randomInt(100000, 999999)], stores
    [twoFA[user.username] = { code, expiresIn: Date.now() + 10 * 60 * 1000 }]
    and mails it, and [POST /verify-2fa] which checks the code, signs a
    token and deletes the entry.

    [twoFA] is an ordinary JavaScript object, not a [Map]: its own
    properties are a [gmap]; a lookup that misses them continues on the
    prototype chain, whose members ([toString], [constructor], ...) are
    truthy; and [twoFA["__proto__"] = v] does not create a property but
    replaces the prototype with [v], which [delete] cannot remove.  [store]
    keeps both parts.

    The handlers take the inputs of the environment: [db_up] (whether
    [connectToDb()] gave a connection), the [users] table (read only),
    [draw] (the random code), [now] ([Date.now()]) and [mail] (whether
    [sendMail] succeeded).  [/verify-2fa] has no [try]: an exception in it
    is an unhandled rejection, which ends the process under Node's default
    policy; the store is then lost ([after_request]). *)

From stdpp Require Import gmap.
From S2P Require Import Prelude JsValue Http Services Accounts.

Record auth_info : Type := mk_entry { code : Z; expiresIn : Z }.

Record store : Type := mk_store { own : gmap string auth_info; proto : option auth_info }.

(** [const twoFA = {}], at start-up and after a restart. *)
Definition empty_store : store := mk_store ∅ None.

(** The properties every object inherits from [Object.prototype]. *)
Definition object_prototype_keys : list string :=
  ["constructor"; "hasOwnProperty"; "isPrototypeOf"; "propertyIsEnumerable"; "toString";
   "toLocaleString"; "valueOf"; "__defineGetter__"; "__defineSetter__"; "__lookupGetter__";
   "__lookupSetter__"].

(** What [twoFA[k]] evaluates to: [undefined], an entry object, a member
    of [Object.prototype] (a function, or the prototype object itself), or
    a number (a field of an entry installed as the prototype). *)
Inductive slot : Type :=
| Undef
| EntryObj (e : auth_info)
| Builtin
| Num (z : Z).

(** [twoFA[k]].  The object never gets an own property named
    [__proto__] ([set_key] calls the setter instead), so that name always
    reaches the accessor of [Object.prototype], which returns the
    prototype. *)
Definition lookup_key (k : string) (s : store) : slot :=
  if String.eqb k "__proto__" then
    match proto s with Some p => EntryObj p | None => Builtin end
  else
    match own s !! k with
    | Some e => EntryObj e
    | None =>
        match proto s with
        | Some p =>
            if String.eqb k "code" then Num (code p)
            else if String.eqb k "expiresIn" then Num (expiresIn p)
            else if existsb (String.eqb k) object_prototype_keys then Builtin else Undef
        | None => if existsb (String.eqb k) object_prototype_keys then Builtin else Undef
        end
    end.

(** [twoFA[k] = e]: the [__proto__] setter replaces the prototype. *)
Definition set_key (k : string) (e : auth_info) (s : store) : store :=
  if String.eqb k "__proto__" then mk_store (own s) (Some e)
  else mk_store (<[k := e]> (own s)) (proto s).

(** [delete twoFA[k]]: removes an own property; [__proto__] is none. *)
Definition delete_key (k : string) (s : store) : store :=
  if String.eqb k "__proto__" then s else mk_store (delete k (own s)) (proto s).

(** [!authInfo] *)
Definition slot_truthy (v : slot) : bool :=
  match v with Undef => false | Num z => negb (Z.eqb z 0) | _ => true end.

(** [authInfo.expiresIn < Date.now()]: [undefined < n] is false. *)
Definition expired (v : slot) (now : Z) : bool :=
  match v with EntryObj e => (expiresIn e <? now)%Z | _ => false end.

(** [authInfo.code !== parseInt(code)]: [undefined] and [NaN] differ from
    everything. *)
Definition code_mismatch (v : slot) (given : option Z) : bool :=
  match v, given with
  | EntryObj e, Some c => negb (Z.eqb (code e) c)
  | _, _ => true
  end.

(** [10 * 60 * 1000] *)
Definition code_ttl : Z := 10 * 60 * 1000.

(** An [async] handler without [try]: a rejection is not handled. *)
Definition unguarded {S A} (m : St S A) : St S A :=
  fun s => match m s with (Exc _, s') => (Crashed, s') | r => r end.

Definition bad_credentials : response :=
  mk_response 401 (msg "Nom d'utilisateur ou mot de passe incorrect").

Section Handlers.
Context `{PasswordHasher} `{EmailValidator} `{Collation} `{TokenSigner}.

(** [router.post('/login', ...)]; [mail] is [None] when [sendMail]
    succeeds and [Some m] when it rejects with message [m]. *)
Definition login (db_up : bool) (db : users_db) (draw now : Z) (mail : option string) (b : jsval)
  : St store response :=
  catch
    (if negb db_up then ret db_error else
     let* u := lift (get_prop b "username") in
     let* m := lift (get_prop b "mdp") in
     if negb (truthy u && truthy m) then
       ret (mk_response 400 (msg "Nom d'utilisateur et mot de passe sont requis."))
     else
     let* ulen := lift (get_prop u "length") in
     if js_lt ulen 3 then
       ret (mk_response 400 (msg "La longueur du username doit être égale ou supérieure à 3"))
     else
     let* long_enough := lift (isLength_min m 12) in
     if negb long_enough then ret (mk_response 400 (msg length_msg)) else
     if negb (password_policy (js_to_string m)) then ret (mk_response 400 (msg policy_msg)) else
     match select_by_username u db with
     | [] => ret bad_credentials
     | r :: _ =>
         let* ok := lift (compare_js m (mdp r)) in
         if negb ok then ret bad_credentials else
         let* _ := modify (set_key (js_to_string (username r)) (mk_entry draw (now + code_ttl))) in
         match mail with
         | None => ret (mk_response 200 (msg "Code de vérification envoyé. Veuillez vérifier votre email."))
         | Some e => throw (Error e)
         end
     end)
    (fun err => ret (mk_response 500 (JObj [("message", JStr "Erreur lors de l'envoi de l'email.");
                                            ("error", err_message err)]))).

(** [router.post('/verify-2fa', ...)]: [db.query] on the [undefined] of a
    failed [connectToDb()] is a [TypeError]. *)
Definition verify_2fa (db_up : bool) (db : users_db) (now : Z) (b : jsval) : St store response :=
  unguarded
    (let* u := lift (get_prop b "username") in
     let* c := lift (get_prop b "code") in
     let* s := get in
     let authInfo := lookup_key (js_to_string u) s in
     if negb (slot_truthy authInfo) || expired authInfo now then
       ret (mk_response 401 (msg "Le code 2FA a expiré ou est invalide"))
     else if code_mismatch authInfo (parse_int (js_to_string c)) then
       ret (mk_response 401 (msg "Code 2FA incorrect"))
     else if negb db_up then throw TypeError
     else
     match select_by_username u db with
     | [] => ret (mk_response 401 (msg "Utilisateur introuvable"))
     | r :: _ =>
         let token := sign (uid r) (JObj [("id", JNum (uid r)); ("username", username r)]) in
         let* _ := modify (delete_key (js_to_string u)) in
         ret (mk_response 200 (JObj [("message", JStr "Authentification réussie");
                                     ("token", JStr token); ("userId", JNum (uid r))]))
     end).
End Handlers.

(** The store the next request sees: a crash restarts the process with
    an empty object. *)
Definition after_request {A} (r : outcome A * store) : store :=
  match r with (Crashed, _) => empty_store | (_, s) => s end.

(** ** The object as a store *)

Lemma lookup_set_key k e s : lookup_key k (set_key k e s) = EntryObj e.
Proof.
  unfold lookup_key, set_key. destruct (String.eqb_spec k "__proto__") as [->|Hk]; simpl; [done|].
  by rewrite lookup_insert_eq.
Qed.

(** Once deleted, a name other than [__proto__] is no entry any more. *)
Lemma lookup_delete_key k s e :
  k <> "__proto__" -> lookup_key k (delete_key k s) <> EntryObj e.
Proof.
  intros Hk. unfold lookup_key, delete_key. rewrite (proj2 (String.eqb_neq _ _) Hk). simpl.
  rewrite lookup_delete_eq. repeat case_match; discriminate.
Qed.

Lemma delete_key_proto s : delete_key "__proto__" s = s.
Proof. reflexivity. Qed.

(** ** [/verify-2fa] *)

(** The body [{username, code}]. *)
Definition verify_body (u c : jsval) : jsval := JObj [("username", u); ("code", c)].

(** The 200 answer for the row [r]. *)
Definition auth_ok `{TokenSigner} (r : user_row) : response :=
  mk_response 200 (JObj [("message", JStr "Authentification réussie");
                         ("token", JStr (sign (uid r) (JObj [("id", JNum (uid r)); ("username", username r)])));
                         ("userId", JNum (uid r))]).

Section Verify.
Context `{PasswordHasher} `{EmailValidator} `{Collation} `{TokenSigner}.
Variables (db : users_db) (k : string) (c : jsval) (now : Z) (s : store) (e : auth_info).
Hypothesis Hlookup : lookup_key k s = EntryObj e.

(** a pending, unexpired entry whose code the request repeats lets
    the user with that name in: 200 with a token for the first matching
    row, and the entry is deleted. *)
Theorem verify_2fa_accepts r rs :
  (now <= expiresIn e)%Z -> parse_int (js_to_string c) = Some (code e) ->
  select_by_username (JStr k) db = r :: rs ->
  verify_2fa true db now (verify_body (JStr k) c) s = (Val (auth_ok r), delete_key k s).
Proof.
  intros Hnow Hc Hs. unfold verify_2fa, unguarded, verify_body. run_st.
  rewrite Hlookup. simpl. rewrite (proj2 (Z.ltb_ge _ _) Hnow), Hc, Z.eqb_refl. simpl.
  by rewrite Hs.
Qed.

(** the check is inclusive: an entry is refused with "expiré" from
    the first millisecond after [expiresIn], and the object is unchanged. *)
Theorem verify_2fa_expired :
  (expiresIn e < now)%Z ->
  verify_2fa true db now (verify_body (JStr k) c) s =
    (Val (mk_response 401 (msg "Le code 2FA a expiré ou est invalide")), s).
Proof.
  intros Hnow. unfold verify_2fa, unguarded, verify_body. run_st.
  rewrite Hlookup. simpl. by rewrite (proj2 (Z.ltb_lt _ _) Hnow).
Qed.

(** a wrong code is refused and leaves the entry in place: nothing
    limits the number of attempts within the ten minutes. *)
Theorem verify_2fa_wrong_code db_up :
  (now <= expiresIn e)%Z -> parse_int (js_to_string c) <> Some (code e) ->
  verify_2fa db_up db now (verify_body (JStr k) c) s =
    (Val (mk_response 401 (msg "Code 2FA incorrect")), s).
Proof.
  intros Hnow Hc. unfold verify_2fa, unguarded, verify_body. run_st.
  rewrite Hlookup. simpl. rewrite (proj2 (Z.ltb_ge _ _) Hnow).
  destruct (parse_int (js_to_string c)) as [c'|]; [|done]. simpl.
  destruct (Z.eqb_spec (code e) c'); [congruence|done].
Qed.

(** C29: a right code while the database is unreachable is an unhandled
    rejection: the process ends, and every pending code is lost. *)
Theorem verify_2fa_db_down :
  (now <= expiresIn e)%Z -> parse_int (js_to_string c) = Some (code e) ->
  fst (verify_2fa false db now (verify_body (JStr k) c) s) = Crashed /\
  after_request (verify_2fa false db now (verify_body (JStr k) c) s) = empty_store.
Proof.
  intros Hnow Hc. unfold verify_2fa, unguarded, verify_body, after_request. run_st.
  rewrite Hlookup. simpl. by rewrite (proj2 (Z.ltb_ge _ _) Hnow), Hc, Z.eqb_refl.
Qed.
End Verify.

Section OneTime.
Context `{PasswordHasher} `{EmailValidator} `{Collation} `{TokenSigner}.

(** A name that holds no entry is refused, with either message, and the
    object is unchanged. *)
Lemma verify_2fa_no_entry db_up db now k c s :
  (forall e, lookup_key k s <> EntryObj e) ->
  exists m, verify_2fa db_up db now (verify_body (JStr k) c) s = (Val (mk_response 401 (msg m)), s).
Proof.
  intros Hk. unfold verify_2fa, unguarded, verify_body. run_st.
  destruct (lookup_key k s) as [|e| |z] eqn:E; simpl; [eauto|by destruct (Hk e)|eauto|].
  destruct (Z.eqb z 0); simpl; eauto.
Qed.

(** A 200 answer deletes the name of the request. *)
Lemma verify_2fa_success_store db_up db now k c s resp s' :
  verify_2fa db_up db now (verify_body (JStr k) c) s = (Val resp, s') -> status resp = 200%Z ->
  s' = delete_key k s.
Proof. unfold verify_2fa, unguarded, verify_body. run_st. intros Hv Hst. case_run. Qed.

(** C4: a code is good for one login: after a 200, the same name is
    refused whatever code, clock and database follow, as long as no new
    login intervenes (for every name but [__proto__]). *)
Theorem verify_2fa_one_time db_up db now k c s resp s' :
  k <> "__proto__" ->
  verify_2fa db_up db now (verify_body (JStr k) c) s = (Val resp, s') -> status resp = 200%Z ->
  forall db_up' db' now' c',
  exists m, verify_2fa db_up' db' now' (verify_body (JStr k) c') s' = (Val (mk_response 401 (msg m)), s').
Proof.
  intros Hk Hv Hst. rewrite (verify_2fa_success_store _ _ _ _ _ _ _ _ Hv Hst). intros.
  apply verify_2fa_no_entry. intros e. by apply lookup_delete_key.
Qed.

(** C15: for the user named [__proto__] the code is never consumed:
    [twoFA["__proto__"] = ...] replaced the object's prototype, which
    [delete twoFA["__proto__"]] does not remove, so the same code lets that
    user in again and again until it expires. *)
Theorem verify_2fa_proto_replay db now c s e r rs :
  proto s = Some e -> (now <= expiresIn e)%Z -> parse_int (js_to_string c) = Some (code e) ->
  select_by_username (JStr "__proto__") db = r :: rs ->
  verify_2fa true db now (verify_body (JStr "__proto__") c) s = (Val (auth_ok r), s).
Proof.
  intros Hp Hnow Hc Hs.
  assert (Hl : lookup_key "__proto__" s = EntryObj e) by (unfold lookup_key; simpl; by rewrite Hp).
  by rewrite (verify_2fa_accepts db "__proto__" c now s e Hl r rs).
Qed.
End OneTime.

(** ** [/login] *)

(** The body [{username, mdp}]. *)
Definition login_body (u m : jsval) : jsval := JObj [("username", u); ("mdp", m)].

(** The answer of a login whose password matched, by mail outcome. *)
Definition login_answer (mail : option string) : response :=
  match mail with
  | None => mk_response 200 (msg "Code de vérification envoyé. Veuillez vérifier votre email.")
  | Some m => mk_response 500 (JObj [("message", JStr "Erreur lors de l'envoi de l'email.");
                                     ("error", JStr m)])
  end.

Section Login.
Context `{PasswordHasher} `{EmailValidator} `{Collation} `{TokenSigner}.

(** A login with a well-formed user name and password matching the first
    row of that name stores the drawn code under the row's user name,
    valid for ten minutes, then answers by the mail's outcome. *)
Lemma login_run db draw now mail u m r rs s :
  (3 <= utf16_length u)%nat -> (12 <= isLength_count m)%nat -> password_policy m = true ->
  select_by_username (JStr u) db = r :: rs -> compare m (mdp r) = true ->
  login true db draw now mail (login_body (JStr u) (JStr m)) s =
    (Val (login_answer mail), set_key (js_to_string (username r)) (mk_entry draw (now + code_ttl)) s).
Proof.
  intros Hu Hm Hpol Hs Hc. unfold login, login_body. run_st.
  pose proof (utf16_length_nonempty u ltac:(lia)). pose proof (isLength_count_nonempty m ltac:(lia)).
  rewrite !eqb_empty_long by lia. simpl.
  unfold js_lt. simpl. rewrite (proj2 (Z.ltb_ge _ _)) by lia. simpl.
  destruct (Nat.le_exists_sub 12 (isLength_count m) Hm) as [n [-> _]].
  rewrite Nat.add_comm. simpl. rewrite Hpol. simpl. rewrite Hs. simpl. rewrite Hc. simpl.
  by destruct mail.
Qed.

(** the code is stored before the mail is sent: when [sendMail]
    fails, the login answers 500, yet the drawn code is stored under the
    user's name and valid for ten minutes, overwriting any earlier one. *)
Theorem login_stores_code db draw now err u m r rs s :
  (3 <= utf16_length u)%nat -> (12 <= isLength_count m)%nat -> password_policy m = true ->
  select_by_username (JStr u) db = r :: rs -> compare m (mdp r) = true ->
  login true db draw now (Some err) (login_body (JStr u) (JStr m)) s =
    (Val (mk_response 500 (JObj [("message", JStr "Erreur lors de l'envoi de l'email.");
                                 ("error", JStr err)])),
     set_key (js_to_string (username r)) (mk_entry draw (now + code_ttl)) s) /\
  lookup_key (js_to_string (username r)) (snd (login true db draw now (Some err) (login_body (JStr u) (JStr m)) s))
    = EntryObj (mk_entry draw (now + code_ttl)).
Proof.
  intros. rewrite (login_run db draw now (Some err) u m r rs s) by done. split; [done|].
  apply lookup_set_key.
Qed.

(** C3: end to end: after a login at [t] whose mail was sent, the
    mailed code opens a session for that user at [t'] exactly when
    [t' <= t + 600000], the ten minutes of the source included. *)
Theorem login_then_verify db draw t t' u m c r rs s :
  (3 <= utf16_length u)%nat -> (12 <= isLength_count m)%nat -> password_policy m = true ->
  select_by_username (JStr u) db = r :: rs -> compare m (mdp r) = true ->
  username r = JStr u -> parse_int (js_to_string c) = Some draw ->
  fst (verify_2fa true db t' (verify_body (JStr u) c)
                  (snd (login true db draw t None (login_body (JStr u) (JStr m)) s))) = Val (auth_ok r)
  <-> (t' <= t + 600000)%Z.
Proof.
  intros Hu Hm Hpol Hs Hc Hn Hd. change 600000%Z with code_ttl.
  rewrite (login_run db draw t None u m r rs s) by done. simpl. rewrite Hn. simpl.
  pose proof (lookup_set_key u (mk_entry draw (t + code_ttl)) s) as Hl.
  destruct (Z.le_gt_cases t' (t + code_ttl)) as [Hle|Hgt].
  - rewrite (verify_2fa_accepts db u c t' _ _ Hl r rs) by done. by split.
  - rewrite (verify_2fa_expired db u c t' _ _ Hl) by done. split; [|lia]. intros [=].
Qed.
End Login.

(** ** Witnesses, with the instances of [Services.Demo] and Alice's table
    of [Accounts] *)

Import Demo.

(** The object after Alice logged in at [t = 1000] and drew [123456]. *)
Definition alice_store : store := set_key "alice" (mk_entry 123456 (1000 + code_ttl)) empty_store.

Definition alice_login : jsval := login_body (JStr "alice") (JStr "Motdepasse12!").

Lemma verify_2fa_accepts_witness :
  verify_2fa true alice_db 601000 (verify_body (JStr "alice") (JStr "123456")) alice_store =
    (Val (auth_ok alice_row), delete_key "alice" alice_store).
Proof.
  apply (verify_2fa_accepts alice_db "alice" (JStr "123456") 601000 alice_store (mk_entry 123456 601000)
           eq_refl alice_row []); first [reflexivity | simpl; lia].
Defined.

Lemma verify_2fa_expired_witness :
  verify_2fa true alice_db 601001 (verify_body (JStr "alice") (JStr "123456")) alice_store =
    (Val (mk_response 401 (msg "Le code 2FA a expiré ou est invalide")), alice_store).
Proof.
  apply (verify_2fa_expired alice_db "alice" (JStr "123456") 601001 alice_store (mk_entry 123456 601000)
           eq_refl). simpl. lia.
Defined.

Lemma verify_2fa_wrong_code_witness :
  verify_2fa true alice_db 5000 (verify_body (JStr "alice") (JStr "654321")) alice_store =
    (Val (mk_response 401 (msg "Code 2FA incorrect")), alice_store).
Proof.
  apply (verify_2fa_wrong_code alice_db "alice" (JStr "654321") 5000 alice_store (mk_entry 123456 601000)
           eq_refl); [simpl; lia|discriminate].
Defined.

Lemma verify_2fa_db_down_witness :
  fst (verify_2fa false alice_db 5000 (verify_body (JStr "alice") (JStr "123456")) alice_store) = Crashed /\
  after_request (verify_2fa false alice_db 5000 (verify_body (JStr "alice") (JStr "123456")) alice_store)
    = empty_store.
Proof.
  apply (verify_2fa_db_down alice_db "alice" (JStr "123456") 5000 alice_store (mk_entry 123456 601000)
           eq_refl); first [reflexivity | simpl; lia].
Defined.

Lemma verify_2fa_one_time_witness :
  exists m, verify_2fa true alice_db 6000 (verify_body (JStr "alice") (JStr "123456"))
                       (delete_key "alice" alice_store) =
              (Val (mk_response 401 (msg m)), delete_key "alice" alice_store).
Proof.
  apply (verify_2fa_one_time true alice_db 601000 "alice" (JStr "123456") alice_store (auth_ok alice_row));
    [discriminate|reflexivity|reflexivity].
Defined.

(** A user who registered as [__proto__], and the object after that user
    logged in at [t = 1000] and drew [424242]. *)
Definition proto_db : users_db :=
  insert_user (JStr "__proto__") (JStr "Jean") (JStr "Dupont") (JNum 23) (JStr "p@example.com")
              (hash "Motdepasse12!") empty_db.

Definition proto_store : store := set_key "__proto__" (mk_entry 424242 (1000 + code_ttl)) empty_store.

Definition proto_row : user_row := hd (mk_user 0 JNull JNull JNull JNull JNull "" None) (rows proto_db).

Lemma verify_2fa_proto_replay_witness :
  verify_2fa true proto_db 2000 (verify_body (JStr "__proto__") (JStr "424242")) proto_store =
    (Val (auth_ok proto_row), proto_store).
Proof. apply (verify_2fa_proto_replay _ _ _ _ (mk_entry 424242 601000) proto_row []); first [reflexivity | simpl; lia]. Defined.

Lemma login_stores_code_witness :
  login true alice_db 123456 1000 (Some "SMTP unavailable") alice_login empty_store =
    (Val (mk_response 500 (JObj [("message", JStr "Erreur lors de l'envoi de l'email.");
                                 ("error", JStr "SMTP unavailable")])), alice_store) /\
  lookup_key "alice" (snd (login true alice_db 123456 1000 (Some "SMTP unavailable") alice_login empty_store))
    = EntryObj (mk_entry 123456 (1000 + code_ttl)).
Proof. apply (login_stores_code _ _ _ _ "alice" "Motdepasse12!" alice_row []); vm_compute; first [lia | reflexivity]. Defined.

Lemma login_then_verify_witness :
  fst (verify_2fa true alice_db 601000 (verify_body (JStr "alice") (JStr "123456"))
                  (snd (login true alice_db 123456 1000 None alice_login empty_store))) = Val (auth_ok alice_row)
  <-> (601000 <= 1000 + code_ttl)%Z.
Proof. apply (login_then_verify _ _ _ _ "alice" "Motdepasse12!" _ alice_row []); vm_compute; first [lia | reflexivity]. Defined.
