(* ===== verification/Library.v ===== *)
(** The user's library: [routes/favoris.js] ([POST /favoris/:id],
    [GET /favorisTout/:id]) on the [favori] table and
    [routes/historique.js] ([POST /historique/:id/],
    [GET /historiqueTout/:id]) on the [historique] table.

    Both additions are an insert-if-absent: a [SELECT] with one [=] per
    column, then an [INSERT] when it returned nothing.  [KeyedTable] states
    the invariant this keeps (no two rows equal, column by column, under
    the collation) once for any row type; [Favoris] and [Historique] are
    the two instances.  The schema of the tables is not in the repository:
    a row holds the columns the [INSERT] writes, and [SELECT *] returns
    them.  Parameters go through mysql2's escaping, which sends
    [undefined] as [NULL] ([sql_value]); [NULL] is equal to nothing. *)

From S2P Require Import Prelude JsValue Http Services Accounts.

(** mysql2's [escape]: [undefined] and [null] are both sent as [NULL]. *)
Definition sql_value (v : jsval) : jsval :=
  match v with JUndef => JNull | _ => v end.

Definition db_connect_error : response := mk_response 500 (msg "Erreur de connexion à la base de données").

Definition db_connect_error_typo : response := mk_response 500 (msg "Erreur de connexion à la ase de données").

(** ** Insert-if-absent, for any row type *)

Section KeyedTable.
Context {R : Type} (same : R -> R -> bool).

(** No two rows are [same]. *)
Definition unique_rows (rs : list R) : Prop := ForallOrdPairs (fun a b => same a b = false) rs.

(** Appending a row that no stored row is [same] as keeps rows unique. *)
Lemma unique_rows_snoc rs r :
  unique_rows rs -> List.filter (fun x => same x r) rs = [] -> unique_rows (rs ++ [r]).
Proof.
  intros Hu Hf. apply ForallOrdPairs_snoc; [done|]. apply Forall_forall.
  intros x Hx%list_elem_of_In. by apply (proj1 (filter_nil_iff _ _) Hf).
Qed.

(** A request that leaves the table alone or appends a row no stored row
    is [same] as. *)
Definition insert_if_absent_effect (rs rs' : list R) : Prop :=
  rs' = rs \/ exists r, rs' = rs ++ [r] /\ List.filter (fun x => same x r) rs = [].

Lemma unique_rows_effect rs rs' :
  insert_if_absent_effect rs rs' -> unique_rows rs -> unique_rows rs'.
Proof. intros [->|(r & -> & Hf)] Hu; [done|by apply unique_rows_snoc]. Qed.
End KeyedTable.

(** ** [routes/favoris.js] *)

Module Favoris.

Record favori := mk_favori { id_user : jsval; id_filmAPI : jsval }.

Definition favori_json (r : favori) : jsval :=
  JObj [("id_user", id_user r); ("id_filmAPI", id_filmAPI r)].

Section Handlers.
Context `{Collation}.

(** [SELECT * FROM favori WHERE id_user = ? AND id_filmAPI = ?] *)
Definition select_favori (u f : jsval) (db : list favori) : list favori :=
  List.filter (fun r => sql_eq (id_user r) (sql_value u) && sql_eq (id_filmAPI r) (sql_value f)) db.

(** [SELECT * FROM favori where id_user = ?] *)
Definition select_user (u : jsval) (db : list favori) : list favori :=
  List.filter (fun r => sql_eq (id_user r) (sql_value u)) db.

(** [INSERT INTO favori (id_user, id_filmAPI) VALUES (?, ?)] *)
Definition insert_favori (u f : jsval) (db : list favori) : list favori :=
  db ++ [mk_favori (sql_value u) (sql_value f)].

(** [router.post("/favoris/:id", ...)]: the route parameter is passed as
    the string it is. *)
Definition addFavori (db_up : bool) (param : string) (b : jsval) : St (list favori) response :=
  catch
    (if negb db_up then ret db_connect_error else
     let userId := JStr param in
     let* f := lift (get_prop b "id_filmAPI") in
     let* dejaFavori := query (select_favori userId f) in
     if nonempty dejaFavori then ret (mk_response 400 (msg "Le film est dèja dans vos favoris.")) else
     let* _ := exec (insert_favori userId f) in
     ret (mk_response 201 (msg "Film ajouté aux favoris avec succès !")))
    (fun _ => ret (mk_response 500 (msg "Erreur interne du serveur."))).

(** [router.get('/favorisTout/:id', ...)] *)
Definition listFavoris (db_up : bool) (param : string) : St (list favori) response :=
  catch
    (if negb db_up then ret db_connect_error_typo else
     let* favoris := query (select_user (JStr param)) in
     match favoris with
     | [] => ret (mk_response 404 (msg "Aucun film trouvé trouvé pour cet utilisateur."))
     | _ => ret (mk_response 200 (JObj [("favoris", JArr (map favori_json favoris))]))
     end)
    (fun _ => ret (mk_response 500 (msg "Erreur interne du serveur"))).
End Handlers.
End Favoris.

(** ** [routes/historique.js] *)

Module Historique.

Record entry := mk_entry { id_user : jsval; filmVu : jsval; id_filmAPI : jsval; loueAchat : jsval }.

Definition entry_json (r : entry) : jsval :=
  JObj [("id_user", id_user r); ("filmVu", filmVu r); ("id_filmAPI", id_filmAPI r);
        ("loueAchat", loueAchat r)].

Section Handlers.
Context `{Collation}.

(** [SELECT * FROM historique WHERE id_user = ? AND filmVu = ? AND
    id_filmAPI = ? AND loueAchat = ?] *)
Definition select_entry (u v f l : jsval) (db : list entry) : list entry :=
  List.filter (fun r => sql_eq (id_user r) (sql_value u) && sql_eq (filmVu r) (sql_value v) &&
                        sql_eq (id_filmAPI r) (sql_value f) && sql_eq (loueAchat r) (sql_value l)) db.

(** [SELECT * FROM historique where id_user = ?] *)
Definition select_user (u : jsval) (db : list entry) : list entry :=
  List.filter (fun r => sql_eq (id_user r) (sql_value u)) db.

(** [INSERT INTO historique (id_user, filmVu, id_filmAPI, loueAchat) VALUES (?, ?, ?, ?)] *)
Definition insert_entry (u v f l : jsval) (db : list entry) : list entry :=
  db ++ [mk_entry (sql_value u) (sql_value v) (sql_value f) (sql_value l)].

(** [router.post("/historique/:id/", ...)] *)
Definition addHistorique (db_up : bool) (param : string) (b : jsval) : St (list entry) response :=
  catch
    (if negb db_up then ret db_connect_error else
     match valid_user_id param with
     | None => ret invalid_id
     | Some n =>
         let userId := JNum n in
         let* v := lift (get_prop b "filmVu") in
         let* f := lift (get_prop b "id_filmAPI") in
         let* l := lift (get_prop b "loueAchat") in
         let* deja := query (select_entry userId v f l) in
         if nonempty deja then ret (mk_response 400 (msg "Le film est dèja dans votre historique.")) else
         let* _ := exec (insert_entry userId v f l) in
         ret (mk_response 201 (msg "Film ajouté a l'historique avec succès !"))
     end)
    (fun _ => ret (mk_response 500 (msg "Erreur interne du serveur."))).

(** [router.get('/historiqueTout/:id', ...)] *)
Definition listHistorique (db_up : bool) (param : string) : St (list entry) response :=
  catch
    (if negb db_up then ret db_connect_error_typo else
     match valid_user_id param with
     | None => ret invalid_id
     | Some n =>
         let* historique := query (select_user (JNum n)) in
         match historique with
         | [] => ret (mk_response 404 (msg "Aucun film trouvé pour cet utilisateur."))
         | _ => ret (mk_response 200 (JObj [("historique", JArr (map entry_json historique))]))
         end
     end)
    (fun _ => ret (mk_response 500 (msg "Erreur interne du serveur"))).
End Handlers.
End Historique.

(** ** The favourites *)

Module FavorisProofs.
Import Favoris.

Section Proofs.
Context `{Collation}.

(** Two favourites are the same when [=] holds column by column. *)
Definition same_favori (r1 r2 : favori) : bool :=
  sql_eq (id_user r1) (id_user r2) && sql_eq (id_filmAPI r1) (id_filmAPI r2).

Lemma addFavori_effect db_up p b db :
  insert_if_absent_effect same_favori db (snd (addFavori db_up p b db)).
Proof.
  unfold addFavori, insert_if_absent_effect. run_st. unfold query, exec. case_run.
  right. eexists. split; [reflexivity|]. by apply nonempty_false.
Qed.

Lemma listFavoris_effect db_up p db : snd (listFavoris db_up p db) = db.
Proof. unfold listFavoris. run_st. unfold query. case_run. Qed.

Inductive step : list favori -> list favori -> Prop :=
| step_add db_up p b db : step db (snd (addFavori db_up p b db))
| step_list db_up p db : step db (snd (listFavoris db_up p db)).

Definition reachable (db : list favori) : Prop := rtc step [] db.

Lemma step_unique x y : step x y -> unique_rows same_favori x -> unique_rows same_favori y.
Proof.
  intros [db_up p b x0|db_up p x0].
  - apply unique_rows_effect, addFavori_effect.
  - by rewrite listFavoris_effect.
Qed.

(** C26: in every [favori] table the two routes can reach from an empty
    one, no two rows have equal [id_user] and equal [id_filmAPI] under
    SQL's [=]. *)
Theorem favoris_reachable_unique db : reachable db -> unique_rows same_favori db.
Proof. apply rtc_invariant; [apply step_unique|constructor]. Qed.
(** [NULL] is equal to nothing, on either side. *)
Lemma sql_eq_null_r v : sql_eq v JNull = false.
Proof. by rewrite sql_eq_sym, sql_eq_null. Qed.

(** The body [{id_filmAPI}]. *)
Definition favori_body (f : jsval) : jsval := JObj [("id_filmAPI", f)].

Definition favori_added : response := mk_response 201 (msg "Film ajouté aux favoris avec succès !").

(** a film not yet among the user's favourites is added (201), and
    the user's list then answers 200 with the earlier favourites followed
    by the new one. *)
Theorem add_then_list p f db :
  select_favori (JStr p) f db = [] ->
  addFavori true p (favori_body f) db = (Val favori_added, insert_favori (JStr p) f db) /\
  listFavoris true p (insert_favori (JStr p) f db) =
    (Val (mk_response 200 (JObj [("favoris", JArr (map favori_json
            (select_user (JStr p) db ++ [mk_favori (JStr p) (sql_value f)])))])),
     insert_favori (JStr p) f db).
Proof.
  intros Hs. split.
  - unfold addFavori, favori_body. run_st. unfold query, exec. by rewrite Hs.
  - unfold listFavoris, select_user, insert_favori. run_st. unfold query.
    rewrite List.filter_app. simpl. rewrite sql_eq_str_refl.
    by destruct (List.filter _ db).
Qed.

(** C27: the duplicate check cannot see a missing [id_filmAPI]: mysql2
    sends [undefined] as [NULL], [id_filmAPI = NULL] holds for no row, so
    every request without it is answered 201 and appends the same row
    [(id_user, NULL)] again. *)
Theorem null_film_duplicates p db :
  addFavori true p (JObj []) db = (Val favori_added, db ++ [mk_favori (JStr p) JNull]) /\
  addFavori true p (JObj []) (db ++ [mk_favori (JStr p) JNull]) =
    (Val favori_added, db ++ [mk_favori (JStr p) JNull; mk_favori (JStr p) JNull]).
Proof.
  assert (Hnull : forall d, select_favori (JStr p) JUndef d = []).
  { intros d. apply filter_nil_iff. intros x _. simpl. by rewrite sql_eq_null_r, andb_false_r. }
  split; unfold addFavori; run_st; unfold query, exec; rewrite Hnull; simpl; [done|].
  unfold insert_favori. by rewrite <- app_assoc.
Qed.
End Proofs.
End FavorisProofs.

(** ** The watch history *)

Module HistoriqueProofs.
Import Historique.

Section Proofs.
Context `{Collation}.

(** Two entries are the same when [=] holds column by column. *)
Definition same_entry (r1 r2 : entry) : bool :=
  sql_eq (id_user r1) (id_user r2) && sql_eq (filmVu r1) (filmVu r2) &&
  sql_eq (id_filmAPI r1) (id_filmAPI r2) && sql_eq (loueAchat r1) (loueAchat r2).

Lemma addHistorique_effect db_up p b db :
  insert_if_absent_effect same_entry db (snd (addHistorique db_up p b db)).
Proof.
  unfold addHistorique, insert_if_absent_effect. run_st. unfold query, exec. case_run.
  right. eexists. split; [reflexivity|]. by apply nonempty_false.
Qed.

Lemma listHistorique_effect db_up p db : snd (listHistorique db_up p db) = db.
Proof. unfold listHistorique. run_st. unfold query. case_run. Qed.

Inductive step : list entry -> list entry -> Prop :=
| step_add db_up p b db : step db (snd (addHistorique db_up p b db))
| step_list db_up p db : step db (snd (listHistorique db_up p db)).

Definition reachable (db : list entry) : Prop := rtc step [] db.

Lemma step_unique_entries x y : step x y -> unique_rows same_entry x -> unique_rows same_entry y.
Proof.
  intros [db_up p b x0|db_up p x0].
  - apply unique_rows_effect, addHistorique_effect.
  - by rewrite listHistorique_effect.
Qed.

(** C28: in every [historique] table the two routes can reach from an
    empty one, no two rows agree on all four columns under SQL's [=]. *)
Theorem historique_reachable_unique db : reachable db -> unique_rows same_entry db.
Proof. apply rtc_invariant; [apply step_unique_entries|constructor]. Qed.
End Proofs.
End HistoriqueProofs.

(** ** Witnesses, with the instances of [Services.Demo] *)

Import Demo.

Lemma favoris_reachable_unique_witness :
  unique_rows FavorisProofs.same_favori [Favoris.mk_favori (JStr "1") (JStr "tt0117571")].
Proof.
  apply FavorisProofs.favoris_reachable_unique. apply rtc_once.
  replace [Favoris.mk_favori (JStr "1") (JStr "tt0117571")]
    with (snd (Favoris.addFavori true "1" (FavorisProofs.favori_body (JStr "tt0117571")) []))
    by reflexivity.
  constructor.
Defined.

Lemma add_then_list_witness :
  Favoris.addFavori true "1" (FavorisProofs.favori_body (JStr "tt0117571")) [] =
    (Val FavorisProofs.favori_added, [Favoris.mk_favori (JStr "1") (JStr "tt0117571")]) /\
  Favoris.listFavoris true "1" [Favoris.mk_favori (JStr "1") (JStr "tt0117571")] =
    (Val (mk_response 200 (JObj [("favoris", JArr [JObj [("id_user", JStr "1");
                                                         ("id_filmAPI", JStr "tt0117571")]])])),
     [Favoris.mk_favori (JStr "1") (JStr "tt0117571")]).
Proof. apply (FavorisProofs.add_then_list "1" (JStr "tt0117571") []). reflexivity. Defined.

Lemma historique_reachable_unique_witness :
  unique_rows HistoriqueProofs.same_entry
    [Historique.mk_entry (JNum 1) (JBool true) (JStr "tt0117571") (JStr "location")].
Proof.
  apply HistoriqueProofs.historique_reachable_unique. apply rtc_once.
  replace [Historique.mk_entry (JNum 1) (JBool true) (JStr "tt0117571") (JStr "location")]
    with (snd (Historique.addHistorique true "1"
                 (JObj [("filmVu", JBool true); ("id_filmAPI", JStr "tt0117571");
                        ("loueAchat", JStr "location")]) []))
    by reflexivity.
  constructor.
Defined.
