(* ===== verification/Interleave.v ===== *)
(** Requests that interleave.  Node runs one request at a time between two
    [await]s: the code from one [await] to the next is atomic, and at each
    [await] another request may run.  A [thread] is a handler cut at its
    [await]s: [Paused eff next] is the segment that resumes on the state
    [s] of the tables, continues as [next s] and leaves them as [eff s];
    [run_alone] runs a thread without interruption, and [sched_step] lets
    the scheduler resume any paused thread of a pool.

    [register_thread] is [POST /register] of [routes/users.js] cut at its
    five [await]s ([connectToDb()], the two [SELECT]s, [bcrypt.hash], the
    [INSERT]); [register_thread_alone] shows that alone it is
    [Accounts.register].  [register_race] shows two sign-ups with the same
    e-mail that both pass the uniqueness checks before either inserts.

    [guarded] is the tail shared by the handlers that check the tables
    before they write: one segment per [SELECT], then the write;
    [guarded_race] shows that two such requests whose checks pass both
    write.  [addFavori_thread], [addHistorique_thread] and
    [update_profile_thread] are [POST /favoris/:id], [POST /historique/:id/]
    and [PUT /profile/:id] cut at their [await]s; alone each is its
    handler ([addFavori_thread_alone], ...), and interleaved, two
    additions of the same favourite both insert ([addFavori_race]) and two
    users can take the same user name ([update_profile_race]). *)

From S2P Require Import Prelude JsValue Http Services Accounts Library.

Inductive thread (S A : Type) : Type :=
| Finished (o : outcome A)
| Paused (eff : S -> S) (next : S -> thread S A).

Arguments Finished {S A} o.
Arguments Paused {S A} eff next.

(** Resume a thread at every [await] at once. *)
Fixpoint run_alone {S A} (t : thread S A) (s : S) : outcome A * S :=
  match t with
  | Finished o => (o, s)
  | Paused eff next => run_alone (next s) (eff s)
  end.

(** An [await] that reads nothing and writes nothing. *)
Definition pause {S A} (k : thread S A) : thread S A := Paused id (fun _ => k).

(** One step of the scheduler: any paused thread of the pool resumes. *)
Inductive sched_step {S A} : list (thread S A) * S -> list (thread S A) * S -> Prop :=
| sched_run ts1 eff next ts2 s :
    sched_step (ts1 ++ Paused eff next :: ts2, s) (ts1 ++ next s :: ts2, eff s).

(** Resume the [i]-th thread of the pool, if it is paused. *)
Definition resume {S A} (i : nat) (cfg : list (thread S A) * S) : list (thread S A) * S :=
  match cfg.1 !! i with
  | Some (Paused eff next) => (<[i := next cfg.2]> cfg.1, eff cfg.2)
  | _ => cfg
  end.

(** Resume the threads in the order a schedule names them. *)
Fixpoint run_sched {S A} (sched : list nat) (cfg : list (thread S A) * S) : list (thread S A) * S :=
  match sched with
  | [] => cfg
  | i :: rest => run_sched rest (resume i cfg)
  end.

Lemma resume_step {S A} i (cfg : list (thread S A) * S) : rtc sched_step cfg (resume i cfg).
Proof.
  destruct cfg as [ts s]. unfold resume. simpl.
  destruct (ts !! i) as [[o|eff next]|] eqn:E; try apply rtc_refl.
  apply rtc_once. pose proof (lookup_lt_Some _ _ _ E) as Hlt.
  rewrite <- (take_drop_middle ts i _ E) at 1. rewrite insert_take_drop by done.
  constructor.
Qed.

(** Every schedule is a run of the scheduler. *)
Lemma run_sched_rtc {S A} sched (cfg : list (thread S A) * S) : rtc sched_step cfg (run_sched sched cfg).
Proof.
  revert cfg. induction sched as [|i rest IH]; intros cfg; simpl; [apply rtc_refl|].
  eapply rtc_trans; [apply resume_step|apply IH].
Qed.

(** ** [POST /register], cut at its [await]s *)

(** The synchronous part before the first [SELECT]: destructuring, the
    required fields, the user name's length and the e-mail's format; an
    early answer, or the six fields. *)
Definition pre_register `{EmailValidator} (b : jsval)
  : outcome (response + (jsval * jsval * jsval * jsval * jsval * jsval)) :=
  let? u := get_prop b "username" in
  let? n := get_prop b "nom" in
  let? p := get_prop b "prenom" in
  let? a := get_prop b "age" in
  let? e := get_prop b "email" in
  let? m := get_prop b "mdp" in
  let? missing := first_missing b required_fields in
  match missing with
  | Some f => Val (inl (mk_response 400 (msg ("Le champ " +:+ f +:+ " est manquant"))))
  | None =>
      let? ulen := get_prop u "length" in
      if js_lt ulen 3 then
        Val (inl (mk_response 400 (msg "La longueur du username doit être égale ou supérieure à 3")))
      else
      let? email_ok := is_email_js e in
      if negb email_ok then Val (inl (mk_response 400 (msg "Le format de l'email est invalide")))
      else Val (inr (u, n, p, a, e, m))
  end.

(** The [catch] of the handler, for a segment that threw. *)
Definition register_failed (e : exn) : thread users_db response :=
  Finished (Val (mk_response 500 (error_json e))).

Definition register_thread `{PasswordHasher} `{EmailValidator} `{Collation}
    (db_up : bool) (b : jsval) : thread users_db response :=
  pause
    (if negb db_up then Finished (Val db_error) else
     match pre_register b with
     | Crashed => Finished Crashed
     | Exc err => register_failed err
     | Val (inl r) => Finished (Val r)
     | Val (inr (u, n, p, a, e, m)) =>
         Paused id (fun db =>
           if nonempty (select_by_email e db) then
             Finished (Val (mk_response 400 (msg "Cet email est déjà utilisé.")))
           else
           Paused id (fun db =>
             if nonempty (select_by_username u db) then
               Finished (Val (mk_response 400 (msg "Ce username est déjà utilisé.")))
             else
             match isLength_min m 12 with
             | Crashed => Finished Crashed
             | Exc err => register_failed err
             | Val false => Finished (Val (mk_response 400 (msg length_msg)))
             | Val true =>
                 if negb (password_policy (js_to_string m)) then
                   Finished (Val (mk_response 400 (msg policy_msg)))
                 else
                 pause
                   (Paused (insert_user u p n a e (hash (js_to_string m)))
                      (fun _ => Finished (Val (mk_response 201 (msg "Utilisateur créé")))))
             end))
     end).

(** ** Check, then write *)

(** The tail shared by the handlers that check the tables before they
    write: each guard is a [SELECT] awaited in a segment of its own, whose
    result, when it holds, is the early answer; past every guard, the
    write is awaited, then the handler answers [ok]. *)
Fixpoint guarded {S A} (gs : list ((S -> bool) * A)) (w : S -> S) (ok : A) : thread S A :=
  match gs with
  | [] => Paused w (fun _ => Finished (Val ok))
  | (g, r) :: gs' => Paused id (fun s => if g s then Finished (Val r) else guarded gs' w ok)
  end.

(** ** [POST /favoris/:id], cut at its [await]s *)

(** [router.post("/favoris/:id", ...)] of [routes/favoris.js]: after
    [connectToDb()], the [SELECT] reads the table when its segment runs,
    and the [INSERT] writes it in a later one. *)
Definition addFavori_thread `{Collation} (db_up : bool) (param : string) (b : jsval)
  : thread (list Favoris.favori) response :=
  pause
    (if negb db_up then Finished (Val db_connect_error) else
     let userId := JStr param in
     match get_prop b "id_filmAPI" with
     | Crashed => Finished Crashed
     | Exc _ => Finished (Val (mk_response 500 (msg "Erreur interne du serveur.")))
     | Val f =>
         guarded [(fun db => nonempty (Favoris.select_favori userId f db),
                   mk_response 400 (msg "Le film est dèja dans vos favoris."))]
           (Favoris.insert_favori userId f) (mk_response 201 (msg "Film ajouté aux favoris avec succès !"))
     end).

(** ** [POST /historique/:id/], cut at its [await]s *)

(** [router.post("/historique/:id/", ...)] of [routes/historique.js]. *)
Definition addHistorique_thread `{Collation} (db_up : bool) (param : string) (b : jsval)
  : thread (list Historique.entry) response :=
  pause
    (if negb db_up then Finished (Val db_connect_error) else
     match valid_user_id param with
     | None => Finished (Val invalid_id)
     | Some n =>
         let userId := JNum n in
         match (let? v := get_prop b "filmVu" in let? f := get_prop b "id_filmAPI" in
                let? l := get_prop b "loueAchat" in Val (v, f, l)) with
         | Crashed => Finished Crashed
         | Exc _ => Finished (Val (mk_response 500 (msg "Erreur interne du serveur.")))
         | Val (v, f, l) =>
             guarded [(fun db => nonempty (Historique.select_entry userId v f l db),
                       mk_response 400 (msg "Le film est dèja dans votre historique."))]
               (Historique.insert_entry userId v f l)
               (mk_response 201 (msg "Film ajouté a l'historique avec succès !"))
         end
     end).

(** ** [PUT /profile/:id], cut at its [await]s *)

Definition profile_updated : response := mk_response 200 (msg "Profil mis à jour avec succès !").

(** [router.put('/profile/:id', ...)] of [routes/users.js]: two guards,
    the e-mail and the user name of the other rows, then the [UPDATE]. *)
Definition update_profile_thread `{Collation} (db_up : bool) (param : string) (b : jsval)
  : thread users_db response :=
  pause
    (if negb db_up then Finished (Val db_error) else
     match valid_user_id param with
     | None => Finished (Val invalid_id)
     | Some n =>
         match (let? u := get_prop b "username" in let? e := get_prop b "email" in Val (u, e)) with
         | Crashed => Finished Crashed
         | Exc err => Finished (Val (mk_response 500 (JObj [("message", JStr "Erreur lors de la mise à jour du profil.");
                                                          ("error", err_message err)])))
         | Val (u, e) =>
             if negb (truthy u && truthy e) then
               Finished (Val (mk_response 400 (msg "Le nom d'utilisateur ou l'email est manquant.")))
             else
             guarded [(fun db => nonempty (select_email_other e n db),
                       mk_response 400 (msg "Cet email est déjà utilisé."));
                      (fun db => nonempty (select_username_other u n db),
                       mk_response 400 (msg "Ce nom d'utilisateur est déjà utilisé."))]
               (update_profile n u e) profile_updated
         end
     end).

Section Alone.
Context `{PasswordHasher} `{EmailValidator} `{Collation}.

(** run without interruption, the request cut at its [await]s is the
    handler of [Accounts]: same answer, same table. *)
Theorem register_thread_alone db_up b db :
  run_alone (register_thread db_up b) db = register db_up b db.
Proof.
  unfold register, register_thread, pre_register, register_failed, pause. run_st.
  unfold query, exec. destruct db_up; simpl; [|done].
  destruct (get_prop b "username") as [u| |]; simpl; try reflexivity.
  destruct (get_prop b "nom") as [n| |]; simpl; try reflexivity.
  destruct (get_prop b "prenom") as [p| |]; simpl; try reflexivity.
  destruct (get_prop b "age") as [a| |]; simpl; try reflexivity.
  destruct (get_prop b "email") as [e| |]; simpl; try reflexivity.
  destruct (get_prop b "mdp") as [m| |]; simpl; try reflexivity.
  destruct (truthy u), (truthy n), (truthy p), (truthy a), (truthy e), (truthy m); simpl;
    try reflexivity.
  destruct (get_prop u "length") as [ulen| |]; simpl; try reflexivity.
  destruct (js_lt ulen 3); simpl; try reflexivity.
  destruct (is_email_js e) as [[]| |]; simpl; try reflexivity.
  destruct (nonempty (select_by_email e db)); simpl; try reflexivity.
  destruct (nonempty (select_by_username u db)); simpl; try reflexivity.
  destruct (isLength_min m 12) as [[]| |]; simpl; try reflexivity.
  by destruct (password_policy (js_to_string m)).
Qed.

(** run without interruption, [POST /favoris/:id] cut at its
    [await]s is the handler of [Library.Favoris]: same answer, same
    table. *)
Theorem addFavori_thread_alone db_up p b db :
  run_alone (addFavori_thread db_up p b) db = Favoris.addFavori db_up p b db.
Proof.
  unfold addFavori_thread, Favoris.addFavori, pause. run_st. unfold query, exec.
  destruct db_up; simpl; [|done].
  destruct (get_prop b "id_filmAPI"); simpl; try reflexivity.
  by destruct (nonempty _).
Qed.

(** [POST /historique/:id/] cut at its [await]s, alone, is
    [Historique.addHistorique]. *)
Lemma addHistorique_thread_alone db_up p b db :
  run_alone (addHistorique_thread db_up p b) db = Historique.addHistorique db_up p b db.
Proof.
  unfold addHistorique_thread, Historique.addHistorique, pause. run_st. unfold query, exec.
  destruct db_up; simpl; [|done]. destruct (valid_user_id p); simpl; [|done].
  destruct (get_prop b "filmVu"), (get_prop b "id_filmAPI"), (get_prop b "loueAchat"); simpl;
    try reflexivity.
  by destruct (nonempty _).
Qed.

(** [PUT /profile/:id] cut at its [await]s, alone, is
    [Accounts.update_profile_route]. *)
Lemma update_profile_thread_alone db_up p b db :
  run_alone (update_profile_thread db_up p b) db = update_profile_route db_up p b db.
Proof.
  unfold update_profile_thread, update_profile_route, pause. run_st. unfold query, exec.
  destruct db_up; simpl; [|done]. destruct (valid_user_id p); simpl; [|done].
  destruct (get_prop b "username") as [u| |], (get_prop b "email") as [em| |]; simpl; try reflexivity.
  destruct (truthy u && truthy em); simpl; [|done].
  destruct (nonempty (select_email_other em z db)); simpl; [done|].
  by destruct (nonempty (select_username_other u z db)).
Qed.
End Alone.

(** ** Two sign-ups at once *)

Section Race.
Context `{PasswordHasher} `{EmailValidator} `{Collation}.

Lemma pre_register_valid u n p a e m :
  (3 <= utf16_length u)%nat -> isEmail e = true -> (1 <= String.length m)%nat ->
  truthy n = true -> truthy p = true -> truthy a = true ->
  pre_register (register_body (JStr u) n p a (JStr e) (JStr m)) =
    Val (inr (JStr u, n, p, a, JStr e, JStr m)).
Proof.
  intros Hu He Hm Hn Hp Ha. pose proof (isEmail_length e He). pose proof (utf16_length_nonempty u ltac:(lia)).
  unfold pre_register, register_body. simpl.
  rewrite !eqb_empty_long by lia. rewrite Hn, Hp, Ha. simpl.
  unfold js_lt. simpl. rewrite (proj2 (Z.ltb_ge _ _)) by lia. by rewrite He.
Qed.

(** Two rows with equal e-mails break [wf]. *)
Lemma insert_twice_not_wf u p n a e h u' p' n' a' h' db :
  ~ wf (insert_user u' p' n' a' (JStr e) h' (insert_user u p n a (JStr e) h db)).
Proof.
  intros [_ _ Hem _]. unfold distinct_on in Hem. simpl in Hem.
  eapply ForallOrdPairs_app_inv in Hem; [|apply in_or_app; right; left; reflexivity|left; reflexivity].
  simpl in Hem. by rewrite sql_eq_str_refl in Hem.
Qed.

Definition created : response := mk_response 201 (msg "Utilisateur créé").

(** The last two segments of a sign-up: [bcrypt.hash], then the [INSERT]. *)
Definition insert_segment (u p n a e : jsval) (h : string) : thread users_db response :=
  pause (Paused (insert_user u p n a e h) (fun _ => Finished (Val created))).

(** A valid sign-up resumes three times on the table: its two checks read
    it, and when both find nothing the thread goes on to the insert. *)
Lemma register_thread_segments u n p a e m :
  (3 <= utf16_length u)%nat -> isEmail e = true -> (12 <= isLength_count m)%nat ->
  password_policy m = true -> truthy n = true -> truthy p = true -> truthy a = true ->
  exists f1, register_thread true (register_body (JStr u) n p a (JStr e) (JStr m)) = pause (Paused id f1) /\
    forall db, select_by_email (JStr e) db = [] ->
    exists f2, f1 db = Paused id f2 /\
      forall db', select_by_username (JStr u) db' = [] ->
      f2 db' = insert_segment (JStr u) p n a (JStr e) (hash m).
Proof.
  intros Hu He Hm Hpol Hn Hp Ha.
  eexists. split.
  { unfold register_thread. pose proof (isLength_count_nonempty m ltac:(lia)). rewrite pre_register_valid by (done || lia). reflexivity. }
  intros db Hdb. cbn beta. rewrite Hdb. eexists. split; [reflexivity|].
  intros db' Hdb'. cbn beta. rewrite Hdb', isLength_min_long by lia. simpl. by rewrite Hpol.
Qed.

(** One resumption of the first or the second thread of a pair. *)
Lemma sched_first {S A} (eff : S -> S) next (t : thread S A) s :
  sched_step ([Paused eff next; t], s) ([next s; t], eff s).
Proof. apply (sched_run [] eff next [t]). Qed.

Lemma sched_second {S A} (eff : S -> S) next (t : thread S A) s :
  sched_step ([t; Paused eff next], s) ([t; next s], eff s).
Proof. apply (sched_run [t] eff next []). Qed.

(** A resumption of the first or the second thread, as a step of a run. *)
Ltac sched1 := eapply rtc_l; [apply sched_first|]; unfold id; cbn beta.
Ltac sched2 := eapply rtc_l; [apply sched_second|]; unfold id; cbn beta.

(** A thread whose guards all fail on [s] runs them without changing
    the tables, wherever it sits in the pool, and stops at its write. *)
Lemma guarded_pass {S A} ts1 ts2 (gs : list ((S -> bool) * A)) w ok s :
  Forall (fun g => g.1 s = false) gs ->
  rtc sched_step (ts1 ++ guarded gs w ok :: ts2, s) (ts1 ++ Paused w (fun _ => Finished (Val ok)) :: ts2, s).
Proof.
  induction gs as [|[g r] gs IH]; intros Hgs; [apply rtc_refl|].
  apply Forall_cons in Hgs as [Hg Hgs]. simpl in Hg.
  eapply rtc_l; [apply sched_run|]. simpl. rewrite Hg. by apply IH.
Qed.

(** Two check-then-write requests whose checks all pass on [s] both run
    them before either writes: both answer [ok], and both writes land. *)
Lemma guarded_race {S A} gs1 gs2 w1 w2 (ok1 ok2 : A) (s : S) :
  Forall (fun g => g.1 s = false) gs1 -> Forall (fun g => g.1 s = false) gs2 ->
  rtc sched_step ([pause (guarded gs1 w1 ok1); pause (guarded gs2 w2 ok2)], s)
    ([Finished (Val ok1); Finished (Val ok2)], w2 (w1 s)).
Proof.
  intros Hg1 Hg2. unfold pause. sched1. sched2.
  etrans; [apply (guarded_pass [] _ gs1 w1 ok1 s Hg1)|]. simpl.
  etrans; [apply (guarded_pass [_] [] gs2 w2 ok2 s Hg2)|]. simpl.
  sched1. sched2. apply rtc_refl.
Qed.

(** C23: the uniqueness checks of [/register] do not survive interleaving:
    two identical valid sign-ups whose requests alternate at their
    [await]s (both [SELECT]s of each before either [INSERT]) are both
    answered 201 and leave two rows with the same e-mail and user name, a
    table outside [wf] (no [UNIQUE] constraint is assumed of the schema,
    which is not in the repository). *)
Theorem register_race u n p a e m db :
  (3 <= utf16_length u)%nat -> isEmail e = true -> (12 <= isLength_count m)%nat ->
  password_policy m = true -> truthy n = true -> truthy p = true -> truthy a = true ->
  select_by_email (JStr e) db = [] -> select_by_username (JStr u) db = [] ->
  rtc sched_step
    ([register_thread true (register_body (JStr u) n p a (JStr e) (JStr m));
      register_thread true (register_body (JStr u) n p a (JStr e) (JStr m))], db)
    ([Finished (Val created); Finished (Val created)],
     insert_user (JStr u) p n a (JStr e) (hash m) (insert_user (JStr u) p n a (JStr e) (hash m) db)) /\
  ~ wf (insert_user (JStr u) p n a (JStr e) (hash m) (insert_user (JStr u) p n a (JStr e) (hash m) db)).
Proof.
  intros Hu He Hm Hpol Hn Hp Ha Hse Hsu. split; [|apply insert_twice_not_wf].
  destruct (register_thread_segments u n p a e m) as (f1 & -> & Hf1); try done.
  destruct (Hf1 db Hse) as (f2 & Hf2 & Hins).
  unfold pause, insert_segment in *.
  (* both threads resume after [connectToDb()], then run both [SELECT]s *)
  sched1. sched2. sched1. rewrite Hf2. sched2. rewrite Hf2.
  sched1. rewrite (Hins db Hsu). sched2. rewrite (Hins db Hsu).
  (* the first inserts, then the second *)
  sched1. sched1. sched2. sched2.
  apply rtc_refl.
Qed.

(** Two rows appended equal under [same_favori] break [unique_rows]. *)
Lemma insert_favori_twice_not_unique u f db :
  sql_eq (sql_value u) (sql_value u) = true -> sql_eq (sql_value f) (sql_value f) = true ->
  ~ unique_rows FavorisProofs.same_favori (Favoris.insert_favori u f (Favoris.insert_favori u f db)).
Proof.
  intros Hu Hf Huniq. unfold unique_rows, Favoris.insert_favori in Huniq.
  eapply ForallOrdPairs_app_inv in Huniq; [|apply in_or_app; right; left; reflexivity|left; reflexivity].
  cbn in Huniq. unfold FavorisProofs.same_favori in Huniq. simpl in Huniq. by rewrite Hu, Hf in Huniq.
Qed.

(** C24: the duplicate check of [POST /favoris/:id] does not survive
    interleaving: two requests adding the same film for the same user,
    whose [SELECT]s both run before either [INSERT], are both answered
    201 and leave two equal rows, a table the sequential routes never
    reach ([FavorisProofs.favoris_reachable_unique]). *)
Theorem addFavori_race p f db :
  sql_eq (sql_value f) (sql_value f) = true ->
  Favoris.select_favori (JStr p) f db = [] ->
  rtc sched_step
    ([addFavori_thread true p (FavorisProofs.favori_body f); addFavori_thread true p (FavorisProofs.favori_body f)], db)
    ([Finished (Val FavorisProofs.favori_added); Finished (Val FavorisProofs.favori_added)],
     Favoris.insert_favori (JStr p) f (Favoris.insert_favori (JStr p) f db)) /\
  ~ unique_rows FavorisProofs.same_favori (Favoris.insert_favori (JStr p) f (Favoris.insert_favori (JStr p) f db)).
Proof.
  intros Hf Hsel. split; [|apply insert_favori_twice_not_unique; [apply sql_eq_str_refl|done]].
  apply guarded_race; repeat constructor; simpl; by rewrite Hsel.
Qed.
(** Two rows with different identifiers of a table [distinct_on f]
    differ on [f]. *)
Lemma distinct_on_pair f rs a b :
  distinct_on f rs -> In a rs -> In b rs -> uid a <> uid b -> sql_eq (f a) (f b) = false.
Proof.
  induction rs as [|x rs IH]; [done|]. intros Hd Ha Hb Hab.
  inversion Hd as [|? ? Hx Hrest]; subst. rewrite List.Forall_forall in Hx.
  destruct Ha as [<-|Ha], Hb as [<-|Hb]; [done|by apply Hx| |by apply IH].
  rewrite sql_eq_sym. by apply Hx.
Qed.

(** Two rows renamed to the same user name break [wf]. *)
Lemma update_profile_twice_not_wf n1 n2 u e1 e2 r1 r2 db :
  n1 <> n2 -> In r1 (rows db) -> uid r1 = n1 -> In r2 (rows db) -> uid r2 = n2 ->
  ~ wf (update_profile n2 (JStr u) e2 (update_profile n1 (JStr u) e1 db)).
Proof.
  intros Hn Hr1 Hu1 Hr2 Hu2 [_ _ _ Hwf]. unfold update_profile in Hwf. simpl in Hwf.
  eapply (distinct_on_pair username) in Hwf;
    [| do 2 apply in_map; exact Hr1 | do 2 apply in_map; exact Hr2 |].
  - revert Hwf. subst. repeat case_match; simpl in *; rewrite ?Z.eqb_eq, ?Z.eqb_neq in *; try lia.
    by rewrite sql_eq_str_refl.
  - subst. simpl. repeat case_match; simpl in *; rewrite ?Z.eqb_eq, ?Z.eqb_neq in *; lia.
Qed.

(** A well-formed profile update is its two guards and the [UPDATE]. *)
Lemma update_profile_thread_valid p n u e :
  valid_user_id p = Some n -> u <> "" -> e <> "" ->
  update_profile_thread true p (profile_body (JStr u) (JStr e)) =
    pause (guarded [(fun db => nonempty (select_email_other (JStr e) n db),
                     mk_response 400 (msg "Cet email est déjà utilisé."));
                    (fun db => nonempty (select_username_other (JStr u) n db),
                     mk_response 400 (msg "Ce nom d'utilisateur est déjà utilisé."))]
             (update_profile n (JStr u) (JStr e)) profile_updated).
Proof.
  intros Hv Hu He. unfold update_profile_thread. rewrite Hv. simpl.
  by rewrite (proj2 (String.eqb_neq u "") Hu), (proj2 (String.eqb_neq e "") He).
Qed.

(** C25: the uniqueness checks of [PUT /profile/:id] do not survive
    interleaving: two users who take the same free user name at once,
    both [SELECT]s of each running before either [UPDATE], are both
    answered 200 and leave two rows with that user name, a table outside
    [wf], which no sequential run reaches ([reachable_wf]). *)
Theorem update_profile_race p1 p2 n1 n2 u e1 e2 r1 r2 db :
  valid_user_id p1 = Some n1 -> valid_user_id p2 = Some n2 -> n1 <> n2 ->
  In r1 (rows db) -> uid r1 = n1 -> In r2 (rows db) -> uid r2 = n2 ->
  u <> "" -> e1 <> "" -> e2 <> "" ->
  select_email_other (JStr e1) n1 db = [] -> select_username_other (JStr u) n1 db = [] ->
  select_email_other (JStr e2) n2 db = [] -> select_username_other (JStr u) n2 db = [] ->
  rtc sched_step
    ([update_profile_thread true p1 (profile_body (JStr u) (JStr e1));
      update_profile_thread true p2 (profile_body (JStr u) (JStr e2))], db)
    ([Finished (Val profile_updated); Finished (Val profile_updated)],
     update_profile n2 (JStr u) (JStr e2) (update_profile n1 (JStr u) (JStr e1) db)) /\
  ~ wf (update_profile n2 (JStr u) (JStr e2) (update_profile n1 (JStr u) (JStr e1) db)).
Proof.
  intros Hv1 Hv2 Hn Hr1 Hu1 Hr2 Hu2 Hu He1 He2 Hs1 Hs2 Hs3 Hs4.
  split; [|exact (update_profile_twice_not_wf n1 n2 u _ _ r1 r2 db Hn Hr1 Hu1 Hr2 Hu2)].
  rewrite (update_profile_thread_valid p1 n1), (update_profile_thread_valid p2 n2) by done.
  apply guarded_race; repeat constructor; simpl; by rewrite ?Hs1, ?Hs2, ?Hs3, ?Hs4.
Qed.
End Race.

(** ** Witness, with the instances of [Services.Demo] *)

Import Demo.

(** Alice's sign-up sent twice at once on an empty table. *)
Lemma register_race_witness :
  rtc sched_step ([register_thread true alice_body; register_thread true alice_body], empty_db)
    ([Finished (Val created); Finished (Val created)],
     insert_user (JStr "alice") (JStr "Jean") (JStr "Dupont") (JNum 23) (JStr "alice@example.com")
       (hash "Motdepasse12!")
       (insert_user (JStr "alice") (JStr "Jean") (JStr "Dupont") (JNum 23) (JStr "alice@example.com")
          (hash "Motdepasse12!") empty_db)) /\
  ~ wf (insert_user (JStr "alice") (JStr "Jean") (JStr "Dupont") (JNum 23) (JStr "alice@example.com")
          (hash "Motdepasse12!")
          (insert_user (JStr "alice") (JStr "Jean") (JStr "Dupont") (JNum 23) (JStr "alice@example.com")
             (hash "Motdepasse12!") empty_db)).
Proof.
  apply (register_race "alice" (JStr "Dupont") (JStr "Jean") (JNum 23) "alice@example.com" "Motdepasse12!");
    vm_compute; first [lia | reflexivity].
Defined.

(** User 7 adds film 42 twice at once on an empty table. *)
Lemma addFavori_race_witness :
  sql_eq (sql_value (JNum 42)) (sql_value (JNum 42)) = true /\
  Favoris.select_favori (JStr "7") (JNum 42) [] = [] /\
  rtc sched_step
    ([addFavori_thread true "7" (FavorisProofs.favori_body (JNum 42));
      addFavori_thread true "7" (FavorisProofs.favori_body (JNum 42))], [])
    ([Finished (Val FavorisProofs.favori_added); Finished (Val FavorisProofs.favori_added)],
     Favoris.insert_favori (JStr "7") (JNum 42) (Favoris.insert_favori (JStr "7") (JNum 42) [])).
Proof.
  split; [vm_compute; reflexivity|]. split; [reflexivity|].
  apply (addFavori_race "7" (JNum 42) []); [vm_compute; reflexivity|reflexivity].
Defined.

(** Alice (1) and Bob (2) both rename themselves ["carol"] at once. *)
Definition alice_bob_db : users_db :=
  insert_user (JStr "bob") (JStr "Paul") (JStr "Martin") (JNum 31) (JStr "bob@example.com")
    (hash "Motdepasse34!") alice_db.

Lemma update_profile_race_witness :
  valid_user_id "1" = Some 1%Z /\ valid_user_id "2" = Some 2%Z /\
  rtc sched_step
    ([update_profile_thread true "1" (profile_body (JStr "carol") (JStr "alice@example.com"));
      update_profile_thread true "2" (profile_body (JStr "carol") (JStr "bob@example.com"))], alice_bob_db)
    ([Finished (Val profile_updated); Finished (Val profile_updated)],
     update_profile 2 (JStr "carol") (JStr "bob@example.com")
       (update_profile 1 (JStr "carol") (JStr "alice@example.com") alice_bob_db)) /\
  ~ wf (update_profile 2 (JStr "carol") (JStr "bob@example.com")
          (update_profile 1 (JStr "carol") (JStr "alice@example.com") alice_bob_db)).
Proof.
  split; [reflexivity|]. split; [reflexivity|].
  apply (update_profile_race "1" "2" 1 2 "carol" "alice@example.com" "bob@example.com"
           (hd (mk_user 0 JNull JNull JNull JNull JNull "" None) (rows alice_bob_db))
           (List.last (rows alice_bob_db) (mk_user 0 JNull JNull JNull JNull JNull "" None)));
    first [reflexivity | lia | discriminate | (simpl; auto; fail) | (vm_compute; auto)].
Defined.
