(* ===== verification/Server.v ===== *)
(** [server.js]: the Express application that mounts every router of the
    back end, with the parts of Express 4 it relies on.

    - Start-up ([boot]): [server.js] loads its modules in order with
      [require]; a missing local file throws [MODULE_NOT_FOUND] and the
      process ends before [app.listen].
    - Routing, as Express 4's [Router] and [path-to-regexp] 0.1 do it for
      the paths of this program: [app.use(prefix, router)] matches the
      request path against [^prefix\/?(?=\/|$)] ignoring case
      ([mount_match]) and hands the router the rest of the path (["/"]
      when empty); [router.get('/a/:p', h)] matches [^\/a\/(?:([^\/]+?))\/?$]
      ignoring case ([match_route]); every captured parameter goes through
      [decodeURIComponent] ([decode_param]) before the method is looked at,
      and a [URIError] makes the request fail with status 400 however many
      layers follow ([router_dispatch], [app_dispatch]).  A [HEAD] request
      is served by the [GET] route.
    - The middleware in front of the routers: [bodyParser.json()] (a
      malformed or non-object body is a 400; no JSON body reads as [{}]),
      [cors()] (an [OPTIONS] preflight is answered 204 at once), and the
      Swagger page under [/api-doc] ([serve]).
    - One server state ([server]) joins what the routers keep: the [users],
      [favori] and [historique] tables, the [twoFA] object and the log of
      upstream requests.  [serve] answers one request in it; an exception
      that no [try] catches ends the process, and the process restarts with
      an empty [twoFA] while the tables persist.

    The request path is the URL's pathname (the query string plays no part
    in routing) and is ASCII, as clients send it. *)

From stdpp Require Import gmap.
From S2P Require Import Prelude JsValue UriEncode UriDecode Http Services Resolver Cast SearchRoutes ActorRoutes Accounts TwoFactor Library.

(** ** Start-up *)

(** The local modules [server.js] loads, in the order of its [require]
    calls, as paths relative to [src/back]. *)
Definition server_requires : list string :=
  ["db.js"; "routes/historique.js"; "routes/favoris.js"; "routes/users.js";
   "apiRequest/retrievegetMovieIdByTitle.js"; "apiRequest/retrievegetSeriesIdByTitle.js";
   "apiRequest/listGetGenre.js"; "apiRequest/listgetSeriesOrderByRatings.js";
   "apiRequest/listgetFilmsOrderByRatings.js"; "apiRequest/listFilmByActor.js";
   "apiRequest/listSerieByActor.js"; "apiRequest/getActorInfo.js"; "apiRequest/movie.js";
   "apiRequest/getActorImage.js"].

(** Loading [server.js] with the files [present]: the first missing
    module, or [None] when the server reaches [app.listen]. *)
Fixpoint first_absent (present : string -> bool) (ms : list string) : option string :=
  match ms with
  | [] => None
  | m :: ms' => if present m then first_absent present ms' else Some m
  end.

Definition boot (present : string -> bool) : option string := first_absent present server_requires.

(** The local JavaScript files of the repository under [src/back]. *)
Definition repository_files : list string :=
  ["server.js"; "routes/favoris.js"; "routes/historique.js"; "routes/users.js";
   "apiRequest/getActorImage.js"; "apiRequest/getActorInfo.js"; "apiRequest/listFilmByActor.js";
   "apiRequest/listGetGenre.js"; "apiRequest/listSerieByActor.js";
   "apiRequest/listgetSeriesOrderByRatings.js"; "apiRequest/movie.js";
   "apiRequest/retrievegetMovieIdByTitle.js"; "apiRequest/retrievegetSeriesIdByTitle.js"].

(** ** Paths *)

Inductive method : Type := GET | HEAD | POST | PUT | DELETE | PATCH | OPTIONS.

#[export] Instance method_eq_dec : EqDecision method.
Proof. solve_decision. Defined.

(** The flag [i] of the route regular expressions, on ASCII. *)
Definition ascii_lower (c : ascii) : ascii :=
  let n := nat_of_ascii c in
  if ((65 <=? n) && (n <=? 90))%nat then ascii_of_nat (n + 32) else c.

Fixpoint ci_eqb (a b : string) : bool :=
  match a, b with
  | EmptyString, EmptyString => true
  | String x a', String y b' => Ascii.eqb (ascii_lower x) (ascii_lower y) && ci_eqb a' b'
  | _, _ => false
  end.

Fixpoint strip_prefix_ci (p s : string) : option string :=
  match p, s with
  | EmptyString, _ => Some s
  | String x p', String y s' =>
      if Ascii.eqb (ascii_lower x) (ascii_lower y) then strip_prefix_ci p' s' else None
  | _, _ => None
  end.

(** What follows the prefix must be the end or a slash; [\/?] takes one
    slash when it is followed by the end or another slash. *)
Definition mount_rest (r : string) : option string :=
  match r with
  | EmptyString => Some "/"
  | String c r' =>
      if Ascii.eqb c "/" then
        match r' with String d _ => if Ascii.eqb d "/" then Some r' else Some r | EmptyString => Some r end
      else None
  end.

(** [app.use(prefix, ...)]: the [req.url] the mounted router sees. *)
Definition mount_match (prefix path : string) : option string :=
  match strip_prefix_ci prefix path with Some r => mount_rest r | None => None end.

(** A path without its last segment when that one is empty: the optional
    trailing slash [\/?$]. *)
Fixpoint strip_trailing (l : list string) : list string :=
  match l with
  | [] => []
  | [EmptyString] => []
  | x :: l' => x :: strip_trailing l'
  end.

Definition split_path (s : string) : option (list string) :=
  match s with
  | EmptyString => Some []
  | String "/" r => Some (strip_trailing (path_segments r))
  | _ => None
  end.

Inductive pseg : Type := Lit (s : string) | Param (name : string).

(** [path-to-regexp]: [:name] captures [([^\/]+?)], the rest is literal. *)
Definition compile_seg (s : string) : pseg :=
  match s with String ":" name => Param name | _ => Lit s end.

Definition compile_path (p : string) : list pseg := map compile_seg (default [] (split_path p)).

(** The names a compiled path captures, in order. *)
Fixpoint pnames (ps : list pseg) : list string :=
  match ps with
  | [] => []
  | Lit _ :: ps' => pnames ps'
  | Param k :: ps' => k :: pnames ps'
  end.

Fixpoint match_segs (ps : list pseg) (xs : list string) : option (list (string * string)) :=
  match ps, xs with
  | [], [] => Some []
  | Lit l :: ps', x :: xs' => if ci_eqb l x then match_segs ps' xs' else None
  | Param k :: ps', x :: xs' =>
      if String.eqb x "" then None else option_map (cons (k, x)) (match_segs ps' xs')
  | _, _ => None
  end.

(** [Layer.prototype.match] of a route: the raw captures by name. *)
Definition match_route (path url : string) : option (list (string * string)) :=
  match split_path url with Some xs => match_segs (compile_path path) xs | None => None end.

(** Express's [decode_param]: [None] is the [URIError] that becomes 400. *)
Definition decode_param (v : string) : option string :=
  if String.eqb v "" then Some v else decodeURIComponent v.

Fixpoint decode_params (ps : list (string * string)) : option (list (string * string)) :=
  match ps with
  | [] => Some []
  | (k, v) :: ps' =>
      match decode_param v, decode_params ps' with
      | Some v', Some ps'' => Some ((k, v') :: ps'')
      | _, _ => None
      end
  end.

(** [Route.prototype._handles_method]: [HEAD] falls back to [GET]. *)
Definition handles (route_m req_m : method) : bool :=
  bool_decide (route_m = req_m) || (bool_decide (req_m = HEAD) && bool_decide (route_m = GET)).

(** ** The routers *)

(** The handlers, one per [router.get/post/put/delete] of the sources. *)
Inductive endpoint : Type :=
| Register | Login | Verify2fa | Profile | UpdateProfile | ChangePassword | DeleteAccount | Test
| AddFavori | ListFavoris | AddHistorique | ListHistorique
| SearchFilm | SearchFilmById | SearchSerie | SearchSerieById | ListGenres | ListByGenre
| SeriesByRating | ListFilmByActor | ActorById | ListSerieByActor | ActorDetail
| CastByMovie | CastInfoByMovie.

#[export] Instance endpoint_eq_dec : EqDecision endpoint.
Proof. solve_decision. Defined.

(** The entries of [req.params] each handler reads. *)
Definition endpoint_params (e : endpoint) : list string :=
  match e with
  | Profile | UpdateProfile | ChangePassword | DeleteAccount | AddFavori | ListFavoris
  | AddHistorique | ListHistorique | SearchFilmById | SearchSerieById | ActorById => ["id"]
  | SearchFilm | CastByMovie => ["film"]
  | SearchSerie => ["serie"]
  | ListByGenre => ["genre"]
  | ListFilmByActor | ListSerieByActor | ActorDetail => ["name"]
  | CastInfoByMovie => ["imdbId"]
  | Register | Login | Verify2fa | Test | ListGenres | SeriesByRating => []
  end.

Record route : Type := mk_route { r_method : method; r_path : string; r_endpoint : endpoint }.

(** [routes/users.js] *)
Definition users_router : list route :=
  [mk_route POST "/register" Register; mk_route POST "/login" Login;
   mk_route POST "/verify-2fa" Verify2fa; mk_route GET "/profile/:id" Profile;
   mk_route PUT "/profile/:id" UpdateProfile; mk_route PUT "/profile/mdp/:id" ChangePassword;
   mk_route DELETE "/profile/supprimerCompte/:id" DeleteAccount; mk_route GET "/test" Test].

(** [routes/favoris.js] *)
Definition favoris_router : list route :=
  [mk_route POST "/favoris/:id" AddFavori; mk_route GET "/favorisTout/:id" ListFavoris].

(** [routes/historique.js] *)
Definition historique_router : list route :=
  [mk_route POST "/historique/:id/" AddHistorique; mk_route GET "/historiqueTout/:id" ListHistorique].

(** [apiRequest/retrievegetMovieIdByTitle.js] *)
Definition film_router : list route :=
  [mk_route GET "/:film" SearchFilm; mk_route GET "/idFilm/:id" SearchFilmById].

(** [apiRequest/retrievegetSeriesIdByTitle.js] *)
Definition serie_router : list route :=
  [mk_route GET "/:serie" SearchSerie; mk_route GET "/idSerie/:id" SearchSerieById].

(** [apiRequest/listGetGenre.js] *)
Definition genre_router : list route :=
  [mk_route GET "/" ListGenres; mk_route GET "/:genre" ListByGenre].

(** [apiRequest/listgetSeriesOrderByRatings.js] *)
Definition seriebyrating_router : list route := [mk_route GET "/" SeriesByRating].

(** [apiRequest/listFilmByActor.js] *)
Definition filmbyactor_router : list route :=
  [mk_route GET "/:name" ListFilmByActor; mk_route GET "/id/:id" ActorById].

(** [apiRequest/listSerieByActor.js] *)
Definition seriebyactor_router : list route := [mk_route GET "/:name" ListSerieByActor].

(** [apiRequest/getActorInfo.js] *)
Definition actordetail_router : list route := [mk_route GET "/:name" ActorDetail].

(** [apiRequest/movie.js] *)
Definition castbymovie_router : list route := [mk_route GET "/:film" CastByMovie].

(** [apiRequest/getActorImage.js] *)
Definition castinfo_router : list route := [mk_route GET "/:imdbId" CastInfoByMovie].

(** What routing decides: a handler and its decoded parameters, no
    route, or a parameter [decodeURIComponent] rejects. *)
Inductive routed : Type :=
| Routed (e : endpoint) (params : list (string * string))
| NoRoute
| BadParam.

(** A router's [next()] loop over its routes.  The path is matched and the
    parameters decoded before the method is compared; after a decoding
    error no later route matches. *)
Fixpoint router_dispatch (m : method) (url : string) (rs : list route) : routed :=
  match rs with
  | [] => NoRoute
  | r :: rs' =>
      match match_route (r_path r) url with
      | None => router_dispatch m url rs'
      | Some raw =>
          match decode_params raw with
          | None => BadParam
          | Some ps => if handles (r_method r) m then Routed (r_endpoint r) ps
                       else router_dispatch m url rs'
          end
      end
  end.

Section App.
(** The router [apiRequest/listgetFilmsOrderByRatings.js] would export;
    the file is not in the repository. *)
Variable filmbyrating_router : list route.

(** The [app.use] calls of [server.js] that mount a router, in order. *)
Definition app_routers : list (string * list route) :=
  [("/api/users", users_router); ("/api/users", favoris_router);
   ("/api/users", historique_router);
   ("/api/search/film", film_router); ("/api/search/serie", serie_router);
   ("/api/search/genre", genre_router); ("/api/search/seriebyrating", seriebyrating_router);
   ("/api/search/filmbyrating", filmbyrating_router);
   ("/api/search/filmbyactorname", filmbyactor_router);
   ("/api/search/seriebyactorname", seriebyactor_router);
   ("/api/search/actorDetail", actordetail_router);
   ("/api/search/castByMovie", castbymovie_router);
   ("/api/search/castInfoByMovie", castinfo_router)].
End App.

(** The application's [next()] loop over the mounted routers: a router
    that finds no route passes the request on; a decoding error skips
    every later router and reaches the final handler. *)
Fixpoint app_dispatch (m : method) (path : string) (ls : list (string * list route)) : routed :=
  match ls with
  | [] => NoRoute
  | (prefix, rs) :: ls' =>
      match mount_match prefix path with
      | None => app_dispatch m path ls'
      | Some url =>
          match router_dispatch m url rs with
          | NoRoute => app_dispatch m path ls'
          | res => res
          end
      end
  end.

(** ** One server *)

(** What the process and the database hold between requests. *)
Record server : Type := mk_server {
  users : users_db;
  twofa : store;
  favoris : list Favoris.favori;
  historique : list Historique.entry;
  upstream : trace }.

(** The first start: empty tables, an empty [twoFA], no upstream request. *)
Definition fresh_server : server := mk_server empty_db empty_store [] [] [].

(** What the environment answers during one request: the upstream API,
    [connectToDb()], [Date.now()], [crypto.randomInt] and [sendMail]. *)
Record env : Type := mk_env {
  e_api : string -> reply;
  e_db : bool;
  e_now : Z;
  e_draw : Z;
  e_mail : option string }.

(** The body [bodyParser.json()] is given. *)
Inductive raw_body : Type :=
| NoBody
| OtherType
| JsonText (v : jsval)
| BadJson.

Record req : Type := mk_request { rq_method : method; rq_path : string; rq_body : raw_body }.

(** [bodyParser.json()] in its default [strict] mode: [req.body] is [{}]
    without a JSON body, the parsed object or array otherwise, and any
    other JSON text is a 400. *)
Definition parse_body (p : raw_body) : option jsval :=
  match p with
  | NoBody | OtherType => Some (JObj [])
  | JsonText v => match v with JObj _ | JArr _ => Some v | _ => None end
  | BadJson => None
  end.

(** How a handler answers, or that the process ended. *)
Inductive answer : Type :=
| Sent (r : response)
| Status (code : Z)
| Died.

(** [req.params[k]]. *)
Fixpoint param (ps : list (string * string)) (k : string) : string :=
  match ps with
  | [] => ""
  | (k', v) :: ps' => if String.eqb k k' then v else param ps' k
  end.

(** A handler run on its part of the server state. *)
Definition on_users (m : St users_db response) : St server response :=
  fun s => let '(o, u) := m (users s) in (o, mk_server u (twofa s) (favoris s) (historique s) (upstream s)).

Definition on_twofa (m : users_db -> St store response) : St server response :=
  fun s => let '(o, t) := m (users s) (twofa s) in
           (o, mk_server (users s) t (favoris s) (historique s) (upstream s)).

Definition on_favoris (m : St (list Favoris.favori) response) : St server response :=
  fun s => let '(o, f) := m (favoris s) in (o, mk_server (users s) (twofa s) f (historique s) (upstream s)).

Definition on_historique (m : St (list Historique.entry) response) : St server response :=
  fun s => let '(o, h) := m (historique s) in (o, mk_server (users s) (twofa s) (favoris s) h (upstream s)).

Definition on_upstream (m : St trace response) : St server response :=
  fun s => let '(o, l) := m (upstream s) in (o, mk_server (users s) (twofa s) (favoris s) (historique s) l).

(** A crash ends the process; it starts again with [const twoFA = {}]. *)
Definition restart (s : server) : server :=
  mk_server (users s) empty_store (favoris s) (historique s) (upstream s).

Section Serve.
Context `{PasswordHasher} `{EmailValidator} `{Collation} `{TokenSigner}.
Variable filmbyrating_router : list route.

(** The handler of each route with [req.params] and [req.body]. *)
Definition run_endpoint (ev : env) (e : endpoint) (ps : list (string * string)) (b : jsval)
  : St server response :=
  let api := e_api ev in
  match e with
  | Register => on_users (register (e_db ev) b)
  | Login => on_twofa (fun db => login (e_db ev) db (e_draw ev) (e_now ev) (e_mail ev) b)
  | Verify2fa => on_twofa (fun db => verify_2fa (e_db ev) db (e_now ev) b)
  | Profile => on_users (profile (e_db ev) (param ps "id"))
  | UpdateProfile => on_users (update_profile_route (e_db ev) (param ps "id") b)
  | ChangePassword => on_users (change_password (e_db ev) (e_now ev) (param ps "id") b)
  | DeleteAccount => on_users (delete_account (e_db ev) (param ps "id"))
  | Test => on_users (get_test (e_db ev))
  | AddFavori => on_favoris (Favoris.addFavori (e_db ev) (param ps "id") b)
  | ListFavoris => on_favoris (Favoris.listFavoris (e_db ev) (param ps "id"))
  | AddHistorique => on_historique (Historique.addHistorique (e_db ev) (param ps "id") b)
  | ListHistorique => on_historique (Historique.listHistorique (e_db ev) (param ps "id"))
  | SearchFilm => on_upstream (searchFilm api (param ps "film"))
  | SearchFilmById => on_upstream (searchFilmById api (param ps "id"))
  | SearchSerie => on_upstream (searchSerie api (param ps "serie"))
  | SearchSerieById => on_upstream (searchSerieById api (param ps "id"))
  | ListGenres => on_upstream (listGenres api)
  | ListByGenre => on_upstream (listByGenre api (param ps "genre"))
  | SeriesByRating => on_upstream (seriesByRating api)
  | ListFilmByActor => on_upstream (listFilmByActor api (param ps "name"))
  | ActorById => on_upstream (actorById api (param ps "id"))
  | ListSerieByActor => on_upstream (listSerieByActor api (param ps "name"))
  | ActorDetail => on_upstream (actorDetail api (param ps "name"))
  | CastByMovie => on_upstream (castByMovie api (param ps "film"))
  | CastInfoByMovie => on_upstream (castInfoByMovie api (param ps "imdbId"))
  end.

(** The handler's outcome as the client sees it, and the state after. *)
Definition settle (r : outcome response * server) : answer * server :=
  match r with
  | (Val resp, s) => (Sent resp, s)
  | (_, s) => (Died, restart s)
  end.

(** One request through the application: [bodyParser.json()], [cors()],
    the Swagger page, the routers, and Express's final handler. *)
Definition serve (ev : env) (rq : req) (s : server) : answer * server :=
  match parse_body (rq_body rq) with
  | None => (Status 400, s)
  | Some b =>
      if bool_decide (rq_method rq = OPTIONS) then (Status 204, s) else
      match mount_match "/api-doc" (rq_path rq) with
      | Some _ => (Status 200, s)
      | None =>
          match app_dispatch (rq_method rq) (rq_path rq) (app_routers filmbyrating_router) with
          | Routed e ps => settle (run_endpoint ev e ps b s)
          | NoRoute => (Status 404, s)
          | BadParam => (Status 400, s)
          end
      end
  end.
End Serve.

(** ** Lemmas *)

Lemma strip_prefix_ci_app p y : strip_prefix_ci p (p +:+ y) = Some y.
Proof. induction p as [|c p IH]; [done|]. rewrite string_app_cons. simpl. by rewrite Ascii.eqb_refl. Qed.

(** A mount prefix followed by ['/'] and text without ['/']. *)
Lemma mount_match_app p x :
  no_slash x = true -> mount_match p (p +:+ String "/" x) = Some (String "/" x).
Proof.
  intros Hx. unfold mount_match. rewrite strip_prefix_ci_app. simpl.
  destruct x as [|c x]; [done|]. simpl in Hx. apply andb_prop in Hx as [Hc%negb_true_iff _].
  by rewrite Hc.
Qed.

Lemma split_path_plain x :
  no_slash x = true -> x <> "" -> split_path (String "/" x) = Some [x].
Proof.
  intros Hx Hne. simpl. unfold path_segments. rewrite segments_acc_no_slash by done.
  rewrite string_app_nil_l. by destruct x.
Qed.

Lemma encode_no_slash t : no_slash (encodeURIComponent t) = true.
Proof. apply uri_safe_no_slash, encode_uri_safe. Qed.

Lemma encode_nonempty t : t <> "" -> encodeURIComponent t <> "".
Proof.
  destruct t as [|c t]; [done|]. intros _. simpl. destruct (is_unreserved c); [done|].
  unfold percent_byte. by rewrite string_app_cons.
Qed.

(** What Express hands a handler for a parameter the client encoded. *)
Lemma decode_param_encode t :
  decode_param (encodeURIComponent t) = if utf8_valid t then Some t else None.
Proof.
  unfold decode_param. rewrite <- decode_encode.
  destruct (String.eqb_spec (encodeURIComponent t) "") as [He|He]; [|done].
  destruct t as [|c t]; [by rewrite He|]. by destruct (encode_nonempty (String c t)).
Qed.

Lemma app_dispatch_skip m path p rs ls :
  mount_match p path = None -> app_dispatch m path ((p, rs) :: ls) = app_dispatch m path ls.
Proof. simpl. by intros ->. Qed.

Lemma app_dispatch_hit m path p rs ls url :
  mount_match p path = Some url -> router_dispatch m url rs <> NoRoute ->
  app_dispatch m path ((p, rs) :: ls) = router_dispatch m url rs.
Proof. simpl. intros -> H. by destruct (router_dispatch m url rs). Qed.

(** Routing of [prefix/x] for a router whose first route is [GET /:name]. *)
Lemma router_dispatch_param m x path name e rs :
  compile_path path = [Param name] -> no_slash x = true -> x <> "" ->
  router_dispatch m (String "/" x) (mk_route GET path e :: rs) =
    match decode_param x with
    | None => BadParam
    | Some v => if handles GET m then Routed e [(name, v)] else router_dispatch m (String "/" x) rs
    end.
Proof.
  intros Hp Hx Hne. simpl. unfold match_route. rewrite split_path_plain, Hp by done.
  simpl. rewrite (proj2 (String.eqb_neq _ _) Hne). simpl.
  by destruct (decode_param x).
Qed.

(** A route [GET /:name] on a parameter the client encoded. *)
Lemma router_dispatch_encoded t path name e rs :
  compile_path path = [Param name] -> t <> "" ->
  router_dispatch GET (String "/" (encodeURIComponent t)) (mk_route GET path e :: rs) =
    if utf8_valid t then Routed e [(name, t)] else BadParam.
Proof.
  intros Hp Ht. rewrite (router_dispatch_param _ _ _ name) by auto using encode_no_slash, encode_nonempty.
  rewrite decode_param_encode. by destruct (utf8_valid t).
Qed.

(** The application's loop reaches the router mounted at [p] for
    [p/<encoded parameter>] once every earlier mount has been skipped. *)
Lemma app_dispatch_encoded t p path name e rs ls :
  compile_path path = [Param name] -> t <> "" ->
  app_dispatch GET (p +:+ String "/" (encodeURIComponent t)) ((p, mk_route GET path e :: rs) :: ls) =
    if utf8_valid t then Routed e [(name, t)] else BadParam.
Proof.
  intros Hp Ht. rewrite (app_dispatch_hit _ _ _ _ _ _ (mount_match_app p _ (encode_no_slash t))).
  - by apply (router_dispatch_encoded _ _ name).
  - rewrite (router_dispatch_encoded _ _ name) by done. by destruct (utf8_valid t).
Qed.

(** [mount_match p path] where [path] visibly does not start with [p]. *)
Ltac skip_mount p :=
  match goal with |- context [mount_match p ?path] => change (mount_match p path) with (@None string) end.

(** A route [GET /:name] on a parameter Express cannot decode. *)
Lemma app_dispatch_undecodable m x p path name e rs ls :
  compile_path path = [Param name] -> no_slash x = true -> decodeURIComponent x = None ->
  app_dispatch m (p +:+ String "/" x) ((p, mk_route GET path e :: rs) :: ls) = BadParam.
Proof.
  intros Hp Hx Hd.
  assert (x <> "") as Hne by (intros ->; discriminate).
  assert (decode_param x = None) as Hd'.
  { unfold decode_param. by rewrite (proj2 (String.eqb_neq _ _) Hne). }
  rewrite (app_dispatch_hit _ _ _ _ _ _ (mount_match_app p _ Hx));
    rewrite (router_dispatch_param _ _ _ name) by done; by rewrite Hd'.
Qed.

Lemma lookup_key_empty k e : lookup_key k empty_store <> EntryObj e.
Proof. unfold lookup_key. simpl. repeat case_match; discriminate. Qed.

Ltac skip_mounts :=
  unfold app_routers; repeat (rewrite app_dispatch_skip by reflexivity).

Section Routing.
Context `{PasswordHasher} `{EmailValidator} `{Collation} `{TokenSigner}.
Variable filmbyrating_router : list route.

(** C5: the title a client encodes with [encodeURIComponent] reaches the
    cast aggregator of [movie.js] exactly as typed: [GET
    /api/search/castByMovie/<encoded title>] runs [castByMovie] on the
    title and answers what it answers, when the title is well-formed
    UTF-8; otherwise Express answers 400 before any handler runs and the
    state is unchanged. *)
Theorem serve_castByMovie ev t s :
  t <> "" ->
  serve filmbyrating_router ev
    (mk_request GET ("/api/search/castByMovie/" +:+ encodeURIComponent t) NoBody) s =
  if utf8_valid t then settle (on_upstream (castByMovie (e_api ev) t) s) else (Status 400, s).
Proof.
  intros Ht. unfold serve. cbn -[app_dispatch mount_match].
  skip_mount "/api-doc".
  skip_mounts.
  change ("/api/search/castByMovie/" +:+ encodeURIComponent t) with
    ("/api/search/castByMovie" +:+ String "/" (encodeURIComponent t)).
  unfold castbymovie_router. erewrite app_dispatch_encoded by (reflexivity || done). by destruct (utf8_valid t).
Qed.
End Routing.

(** ** [serve] by cases *)

Section ServeCases.
Context `{PasswordHasher} `{EmailValidator} `{Collation} `{TokenSigner}.
Variable filmbyrating_router : list route.
Variables (ev : env) (m : method) (path : string) (p : raw_body) (s : server) (b : jsval).
Variables (e : endpoint) (ps : list (string * string)).
Hypotheses (Hb : parse_body p = Some b) (Hm : m <> OPTIONS)
  (Hdoc : mount_match "/api-doc" path = None).

Lemma serve_routed :
  app_dispatch m path (app_routers filmbyrating_router) = Routed e ps ->
  serve filmbyrating_router ev (mk_request m path p) s = settle (run_endpoint ev e ps b s).
Proof. intros Hd. unfold serve. cbn [rq_body rq_method rq_path]. by rewrite Hb, bool_decide_eq_false_2, Hdoc, Hd. Qed.

Lemma serve_bad_param :
  app_dispatch m path (app_routers filmbyrating_router) = BadParam ->
  serve filmbyrating_router ev (mk_request m path p) s = (Status 400, s).
Proof. intros Hd. unfold serve. cbn [rq_body rq_method rq_path]. by rewrite Hb, bool_decide_eq_false_2, Hdoc, Hd. Qed.
End ServeCases.

Section Requests.
Context `{PasswordHasher} `{EmailValidator} `{Collation} `{TokenSigner}.
Variable filmbyrating_router : list route.

(** C17: a route parameter that is not valid percent-encoded UTF-8 is
    answered 400 by Express's final handler, whatever the method, before
    any handler runs: no upstream request, no JSON [{message}], the state
    unchanged. *)
Theorem serve_undecodable ev m x s :
  m <> OPTIONS -> no_slash x = true -> decodeURIComponent x = None ->
  serve filmbyrating_router ev (mk_request m ("/api/search/actorDetail/" +:+ x) NoBody) s =
    (Status 400, s).
Proof.
  intros Hm Hx Hd. apply (serve_bad_param _ _ _ _ _ _ (JObj [])); [done..|reflexivity|].
  skip_mounts. change ("/api/search/actorDetail/" +:+ x) with ("/api/search/actorDetail" +:+ String "/" x).
  unfold actordetail_router. by erewrite app_dispatch_undecodable by (reflexivity || done).
Qed.

(** The [/verify-2fa] request of a client. *)
Definition verify_request (k : string) (c : jsval) : req :=
  mk_request POST "/api/users/verify-2fa" (JsonText (verify_body (JStr k) c)).

(** C11: requests of different clients interfere through the process: a
    title search whose upstream body is not JSON ends the process, which
    loses every pending two-factor code while the tables are kept; the
    next [/verify-2fa] of any user, with any code, is refused with 401. *)
Theorem search_crash_drops_codes ev t s :
  t <> "" -> utf8_valid t = true -> e_api ev (title_path t) = Malformed ->
  exists s1,
    serve filmbyrating_router ev
      (mk_request GET ("/api/search/film/" +:+ encodeURIComponent t) NoBody) s = (Died, s1) /\
    twofa s1 = empty_store /\ users s1 = users s /\ favoris s1 = favoris s /\
    historique s1 = historique s /\
    forall ev' k c, exists m,
      fst (serve filmbyrating_router ev' (verify_request k c) s1) = Sent (mk_response 401 (msg m)).
Proof.
  intros Ht Hv Ha. eexists. rewrite (serve_routed _ _ _ _ _ _ (JObj []) SearchFilm [("film", t)]); [|done|done|reflexivity|].
  2:{ skip_mounts.
      change ("/api/search/film/" +:+ encodeURIComponent t) with
        ("/api/search/film" +:+ String "/" (encodeURIComponent t)).
      unfold film_router. erewrite app_dispatch_encoded by (reflexivity || done). by rewrite Hv. }
  change (run_endpoint ev SearchFilm [("film", t)] (JObj []) s) with
    (on_upstream (passthrough_unguarded (e_api ev) (title_path t)) s).
  unfold on_upstream. rewrite passthrough_unguarded_run, Ha.
  split; [reflexivity|]. do 4 (split; [done|]). intros ev' k c.
  unfold verify_request. rewrite (serve_routed _ _ _ _ _ _ (verify_body (JStr k) c) Verify2fa []) by (done || reflexivity).
  destruct (verify_2fa_no_entry (e_db ev') (users s) (e_now ev') k c empty_store
              (lookup_key_empty k)) as [m' Hm'].
  exists m'. unfold run_endpoint, on_twofa. cbn [users twofa restart]. by rewrite Hm'.
Qed.
End Requests.

(** ** Routing lemmas: parameters and the missing module *)

Lemma match_segs_names ps xs raw : match_segs ps xs = Some raw -> map fst raw = pnames ps.
Proof.
  revert xs raw. induction ps as [|[l|k] ps IH]; intros [|x xs] raw H; simpl in H; try discriminate.
  - by simplify_eq.
  - destruct (ci_eqb l x); [by apply (IH xs)|done].
  - destruct (String.eqb x ""); [done|].
    destruct (match_segs ps xs) eqn:E; simplify_eq/=. by rewrite (IH _ _ E).
Qed.

Lemma decode_params_names raw ps : decode_params raw = Some ps -> map fst ps = map fst raw.
Proof.
  revert ps. induction raw as [|[k v] raw IH]; intros ps; simpl; [by intros [= <-]|].
  repeat case_match; intros; simplify_eq/=. by erewrite IH.
Qed.

Lemma router_dispatch_names m url rs e ps :
  router_dispatch m url rs = Routed e ps ->
  exists r, In r rs /\ r_endpoint r = e /\ map fst ps = pnames (compile_path (r_path r)).
Proof.
  induction rs as [|r rs IH]; simpl; [done|].
  assert (router_dispatch m url rs = Routed e ps -> exists r', In r' (r :: rs) /\ r_endpoint r' = e /\
            map fst ps = pnames (compile_path (r_path r'))) as Hnext.
  { intros Hx. destruct (IH Hx) as (r' & Hin & ?). exists r'. split; [by right|done]. }
  unfold match_route. destruct (split_path url) as [xs|]; [|done].
  destruct (match_segs _ xs) as [raw|] eqn:Hm; [|done].
  destruct (decode_params raw) as [ps'|] eqn:Hd; [|done].
  destruct (handles _ _); [|done].
  intros [= <- <-]. exists r. split_and!; [by left|done|].
  by rewrite (decode_params_names _ _ Hd), (match_segs_names _ _ _ Hm).
Qed.

Lemma app_dispatch_names m path ls e ps :
  app_dispatch m path ls = Routed e ps ->
  exists p rs r, In (p, rs) ls /\ In r rs /\ r_endpoint r = e /\
                 map fst ps = pnames (compile_path (r_path r)).
Proof.
  induction ls as [|[p rs] ls IH]; simpl; [done|].
  assert (app_dispatch m path ls = Routed e ps -> exists p' rs' r, In (p', rs') ((p, rs) :: ls) /\
            In r rs' /\ r_endpoint r = e /\ map fst ps = pnames (compile_path (r_path r))) as Hnext.
  { intros Hx. destruct (IH Hx) as (p' & rs' & r & Hin & ?). exists p', rs', r. split; [by right|done]. }
  destruct (mount_match p path) as [url|]; [|done].
  destruct (router_dispatch m url rs) eqn:Hr; try done.
  intros [= <- <-]. destruct (router_dispatch_names _ _ _ _ _ Hr) as (r & ?).
  exists p, rs, r. split; [by left|done].
Qed.

(** The router at one mount plays no part for a path that mount does not
    match. *)
Lemma app_dispatch_mount_irrelevant m path l1 p rs rs' l2 :
  mount_match p path = None ->
  app_dispatch m path (l1 ++ (p, rs) :: l2) = app_dispatch m path (l1 ++ (p, rs') :: l2).
Proof.
  intros Hp. induction l1 as [|[q r] l1 IH]; simpl; [by rewrite Hp|].
  destruct (mount_match q path); [|done]. by rewrite IH.
Qed.

Lemma app_routers_split fbr :
  app_routers fbr = take 7 (app_routers []) ++ ("/api/search/filmbyrating", fbr) :: drop 8 (app_routers []).
Proof. reflexivity. Qed.

(** Every route the application mounts binds the parameters its handler
    reads. *)
Lemma app_routes_params :
  forallb (fun '(_, rs) =>
    forallb (fun r => bool_decide (pnames (compile_path (r_path r)) = endpoint_params (r_endpoint r))) rs)
    (app_routers []) = true.
Proof. vm_compute. reflexivity. Qed.

Section Modules.
Context `{PasswordHasher} `{EmailValidator} `{Collation} `{TokenSigner}.

(** whatever router the missing [listgetFilmsOrderByRatings.js]
    exports, it changes no answer and no state for a request whose path
    is not under [/api/search/filmbyrating]. *)
Theorem filmbyrating_isolated fbr fbr' ev rq s :
  mount_match "/api/search/filmbyrating" (rq_path rq) = None ->
  serve fbr ev rq s = serve fbr' ev rq s.
Proof.
  intros Hp. unfold serve. rewrite (app_routers_split fbr), (app_routers_split fbr').
  by rewrite (app_dispatch_mount_irrelevant _ _ _ _ fbr fbr').
Qed.

(** C22: every request the routers of the repository route gives its
    handler exactly the [req.params] entries the handler reads: no
    handler reads a parameter its route does not bind. *)
Theorem routed_params fbr m path e ps :
  mount_match "/api/search/filmbyrating" path = None ->
  app_dispatch m path (app_routers fbr) = Routed e ps -> map fst ps = endpoint_params e.
Proof.
  intros Hp. rewrite (app_routers_split fbr), (app_dispatch_mount_irrelevant _ _ _ _ fbr []) by done.
  intros (p & rs & r & Hin & Hr & <- & ->)%app_dispatch_names.
  pose proof app_routes_params as Hall. rewrite forallb_forall in Hall.
  specialize (Hall (p, rs) Hin). rewrite forallb_forall in Hall.
  specialize (Hall r Hr). cbv beta in Hall. by apply bool_decide_eq_true_1 in Hall.
Qed.
End Modules.

(** C31: [server.js] as committed cannot start: with every file of the
    repository and the deployment's [db.js] present, the [require] of
    [./apiRequest/listgetFilmsOrderByRatings.js] at line 56 throws before
    [app.listen]. *)
Theorem boot_missing_module present :
  (forall f, In f ("db.js" :: repository_files) -> present f = true) ->
  present "apiRequest/listgetFilmsOrderByRatings.js" = false ->
  boot present = Some "apiRequest/listgetFilmsOrderByRatings.js".
Proof.
  intros Hp Hm. unfold boot, server_requires. cbn [first_absent].
  rewrite !Hp by (simpl; tauto). by rewrite Hm.
Qed.

(** ** Witnesses, with the instances of [Services.Demo] *)

Import Demo.

(** An environment whose upstream answers every request with a body that
    is not JSON. *)
Definition broken_api_env : env := mk_env (fun _ => Malformed) true 1000 123456 None.

(** Alice has signed up and is between [/login] and [/verify-2fa]. *)
Definition alice_server : server := mk_server alice_db alice_store [] [] [].

Lemma serve_castByMovie_witness :
  "AC/DC" <> "" /\
  serve [] broken_api_env
    (mk_request GET ("/api/search/castByMovie/" +:+ encodeURIComponent "AC/DC") NoBody) fresh_server =
  settle (on_upstream (castByMovie (e_api broken_api_env) "AC/DC") fresh_server).
Proof. split; [done|]. by rewrite serve_castByMovie. Defined.

Lemma serve_undecodable_witness :
  decodeURIComponent "%E0%A4%A" = None /\
  serve [] broken_api_env (mk_request PATCH ("/api/search/actorDetail/" +:+ "%E0%A4%A") NoBody) alice_server =
    (Status 400, alice_server).
Proof. split; [reflexivity|]. apply serve_undecodable; [done|reflexivity|reflexivity]. Defined.

Lemma search_crash_drops_codes_witness :
  lookup_key "alice" (twofa alice_server) = EntryObj (mk_entry 123456 (1000 + code_ttl)) /\
  exists s1,
    serve [] broken_api_env
      (mk_request GET ("/api/search/film/" +:+ encodeURIComponent "Scream") NoBody) alice_server =
      (Died, s1) /\
    twofa s1 = empty_store /\ users s1 = alice_db /\ favoris s1 = [] /\ historique s1 = [] /\
    forall ev' k c, exists m,
      fst (serve [] ev' (verify_request k c) s1) = Sent (mk_response 401 (msg m)).
Proof.
  split; [reflexivity|].
  apply (search_crash_drops_codes [] broken_api_env "Scream" alice_server); [done|reflexivity|reflexivity].
Defined.

Lemma filmbyrating_isolated_witness :
  serve [] broken_api_env (mk_request GET "/api/search/genre" NoBody) fresh_server =
  serve [mk_route GET "/" SeriesByRating] broken_api_env (mk_request GET "/api/search/genre" NoBody)
    fresh_server.
Proof. apply filmbyrating_isolated. reflexivity. Defined.

Lemma routed_params_witness :
  app_dispatch PUT "/api/users/profile/mdp/7/" (app_routers []) = Routed ChangePassword [("id", "7")] /\
  map fst [("id", "7")] = endpoint_params ChangePassword.
Proof. split; [reflexivity|]. apply (routed_params [] PUT "/api/users/profile/mdp/7/"); reflexivity. Defined.

Lemma boot_missing_module_witness :
  boot (fun f => existsb (String.eqb f) ("db.js" :: repository_files)) =
    Some "apiRequest/listgetFilmsOrderByRatings.js".
Proof.
  apply boot_missing_module; [|reflexivity].
  intros f Hf. apply existsb_exists. exists f. split; [done|apply String.eqb_refl].
Defined.
