(* ===== verification/Contract.v ===== *)
(** The contract the back end publishes: the [@swagger] comments above the
    routes, which [swaggerJsDoc] reads ([server.js], lines 18-34, with
    [apis: ['./apiRequest/*.js', './routes/*.js']]) and which the page
    under [/api-doc] shows.  Each comment block documents one operation: a
    method, a path relative to its router, and the status codes of its
    responses ([doc_op]); the request schemas, examples and descriptions
    are not modelled.

    [answers_in codes m] is a postcondition on the handler monad: every
    answer [m] sends has a status in [codes] (exceptions and crashes are
    not answers).  It is proved compositionally, rule by rule over [ret],
    [let*], [catch] and the branches of the handler ([answers]).  With it,
    [documented_statuses] shows that every documented handler answers only
    statuses its block lists, except four routes which also answer 400
    ([undocumented_statuses]): three to an identifier [parseInt] rejects,
    [/login] to a body without credentials.

    Swagger UI sends the request of an operation to the page's own origin
    ([servers] is misplaced inside [info]) with the documented path, each
    [{name}] filled in ([fill_path]); [documented_paths_unrouted] shows that
    every such request is answered 404, the documented paths lacking the
    [/api/...] mounts of [server.js]. *)

From S2P Require Import Prelude JsValue Http Services Resolver Cast SearchRoutes ActorRoutes Accounts TwoFactor Library Server.

(** ** The documented operations *)

Record doc_op : Type := mk_doc { doc_method : method; doc_path : string; doc_codes : list Z }.

(** [routes/users.js] *)
Definition doc_register : doc_op := mk_doc POST "/register" [201; 400; 500]%Z.
Definition doc_login : doc_op := mk_doc POST "/login" [200; 401; 500]%Z.
Definition doc_verify_2fa : doc_op := mk_doc POST "/verify-2fa" [200; 401; 500]%Z.
Definition doc_profile_get : doc_op := mk_doc GET "/profile" [200; 401; 403]%Z.
Definition doc_profile_put : doc_op := mk_doc PUT "/profile/{id}" [200; 400; 500]%Z.
Definition doc_profile_mdp : doc_op := mk_doc PUT "/profile/mdp/{id}" [200; 400; 404; 500]%Z.
Definition doc_supprimer_compte : doc_op :=
  mk_doc DELETE "/profile/supprimerCompte/{id}" [200; 404; 500]%Z.

(** [routes/favoris.js] and [routes/historique.js] *)
Definition doc_favoris : doc_op := mk_doc POST "/favoris/{id}" [201; 400; 500]%Z.
Definition doc_favoris_tout : doc_op := mk_doc GET "/favorisTout/{id}" [200; 404; 500]%Z.
Definition doc_historique : doc_op := mk_doc POST "/historique/{id}" [201; 400; 500]%Z.
Definition doc_historique_tout : doc_op := mk_doc GET "/historiqueTout/{id}" [200; 404; 500]%Z.

(** [apiRequest/] *)
Definition doc_film : doc_op := mk_doc GET "/{film}" [200; 500]%Z.
Definition doc_film_id : doc_op := mk_doc GET "/idFilm/{id}" [200; 500]%Z.
Definition doc_serie : doc_op := mk_doc GET "/{serie}" [200; 500]%Z.
Definition doc_serie_id : doc_op := mk_doc GET "/idSerie/{id}" [200; 500]%Z.
Definition doc_genres : doc_op := mk_doc GET "/" [200; 500]%Z.
Definition doc_series_by_rating : doc_op := mk_doc GET "/" [200; 500]%Z.
Definition doc_film_by_actor : doc_op := mk_doc GET "/{name}" [200; 404; 500]%Z.
Definition doc_serie_by_actor : doc_op := mk_doc GET "/{nom}" [200; 404; 500]%Z.

(** The block written above each handler; [movie.js], [getActorImage.js],
    [getActorInfo.js], [GET /api/users/test], [GET /id/:id] and
    [GET /:genre] have none. *)
Definition doc_of (e : endpoint) : option doc_op :=
  match e with
  | Register => Some doc_register
  | Login => Some doc_login
  | Verify2fa => Some doc_verify_2fa
  | Profile => Some doc_profile_get
  | UpdateProfile => Some doc_profile_put
  | ChangePassword => Some doc_profile_mdp
  | DeleteAccount => Some doc_supprimer_compte
  | AddFavori => Some doc_favoris
  | ListFavoris => Some doc_favoris_tout
  | AddHistorique => Some doc_historique
  | ListHistorique => Some doc_historique_tout
  | SearchFilm => Some doc_film
  | SearchFilmById => Some doc_film_id
  | SearchSerie => Some doc_serie
  | SearchSerieById => Some doc_serie_id
  | ListGenres => Some doc_genres
  | SeriesByRating => Some doc_series_by_rating
  | ListFilmByActor => Some doc_film_by_actor
  | ListSerieByActor => Some doc_serie_by_actor
  | Test | ListByGenre | ActorById | ActorDetail | CastByMovie | CastInfoByMovie => None
  end.

(** [swaggerJsDoc(swaggerOptions)] in [server.js]: the document collects
    the blocks of [./apiRequest/*.js] and [./routes/*.js].  Its [servers]
    entry sits inside [info], where the generator does not read it, so the
    page sends its requests to its own origin, the path as documented. *)
Definition swagger_docs : list doc_op :=
  [doc_film; doc_film_id; doc_genres; doc_series_by_rating; doc_film_by_actor;
   doc_serie_by_actor; doc_serie; doc_serie_id; doc_favoris; doc_favoris_tout;
   doc_historique; doc_historique_tout; doc_register; doc_login; doc_verify_2fa;
   doc_profile_get; doc_profile_put; doc_profile_mdp; doc_supprimer_compte].

(** Swagger UI's request path: each [{name}] of the documented path
    replaced by the value typed in the form. *)
Fixpoint fill_path (inb : bool) (p x : string) : string :=
  match p with
  | EmptyString => EmptyString
  | String c p' =>
      if inb then fill_path (negb (Ascii.eqb c "}")) p' x
      else if Ascii.eqb c "{" then x +:+ fill_path true p' x
      else String c (fill_path false p' x)
  end.

(** The routes whose block omits a status they answer. *)
Definition undocumented_routes : list endpoint := [Profile; Login; DeleteAccount; ListHistorique].

(** ** Postconditions of the handler monad *)

Section Post.
Context {S : Type}.

(** Every answer [m] sends satisfies [P]; exceptions and crashes are not
    answers. *)
Definition answers (P : response -> Prop) (m : St S response) : Prop :=
  forall s r s', m s = (Val r, s') -> P r.

Lemma answers_ret (P : response -> Prop) r : P r -> answers P (ret r).
Proof. intros Hr s r' s' [= <- _]. done. Qed.

Lemma answers_bind {A} P (m : St S A) (k : A -> St S response) :
  (forall a, answers P (k a)) -> answers P (bind m k).
Proof.
  intros Hk s r s'. unfold bind. destruct (m s) as [[a| |] s1]; [apply Hk|done|done].
Qed.

(** A lifted value is known by its equation in the rest of the handler. *)
Lemma answers_bind_lift {A} P (o : outcome A) (k : A -> St S response) :
  (forall a, o = Val a -> answers P (k a)) -> answers P (bind (lift o) k).
Proof. intros Hk s r s'. unfold bind, lift. destruct o as [a| |]; [by apply Hk|done|done]. Qed.

Lemma answers_catch P (m : St S response) h :
  answers P m -> (forall e, answers P (h e)) -> answers P (catch m h).
Proof.
  intros Hm Hh s r s'. unfold catch. destruct (m s) as [[a|e|] s1] eqn:E; intros Hr.
  - apply (Hm s r s'). by rewrite E.
  - by apply (Hh e s1 r s').
  - done.
Qed.

Lemma answers_throw P e : answers P (throw e).
Proof. done. Qed.

Lemma answers_crash P : answers P crash.
Proof. done. Qed.

Lemma answers_unguarded P (m : St S response) : answers P m -> answers P (unguarded m).
Proof.
  intros Hm s r s'. unfold unguarded. destruct (m s) as [[a|e|] s1] eqn:E; intros Hr; try done.
  apply (Hm s r s'). by rewrite E.
Qed.
End Post.

(** Every answer has a status in [codes]. *)
Abbreviation answers_in codes := (answers (fun r => status r ∈ codes)).

(** Symbolic execution of a handler against the rules, each [ret] left
    to [leaf]; [answers_eq] keeps the equation of each lifted value. *)
Ltac answers_with leaf :=
  repeat first
    [ progress cbv zeta
    | apply answers_ret; cbv beta; leaf
    | apply answers_bind; intros ?
    | apply answers_catch; [|intros ?]
    | apply answers_throw
    | apply answers_crash
    | apply answers_unguarded
    | case_match ].

Ltac answers := answers_with ltac:(simpl; set_solver).

Ltac answers_eq leaf :=
  repeat first
    [ progress cbv zeta
    | apply answers_ret; cbv beta; leaf
    | apply answers_bind_lift; intros ? ?
    | apply answers_bind; intros ?
    | apply answers_catch; [|intros ?]
    | apply answers_throw
    | apply answers_crash
    | apply answers_unguarded
    | case_match ].

(** ** The statuses each handler answers *)

Create HintDb contract.

Section Handlers.
Context `{PasswordHasher} `{EmailValidator} `{Collation} `{TokenSigner}.

Lemma register_answers db_up b : answers_in [201; 400; 500]%Z (register db_up b).
Proof. unfold register. answers. Qed.

Lemma verify_2fa_answers db_up db now b : answers_in [200; 401; 500]%Z (verify_2fa db_up db now b).
Proof. unfold verify_2fa. answers. Qed.


Lemma update_profile_route_answers db_up param b :
  answers_in [200; 400; 500]%Z (update_profile_route db_up param b).
Proof. unfold update_profile_route. answers. Qed.

Lemma change_password_answers db_up now param b :
  answers_in [200; 400; 404; 500]%Z (change_password db_up now param b).
Proof. unfold change_password. answers. Qed.

Lemma addFavori_answers db_up param b : answers_in [201; 400; 500]%Z (Favoris.addFavori db_up param b).
Proof. unfold Favoris.addFavori. answers. Qed.

Lemma listFavoris_answers db_up param : answers_in [200; 404; 500]%Z (Favoris.listFavoris db_up param).
Proof. unfold Favoris.listFavoris. answers. Qed.

Lemma addHistorique_answers db_up param b :
  answers_in [201; 400; 500]%Z (Historique.addHistorique db_up param b).
Proof. unfold Historique.addHistorique. answers. Qed.

Lemma passthrough_unguarded_answers api path : answers_in [200; 500]%Z (passthrough_unguarded api path).
Proof. unfold passthrough_unguarded. answers. Qed.

Lemma passthrough_guarded_answers api e path : answers_in [200; 500]%Z (passthrough_guarded api e path).
Proof. unfold passthrough_guarded. answers. Qed.

Lemma listFilmByActor_answers api name : answers_in [200; 404; 500]%Z (listFilmByActor api name).
Proof. unfold listFilmByActor, fetch_films. answers. Qed.

Lemma listSerieByActor_answers api name : answers_in [200; 404; 500]%Z (listSerieByActor api name).
Proof. unfold listSerieByActor. answers. Qed.
End Handlers.

(** ** Through the server state *)

Lemma on_users_answers P m : answers P m -> answers P (on_users m).
Proof.
  intros Hm s r s'. unfold on_users. destruct (m (users s)) as [o u] eqn:E. intros [= -> _].
  by apply (Hm (users s) r u).
Qed.

Lemma on_twofa_answers P m : (forall db, answers P (m db)) -> answers P (on_twofa m).
Proof.
  intros Hm s r s'. unfold on_twofa. destruct (m (users s) (twofa s)) as [o t] eqn:E.
  intros [= -> _]. by apply (Hm (users s) (twofa s) r t).
Qed.

Lemma on_favoris_answers P m : answers P m -> answers P (on_favoris m).
Proof.
  intros Hm s r s'. unfold on_favoris. destruct (m (favoris s)) as [o f] eqn:E. intros [= -> _].
  by apply (Hm (favoris s) r f).
Qed.

Lemma on_historique_answers P m : answers P m -> answers P (on_historique m).
Proof.
  intros Hm s r s'. unfold on_historique. destruct (m (historique s)) as [o h] eqn:E. intros [= -> _].
  by apply (Hm (historique s) r h).
Qed.

Lemma on_upstream_answers P m : answers P m -> answers P (on_upstream m).
Proof.
  intros Hm s r s'. unfold on_upstream. destruct (m (upstream s)) as [o l] eqn:E. intros [= -> _].
  by apply (Hm (upstream s) r l).
Qed.

#[export] Hint Resolve on_users_answers on_twofa_answers on_favoris_answers on_historique_answers
  on_upstream_answers register_answers verify_2fa_answers update_profile_route_answers
  change_password_answers addFavori_answers listFavoris_answers addHistorique_answers
  passthrough_unguarded_answers passthrough_guarded_answers listFilmByActor_answers
  listSerieByActor_answers : contract.

(** ** Requests outside the mounts *)

Lemma strip_prefix_ci_app_none p q s : strip_prefix_ci p s = None -> strip_prefix_ci (p +:+ q) s = None.
Proof.
  revert s. induction p as [|x p IH]; intros [|y s]; simpl; try done.
  case_match; [apply IH|done].
Qed.

Lemma mount_match_outside q path : strip_prefix_ci "/api" path = None -> mount_match ("/api" +:+ q) path = None.
Proof. intros Hp. unfold mount_match. by rewrite strip_prefix_ci_app_none. Qed.

(** Every mount of [server.js], the Swagger page's included, starts with [/api]. *)
Lemma serve_outside_api `{PasswordHasher} `{EmailValidator} `{Collation} `{TokenSigner} fr ev m path p b s :
  parse_body p = Some b -> m <> OPTIONS -> strip_prefix_ci "/api" path = None ->
  serve fr ev (mk_request m path p) s = (Status 404, s).
Proof.
  intros Hb Hm Hp. unfold serve. cbn [rq_body rq_method rq_path].
  rewrite Hb, bool_decide_eq_false_2 by done.
  rewrite (mount_match_outside "-doc") by done.
  unfold app_routers; repeat (rewrite app_dispatch_skip by (apply mount_match_outside; done)). done.
Qed.

Section Documented.
Context `{PasswordHasher} `{EmailValidator} `{Collation} `{TokenSigner}.

(** C9: every handler with a Swagger block, but the four of
    [undocumented_routes], answers only statuses its block lists,
    whatever the request, the environment and the state. *)
Theorem documented_statuses ev e op ps b :
  doc_of e = Some op -> e ∉ undocumented_routes ->
  answers_in (doc_codes op) (run_endpoint ev e ps b).
Proof.
  intros Hd Hu. destruct e; cbn [doc_of] in Hd; simplify_eq;
    try (exfalso; apply Hu; unfold undocumented_routes; solve [repeat constructor]);
    cbn [run_endpoint doc_codes]; eauto with contract.
Qed.

(** C20: the four routes of [undocumented_routes] answer 400, a status
    their Swagger blocks do not list: [GET /profile/:id],
    [DELETE /profile/supprimerCompte/:id] and [GET /historiqueTout/:id]
    to an identifier [parseInt] rejects, [POST /login] to a body without
    credentials. *)
Theorem undocumented_statuses ev p b s :
  e_db ev = true -> valid_user_id p = None ->
  fst (run_endpoint ev Profile [("id", p)] b s) = Val invalid_id /\
  fst (run_endpoint ev DeleteAccount [("id", p)] b s) = Val invalid_id /\
  fst (run_endpoint ev ListHistorique [("id", p)] b s) = Val invalid_id /\
  fst (run_endpoint ev Login [] (JObj []) s) =
    Val (mk_response 400 (msg "Nom d'utilisateur et mot de passe sont requis.")) /\
  Forall (fun op => 400%Z ∉ doc_codes op)
    [doc_profile_get; doc_supprimer_compte; doc_historique_tout; doc_login].
Proof.
  intros Hdb Hv. cbn [run_endpoint]. change (param [("id", p)] "id") with p.
  unfold on_users, on_historique, on_twofa, profile, delete_account, Historique.listHistorique, login.
  rewrite Hdb, Hv. split_and!; try reflexivity.
  repeat (apply Forall_cons; split); first [constructor | rewrite list_elem_of_In; cbn; lia].
Qed.
(** C19: no operation of the Swagger document is served where it is
    documented: its path lacks the [/api/users] or [/api/search/...] mount
    of [server.js], so the request Swagger UI sends for it, with any
    parameter value that does not itself start with [api], is answered 404
    by Express's final handler, and no handler runs. *)
Theorem documented_paths_unrouted fr ev op x p b s :
  op ∈ swagger_docs -> parse_body p = Some b -> strip_prefix_ci "api" x = None ->
  serve fr ev (mk_request (doc_method op) (fill_path false (doc_path op) x) p) s = (Status 404, s).
Proof.
  intros Hop Hb Hx. rewrite list_elem_of_In in Hop.
  repeat destruct Hop as [<-|Hop]; try done;
    apply (serve_outside_api _ _ _ _ _ b); try done; cbn; by rewrite ?string_app_nil_r.
Qed.
End Documented.

(** ** Witnesses, with the instances of [Services.Demo] *)

Import Demo.

Lemma documented_statuses_witness :
  doc_of AddFavori = Some doc_favoris /\ (AddFavori ∉ undocumented_routes) /\
  answers_in (doc_codes doc_favoris) (run_endpoint broken_api_env AddFavori [("id", "7")] (JObj [])).
Proof.
  split; [reflexivity|]. split; [unfold undocumented_routes; rewrite list_elem_of_In; cbn; intuition congruence|].
  apply documented_statuses; [reflexivity|unfold undocumented_routes; rewrite list_elem_of_In; cbn; intuition congruence].
Defined.

Lemma undocumented_statuses_witness :
  e_db broken_api_env = true /\ valid_user_id "abc" = None /\
  fst (run_endpoint broken_api_env Profile [("id", "abc")] (JObj []) alice_server) = Val invalid_id.
Proof.
  split; [reflexivity|]. split; [reflexivity|].
  apply (undocumented_statuses broken_api_env "abc" (JObj []) alice_server); reflexivity.
Defined.

Lemma documented_paths_unrouted_witness :
  doc_favoris ∈ swagger_docs /\ parse_body (JsonText (JObj [])) = Some (JObj []) /\
  strip_prefix_ci "api" "7" = None /\
  serve [] broken_api_env (mk_request POST "/favoris/7" (JsonText (JObj []))) fresh_server =
    (Status 404, fresh_server).
Proof.
  split; [rewrite list_elem_of_In; simpl; tauto|]. split; [reflexivity|]. split; [reflexivity|].
  apply (documented_paths_unrouted [] broken_api_env doc_favoris "7" _ (JObj []));
    [rewrite list_elem_of_In; simpl; tauto|reflexivity..].
Defined.
